(** * CA2: pandemic statistics ingestion and query service (app.py)

    A shallow embedding of the parts of [app.py] that carry design content:
    the Normalizer ([clean_and_transform_data]), the Reconciler
    ([store_data_in_db]), the Ingestion Orchestrator ([fetch_and_store]) and
    the Query Service ([get_records], [get_statistics], [get_continents],
    [get_top_countries]), followed by the properties established for
    them. *)

From Stdlib Require Import ZArith String Ascii List Lia Bool.
From Stdlib Require Import Floats.SpecFloat.
From stdpp Require Import gmap strings list sorting pretty.

Local Open Scope string_scope.
Local Open Scope Z_scope.
Local Open Scope list_scope.
Local Set Warnings "-register-all".

(** ** Python values

    [response.json()] yields an arbitrary JSON document, which Python holds
    as [None], [bool], [int], [float], [str], [list] or [dict] with string
    keys. *)

Inductive value : Type :=
  | VNone
  | VBool (b : bool)
  | VInt (z : Z)
  | VFloat (f : spec_float)
  | VStr (s : string)
  | VList (l : list value)
  | VDict (d : gmap string value).

(** Exceptions that the embedded code can meet. *)
Inductive exn : Type :=
  | AttributeError
  | TypeError
  | KeyError
  | OverflowError
  | StorageError.

Inductive result (A : Type) : Type :=
  | Ok (a : A)
  | Raise (e : exn).
Arguments Ok {A} a.
Arguments Raise {A} e.

#[global] Instance result_ret : MRet result := fun A a => Ok a.
#[global] Instance result_bind : MBind result := fun A B f m =>
  match m with
  | Ok a => f a
  | Raise e => Raise e
  end.

(** [bool(v)]: Python truthiness. *)
Definition truthy (v : value) : bool :=
  match v with
  | VNone => false
  | VBool b => b
  | VInt z => negb (Z.eqb z 0)
  | VFloat (S754_zero _) => false
  | VFloat _ => true
  | VStr s => negb (String.eqb s "")
  | VList l => negb (Nat.eqb (length l) 0)
  | VDict d => negb (Nat.eqb (size d) 0)
  end.

(** [v or d]. *)
Definition py_or (v d : value) : value := if truthy v then v else d.

(** [v == s] for a string literal [s]. *)
Definition eq_str (v : value) (s : string) : bool :=
  match v with
  | VStr t => String.eqb t s
  | _ => false
  end.

(** [key in v] for a string [key]: key membership on a dict, element
    membership on a list, substring test on a str, [TypeError] on anything
    else. *)
Definition py_contains (v : value) (key : string) : result bool :=
  match v with
  | VDict d => Ok (bool_decide (is_Some (d !! key)))
  | VList l => Ok (existsb (fun x => eq_str x key) l)
  | VStr s => Ok (bool_decide (is_Some (String.index 0 key s)))
  | _ => Raise TypeError
  end.

(** [v[key]] for a string [key]. *)
Definition py_getitem (v : value) (key : string) : result value :=
  match v with
  | VDict d => match d !! key with
               | Some x => Ok x
               | None => Raise KeyError
               end
  | _ => Raise TypeError
  end.

(** [record.get(key, default)]: only dicts have [get]. *)
Definition py_get (record : value) (key : string) (dflt : value) : result value :=
  match record with
  | VDict d => Ok (default dflt (d !! key))
  | _ => Raise AttributeError
  end.

(** *** str

    A Python str is a sequence of Unicode code points.  The [string] that
    stands for it holds its UTF-8 encoding, one [ascii] per byte; a
    surrogate, which an escape of the JSON document can put into a str, is
    encoded like any other code point below 2^16.  Equality, order,
    concatenation and the substring test are the same on the bytes as on the
    code points; slicing, iteration, [str.strip] and [str.upper] go by code
    point. *)

(** The number of bytes of the code point whose first byte is [c]. *)
Definition utf8_width (c : ascii) : nat :=
  let n := nat_of_ascii c in
  if (n <? 192)%nat then 1%nat
  else if (n <? 224)%nat then 2%nat
  else if (n <? 240)%nat then 3%nat
  else 4%nat.

(** The bytes cut into code points; [fuel] bounds the number of code
    points. *)
Fixpoint code_points_fuel (fuel : nat) (l : list ascii) : list (list ascii) :=
  match fuel, l with
  | Datatypes.S fuel', c :: _ =>
      take (utf8_width c) l :: code_points_fuel fuel' (drop (utf8_width c) l)
  | _, _ => []
  end.

Definition code_points (l : list ascii) : list (list ascii) :=
  code_points_fuel (length l) l.

(** The code points of a str, and the str of a sequence of code points. *)
Definition str_points (s : string) : list (list ascii) :=
  code_points (list_ascii_of_string s).

Definition str_of_points (points : list (list ascii)) : string :=
  string_of_list_ascii (concat points).

Definition utf8_decode (point : list ascii) : N :=
  (match map N_of_ascii point with
   | [a] => a
   | [a; b] => (a mod 32) * 64 + b mod 64
   | [a; b; c] => (a mod 16) * 4096 + (b mod 64) * 64 + c mod 64
   | [a; b; c; d] =>
       (a mod 8) * 262144 + (b mod 64) * 4096 + (c mod 64) * 64 + d mod 64
   | _ => 0
   end)%N.

Definition utf8_encode (n : N) : list ascii :=
  map ascii_of_N
    (if n <? 128 then [n]
     else if n <? 2048 then [192 + n / 64; 128 + n mod 64]
     else if n <? 65536
          then [224 + n / 4096; 128 + (n / 64) mod 64; 128 + n mod 64]
          else [240 + n / 262144; 128 + (n / 4096) mod 64;
                128 + (n / 64) mod 64; 128 + n mod 64])%N.

(** The number of a code point. *)
Definition code_point (point : list ascii) : option N :=
  let n := utf8_decode point in
  if bool_decide (utf8_encode n = point) then Some n else None.

(** [s[:n]] on a str: its first [n] code points. *)
Definition str_take (n : nat) (s : string) : string :=
  str_of_points (take n (str_points s)).

(** The items visited by [for record in v[:n]]: the first [n] elements of a
    list, the first [n] one-character strings of a str; other values cannot
    be sliced. *)
Definition py_slice_items (v : value) (n : nat) : result (list value) :=
  match v with
  | VList l => Ok (take n l)
  | VStr s =>
      Ok (map (fun point => VStr (string_of_list_ascii point))
              (take n (str_points s)))
  | _ => Raise TypeError
  end.

(** *** str methods *)

(** The code points for which [str.isspace] holds; [str.strip] removes
    them. *)
Definition unicode_whitespace : list N :=
  [9; 10; 11; 12; 13; 28; 29; 30; 31; 32; 133; 160; 5760; 8192; 8193; 8194;
   8195; 8196; 8197; 8198; 8199; 8200; 8201; 8202; 8232; 8233; 8239; 8287;
   12288]%N.

Definition is_space (point : list ascii) : bool :=
  match code_point point with
  | Some n => existsb (N.eqb n) unicode_whitespace
  | None => false
  end.

Fixpoint drop_spaces (l : list (list ascii)) : list (list ascii) :=
  match l with
  | point :: l' => if is_space point then drop_spaces l' else l
  | [] => []
  end.

Definition strip_chars (l : list (list ascii)) : list (list ascii) :=
  reverse (drop_spaces (reverse (drop_spaces l))).

Definition strip (s : string) : string :=
  str_of_points (strip_chars (str_points s)).

(** The upper-case mapping of the Unicode character database (version 14,
    the one of Python 3.11): every code point that [str.upper] changes, with
    the code points it becomes. *)
Definition unicode_upper : list (N * list N) :=
  [(97, [65]); (98, [66]); (99, [67]); (100, [68]); (101, [69]); (102, [70]);
   (103, [71]); (104, [72]); (105, [73]); (106, [74]); (107, [75]);
   (108, [76]); (109, [77]); (110, [78]); (111, [79]); (112, [80]);
   (113, [81]); (114, [82]); (115, [83]); (116, [84]); (117, [85]);
   (118, [86]); (119, [87]); (120, [88]); (121, [89]); (122, [90]);
   (181, [924]); (223, [83; 83]); (224, [192]); (225, [193]); (226, [194]);
   (227, [195]); (228, [196]); (229, [197]); (230, [198]); (231, [199]);
   (232, [200]); (233, [201]); (234, [202]); (235, [203]); (236, [204]);
   (237, [205]); (238, [206]); (239, [207]); (240, [208]); (241, [209]);
   (242, [210]); (243, [211]); (244, [212]); (245, [213]); (246, [214]);
   (248, [216]); (249, [217]); (250, [218]); (251, [219]); (252, [220]);
   (253, [221]); (254, [222]); (255, [376]); (257, [256]); (259, [258]);
   (261, [260]); (263, [262]); (265, [264]); (267, [266]); (269, [268]);
   (271, [270]); (273, [272]); (275, [274]); (277, [276]); (279, [278]);
   (281, [280]); (283, [282]); (285, [284]); (287, [286]); (289, [288]);
   (291, [290]); (293, [292]); (295, [294]); (297, [296]); (299, [298]);
   (301, [300]); (303, [302]); (305, [73]); (307, [306]); (309, [308]);
   (311, [310]); (314, [313]); (316, [315]); (318, [317]); (320, [319]);
   (322, [321]); (324, [323]); (326, [325]); (328, [327]); (329, [700; 78]);
   (331, [330]); (333, [332]); (335, [334]); (337, [336]); (339, [338]);
   (341, [340]); (343, [342]); (345, [344]); (347, [346]); (349, [348]);
   (351, [350]); (353, [352]); (355, [354]); (357, [356]); (359, [358]);
   (361, [360]); (363, [362]); (365, [364]); (367, [366]); (369, [368]);
   (371, [370]); (373, [372]); (375, [374]); (378, [377]); (380, [379]);
   (382, [381]); (383, [83]); (384, [579]); (387, [386]); (389, [388]);
   (392, [391]); (396, [395]); (402, [401]); (405, [502]); (409, [408]);
   (410, [573]); (414, [544]); (417, [416]); (419, [418]); (421, [420]);
   (424, [423]); (429, [428]); (432, [431]); (436, [435]); (438, [437]);
   (441, [440]); (445, [444]); (447, [503]); (453, [452]); (454, [452]);
   (456, [455]); (457, [455]); (459, [458]); (460, [458]); (462, [461]);
   (464, [463]); (466, [465]); (468, [467]); (470, [469]); (472, [471]);
   (474, [473]); (476, [475]); (477, [398]); (479, [478]); (481, [480]);
   (483, [482]); (485, [484]); (487, [486]); (489, [488]); (491, [490]);
   (493, [492]); (495, [494]); (496, [74; 780]); (498, [497]); (499, [497]);
   (501, [500]); (505, [504]); (507, [506]); (509, [508]); (511, [510]);
   (513, [512]); (515, [514]); (517, [516]); (519, [518]); (521, [520]);
   (523, [522]); (525, [524]); (527, [526]); (529, [528]); (531, [530]);
   (533, [532]); (535, [534]); (537, [536]); (539, [538]); (541, [540]);
   (543, [542]); (547, [546]); (549, [548]); (551, [550]); (553, [552]);
   (555, [554]); (557, [556]); (559, [558]); (561, [560]); (563, [562]);
   (572, [571]); (575, [11390]); (576, [11391]); (578, [577]); (583, [582]);
   (585, [584]); (587, [586]); (589, [588]); (591, [590]); (592, [11375]);
   (593, [11373]); (594, [11376]); (595, [385]); (596, [390]); (598, [393]);
   (599, [394]); (601, [399]); (603, [400]); (604, [42923]); (608, [403]);
   (609, [42924]); (611, [404]); (613, [42893]); (614, [42922]);
   (616, [407]); (617, [406]); (618, [42926]); (619, [11362]);
   (620, [42925]); (623, [412]); (625, [11374]); (626, [413]); (629, [415]);
   (637, [11364]); (640, [422]); (642, [42949]); (643, [425]);
   (647, [42929]); (648, [430]); (649, [580]); (650, [433]); (651, [434]);
   (652, [581]); (658, [439]); (669, [42930]); (670, [42928]); (837, [921]);
   (881, [880]); (883, [882]); (887, [886]); (891, [1021]); (892, [1022]);
   (893, [1023]); (912, [921; 776; 769]); (940, [902]); (941, [904]);
   (942, [905]); (943, [906]); (944, [933; 776; 769]); (945, [913]);
   (946, [914]); (947, [915]); (948, [916]); (949, [917]); (950, [918]);
   (951, [919]); (952, [920]); (953, [921]); (954, [922]); (955, [923]);
   (956, [924]); (957, [925]); (958, [926]); (959, [927]); (960, [928]);
   (961, [929]); (962, [931]); (963, [931]); (964, [932]); (965, [933]);
   (966, [934]); (967, [935]); (968, [936]); (969, [937]); (970, [938]);
   (971, [939]); (972, [908]); (973, [910]); (974, [911]); (976, [914]);
   (977, [920]); (981, [934]); (982, [928]); (983, [975]); (985, [984]);
   (987, [986]); (989, [988]); (991, [990]); (993, [992]); (995, [994]);
   (997, [996]); (999, [998]); (1001, [1000]); (1003, [1002]);
   (1005, [1004]); (1007, [1006]); (1008, [922]); (1009, [929]);
   (1010, [1017]); (1011, [895]); (1013, [917]); (1016, [1015]);
   (1019, [1018]); (1072, [1040]); (1073, [1041]); (1074, [1042]);
   (1075, [1043]); (1076, [1044]); (1077, [1045]); (1078, [1046]);
   (1079, [1047]); (1080, [1048]); (1081, [1049]); (1082, [1050]);
   (1083, [1051]); (1084, [1052]); (1085, [1053]); (1086, [1054]);
   (1087, [1055]); (1088, [1056]); (1089, [1057]); (1090, [1058]);
   (1091, [1059]); (1092, [1060]); (1093, [1061]); (1094, [1062]);
   (1095, [1063]); (1096, [1064]); (1097, [1065]); (1098, [1066]);
   (1099, [1067]); (1100, [1068]); (1101, [1069]); (1102, [1070]);
   (1103, [1071]); (1104, [1024]); (1105, [1025]); (1106, [1026]);
   (1107, [1027]); (1108, [1028]); (1109, [1029]); (1110, [1030]);
   (1111, [1031]); (1112, [1032]); (1113, [1033]); (1114, [1034]);
   (1115, [1035]); (1116, [1036]); (1117, [1037]); (1118, [1038]);
   (1119, [1039]); (1121, [1120]); (1123, [1122]); (1125, [1124]);
   (1127, [1126]); (1129, [1128]); (1131, [1130]); (1133, [1132]);
   (1135, [1134]); (1137, [1136]); (1139, [1138]); (1141, [1140]);
   (1143, [1142]); (1145, [1144]); (1147, [1146]); (1149, [1148]);
   (1151, [1150]); (1153, [1152]); (1163, [1162]); (1165, [1164]);
   (1167, [1166]); (1169, [1168]); (1171, [1170]); (1173, [1172]);
   (1175, [1174]); (1177, [1176]); (1179, [1178]); (1181, [1180]);
   (1183, [1182]); (1185, [1184]); (1187, [1186]); (1189, [1188]);
   (1191, [1190]); (1193, [1192]); (1195, [1194]); (1197, [1196]);
   (1199, [1198]); (1201, [1200]); (1203, [1202]); (1205, [1204]);
   (1207, [1206]); (1209, [1208]); (1211, [1210]); (1213, [1212]);
   (1215, [1214]); (1218, [1217]); (1220, [1219]); (1222, [1221]);
   (1224, [1223]); (1226, [1225]); (1228, [1227]); (1230, [1229]);
   (1231, [1216]); (1233, [1232]); (1235, [1234]); (1237, [1236]);
   (1239, [1238]); (1241, [1240]); (1243, [1242]); (1245, [1244]);
   (1247, [1246]); (1249, [1248]); (1251, [1250]); (1253, [1252]);
   (1255, [1254]); (1257, [1256]); (1259, [1258]); (1261, [1260]);
   (1263, [1262]); (1265, [1264]); (1267, [1266]); (1269, [1268]);
   (1271, [1270]); (1273, [1272]); (1275, [1274]); (1277, [1276]);
   (1279, [1278]); (1281, [1280]); (1283, [1282]); (1285, [1284]);
   (1287, [1286]); (1289, [1288]); (1291, [1290]); (1293, [1292]);
   (1295, [1294]); (1297, [1296]); (1299, [1298]); (1301, [1300]);
   (1303, [1302]); (1305, [1304]); (1307, [1306]); (1309, [1308]);
   (1311, [1310]); (1313, [1312]); (1315, [1314]); (1317, [1316]);
   (1319, [1318]); (1321, [1320]); (1323, [1322]); (1325, [1324]);
   (1327, [1326]); (1377, [1329]); (1378, [1330]); (1379, [1331]);
   (1380, [1332]); (1381, [1333]); (1382, [1334]); (1383, [1335]);
   (1384, [1336]); (1385, [1337]); (1386, [1338]); (1387, [1339]);
   (1388, [1340]); (1389, [1341]); (1390, [1342]); (1391, [1343]);
   (1392, [1344]); (1393, [1345]); (1394, [1346]); (1395, [1347]);
   (1396, [1348]); (1397, [1349]); (1398, [1350]); (1399, [1351]);
   (1400, [1352]); (1401, [1353]); (1402, [1354]); (1403, [1355]);
   (1404, [1356]); (1405, [1357]); (1406, [1358]); (1407, [1359]);
   (1408, [1360]); (1409, [1361]); (1410, [1362]); (1411, [1363]);
   (1412, [1364]); (1413, [1365]); (1414, [1366]); (1415, [1333; 1362]);
   (4304, [7312]); (4305, [7313]); (4306, [7314]); (4307, [7315]);
   (4308, [7316]); (4309, [7317]); (4310, [7318]); (4311, [7319]);
   (4312, [7320]); (4313, [7321]); (4314, [7322]); (4315, [7323]);
   (4316, [7324]); (4317, [7325]); (4318, [7326]); (4319, [7327]);
   (4320, [7328]); (4321, [7329]); (4322, [7330]); (4323, [7331]);
   (4324, [7332]); (4325, [7333]); (4326, [7334]); (4327, [7335]);
   (4328, [7336]); (4329, [7337]); (4330, [7338]); (4331, [7339]);
   (4332, [7340]); (4333, [7341]); (4334, [7342]); (4335, [7343]);
   (4336, [7344]); (4337, [7345]); (4338, [7346]); (4339, [7347]);
   (4340, [7348]); (4341, [7349]); (4342, [7350]); (4343, [7351]);
   (4344, [7352]); (4345, [7353]); (4346, [7354]); (4349, [7357]);
   (4350, [7358]); (4351, [7359]); (5112, [5104]); (5113, [5105]);
   (5114, [5106]); (5115, [5107]); (5116, [5108]); (5117, [5109]);
   (7296, [1042]); (7297, [1044]); (7298, [1054]); (7299, [1057]);
   (7300, [1058]); (7301, [1058]); (7302, [1066]); (7303, [1122]);
   (7304, [42570]); (7545, [42877]); (7549, [11363]); (7566, [42950]);
   (7681, [7680]); (7683, [7682]); (7685, [7684]); (7687, [7686]);
   (7689, [7688]); (7691, [7690]); (7693, [7692]); (7695, [7694]);
   (7697, [7696]); (7699, [7698]); (7701, [7700]); (7703, [7702]);
   (7705, [7704]); (7707, [7706]); (7709, [7708]); (7711, [7710]);
   (7713, [7712]); (7715, [7714]); (7717, [7716]); (7719, [7718]);
   (7721, [7720]); (7723, [7722]); (7725, [7724]); (7727, [7726]);
   (7729, [7728]); (7731, [7730]); (7733, [7732]); (7735, [7734]);
   (7737, [7736]); (7739, [7738]); (7741, [7740]); (7743, [7742]);
   (7745, [7744]); (7747, [7746]); (7749, [7748]); (7751, [7750]);
   (7753, [7752]); (7755, [7754]); (7757, [7756]); (7759, [7758]);
   (7761, [7760]); (7763, [7762]); (7765, [7764]); (7767, [7766]);
   (7769, [7768]); (7771, [7770]); (7773, [7772]); (7775, [7774]);
   (7777, [7776]); (7779, [7778]); (7781, [7780]); (7783, [7782]);
   (7785, [7784]); (7787, [7786]); (7789, [7788]); (7791, [7790]);
   (7793, [7792]); (7795, [7794]); (7797, [7796]); (7799, [7798]);
   (7801, [7800]); (7803, [7802]); (7805, [7804]); (7807, [7806]);
   (7809, [7808]); (7811, [7810]); (7813, [7812]); (7815, [7814]);
   (7817, [7816]); (7819, [7818]); (7821, [7820]); (7823, [7822]);
   (7825, [7824]); (7827, [7826]); (7829, [7828]); (7830, [72; 817]);
   (7831, [84; 776]); (7832, [87; 778]); (7833, [89; 778]);
   (7834, [65; 702]); (7835, [7776]); (7841, [7840]); (7843, [7842]);
   (7845, [7844]); (7847, [7846]); (7849, [7848]); (7851, [7850]);
   (7853, [7852]); (7855, [7854]); (7857, [7856]); (7859, [7858]);
   (7861, [7860]); (7863, [7862]); (7865, [7864]); (7867, [7866]);
   (7869, [7868]); (7871, [7870]); (7873, [7872]); (7875, [7874]);
   (7877, [7876]); (7879, [7878]); (7881, [7880]); (7883, [7882]);
   (7885, [7884]); (7887, [7886]); (7889, [7888]); (7891, [7890]);
   (7893, [7892]); (7895, [7894]); (7897, [7896]); (7899, [7898]);
   (7901, [7900]); (7903, [7902]); (7905, [7904]); (7907, [7906]);
   (7909, [7908]); (7911, [7910]); (7913, [7912]); (7915, [7914]);
   (7917, [7916]); (7919, [7918]); (7921, [7920]); (7923, [7922]);
   (7925, [7924]); (7927, [7926]); (7929, [7928]); (7931, [7930]);
   (7933, [7932]); (7935, [7934]); (7936, [7944]); (7937, [7945]);
   (7938, [7946]); (7939, [7947]); (7940, [7948]); (7941, [7949]);
   (7942, [7950]); (7943, [7951]); (7952, [7960]); (7953, [7961]);
   (7954, [7962]); (7955, [7963]); (7956, [7964]); (7957, [7965]);
   (7968, [7976]); (7969, [7977]); (7970, [7978]); (7971, [7979]);
   (7972, [7980]); (7973, [7981]); (7974, [7982]); (7975, [7983]);
   (7984, [7992]); (7985, [7993]); (7986, [7994]); (7987, [7995]);
   (7988, [7996]); (7989, [7997]); (7990, [7998]); (7991, [7999]);
   (8000, [8008]); (8001, [8009]); (8002, [8010]); (8003, [8011]);
   (8004, [8012]); (8005, [8013]); (8016, [933; 787]); (8017, [8025]);
   (8018, [933; 787; 768]); (8019, [8027]); (8020, [933; 787; 769]);
   (8021, [8029]); (8022, [933; 787; 834]); (8023, [8031]); (8032, [8040]);
   (8033, [8041]); (8034, [8042]); (8035, [8043]); (8036, [8044]);
   (8037, [8045]); (8038, [8046]); (8039, [8047]); (8048, [8122]);
   (8049, [8123]); (8050, [8136]); (8051, [8137]); (8052, [8138]);
   (8053, [8139]); (8054, [8154]); (8055, [8155]); (8056, [8184]);
   (8057, [8185]); (8058, [8170]); (8059, [8171]); (8060, [8186]);
   (8061, [8187]); (8064, [7944; 921]); (8065, [7945; 921]);
   (8066, [7946; 921]); (8067, [7947; 921]); (8068, [7948; 921]);
   (8069, [7949; 921]); (8070, [7950; 921]); (8071, [7951; 921]);
   (8072, [7944; 921]); (8073, [7945; 921]); (8074, [7946; 921]);
   (8075, [7947; 921]); (8076, [7948; 921]); (8077, [7949; 921]);
   (8078, [7950; 921]); (8079, [7951; 921]); (8080, [7976; 921]);
   (8081, [7977; 921]); (8082, [7978; 921]); (8083, [7979; 921]);
   (8084, [7980; 921]); (8085, [7981; 921]); (8086, [7982; 921]);
   (8087, [7983; 921]); (8088, [7976; 921]); (8089, [7977; 921]);
   (8090, [7978; 921]); (8091, [7979; 921]); (8092, [7980; 921]);
   (8093, [7981; 921]); (8094, [7982; 921]); (8095, [7983; 921]);
   (8096, [8040; 921]); (8097, [8041; 921]); (8098, [8042; 921]);
   (8099, [8043; 921]); (8100, [8044; 921]); (8101, [8045; 921]);
   (8102, [8046; 921]); (8103, [8047; 921]); (8104, [8040; 921]);
   (8105, [8041; 921]); (8106, [8042; 921]); (8107, [8043; 921]);
   (8108, [8044; 921]); (8109, [8045; 921]); (8110, [8046; 921]);
   (8111, [8047; 921]); (8112, [8120]); (8113, [8121]); (8114, [8122; 921]);
   (8115, [913; 921]); (8116, [902; 921]); (8118, [913; 834]);
   (8119, [913; 834; 921]); (8124, [913; 921]); (8126, [921]);
   (8130, [8138; 921]); (8131, [919; 921]); (8132, [905; 921]);
   (8134, [919; 834]); (8135, [919; 834; 921]); (8140, [919; 921]);
   (8144, [8152]); (8145, [8153]); (8146, [921; 776; 768]);
   (8147, [921; 776; 769]); (8150, [921; 834]); (8151, [921; 776; 834]);
   (8160, [8168]); (8161, [8169]); (8162, [933; 776; 768]);
   (8163, [933; 776; 769]); (8164, [929; 787]); (8165, [8172]);
   (8166, [933; 834]); (8167, [933; 776; 834]); (8178, [8186; 921]);
   (8179, [937; 921]); (8180, [911; 921]); (8182, [937; 834]);
   (8183, [937; 834; 921]); (8188, [937; 921]); (8526, [8498]);
   (8560, [8544]); (8561, [8545]); (8562, [8546]); (8563, [8547]);
   (8564, [8548]); (8565, [8549]); (8566, [8550]); (8567, [8551]);
   (8568, [8552]); (8569, [8553]); (8570, [8554]); (8571, [8555]);
   (8572, [8556]); (8573, [8557]); (8574, [8558]); (8575, [8559]);
   (8580, [8579]); (9424, [9398]); (9425, [9399]); (9426, [9400]);
   (9427, [9401]); (9428, [9402]); (9429, [9403]); (9430, [9404]);
   (9431, [9405]); (9432, [9406]); (9433, [9407]); (9434, [9408]);
   (9435, [9409]); (9436, [9410]); (9437, [9411]); (9438, [9412]);
   (9439, [9413]); (9440, [9414]); (9441, [9415]); (9442, [9416]);
   (9443, [9417]); (9444, [9418]); (9445, [9419]); (9446, [9420]);
   (9447, [9421]); (9448, [9422]); (9449, [9423]); (11312, [11264]);
   (11313, [11265]); (11314, [11266]); (11315, [11267]); (11316, [11268]);
   (11317, [11269]); (11318, [11270]); (11319, [11271]); (11320, [11272]);
   (11321, [11273]); (11322, [11274]); (11323, [11275]); (11324, [11276]);
   (11325, [11277]); (11326, [11278]); (11327, [11279]); (11328, [11280]);
   (11329, [11281]); (11330, [11282]); (11331, [11283]); (11332, [11284]);
   (11333, [11285]); (11334, [11286]); (11335, [11287]); (11336, [11288]);
   (11337, [11289]); (11338, [11290]); (11339, [11291]); (11340, [11292]);
   (11341, [11293]); (11342, [11294]); (11343, [11295]); (11344, [11296]);
   (11345, [11297]); (11346, [11298]); (11347, [11299]); (11348, [11300]);
   (11349, [11301]); (11350, [11302]); (11351, [11303]); (11352, [11304]);
   (11353, [11305]); (11354, [11306]); (11355, [11307]); (11356, [11308]);
   (11357, [11309]); (11358, [11310]); (11359, [11311]); (11361, [11360]);
   (11365, [570]); (11366, [574]); (11368, [11367]); (11370, [11369]);
   (11372, [11371]); (11379, [11378]); (11382, [11381]); (11393, [11392]);
   (11395, [11394]); (11397, [11396]); (11399, [11398]); (11401, [11400]);
   (11403, [11402]); (11405, [11404]); (11407, [11406]); (11409, [11408]);
   (11411, [11410]); (11413, [11412]); (11415, [11414]); (11417, [11416]);
   (11419, [11418]); (11421, [11420]); (11423, [11422]); (11425, [11424]);
   (11427, [11426]); (11429, [11428]); (11431, [11430]); (11433, [11432]);
   (11435, [11434]); (11437, [11436]); (11439, [11438]); (11441, [11440]);
   (11443, [11442]); (11445, [11444]); (11447, [11446]); (11449, [11448]);
   (11451, [11450]); (11453, [11452]); (11455, [11454]); (11457, [11456]);
   (11459, [11458]); (11461, [11460]); (11463, [11462]); (11465, [11464]);
   (11467, [11466]); (11469, [11468]); (11471, [11470]); (11473, [11472]);
   (11475, [11474]); (11477, [11476]); (11479, [11478]); (11481, [11480]);
   (11483, [11482]); (11485, [11484]); (11487, [11486]); (11489, [11488]);
   (11491, [11490]); (11500, [11499]); (11502, [11501]); (11507, [11506]);
   (11520, [4256]); (11521, [4257]); (11522, [4258]); (11523, [4259]);
   (11524, [4260]); (11525, [4261]); (11526, [4262]); (11527, [4263]);
   (11528, [4264]); (11529, [4265]); (11530, [4266]); (11531, [4267]);
   (11532, [4268]); (11533, [4269]); (11534, [4270]); (11535, [4271]);
   (11536, [4272]); (11537, [4273]); (11538, [4274]); (11539, [4275]);
   (11540, [4276]); (11541, [4277]); (11542, [4278]); (11543, [4279]);
   (11544, [4280]); (11545, [4281]); (11546, [4282]); (11547, [4283]);
   (11548, [4284]); (11549, [4285]); (11550, [4286]); (11551, [4287]);
   (11552, [4288]); (11553, [4289]); (11554, [4290]); (11555, [4291]);
   (11556, [4292]); (11557, [4293]); (11559, [4295]); (11565, [4301]);
   (42561, [42560]); (42563, [42562]); (42565, [42564]); (42567, [42566]);
   (42569, [42568]); (42571, [42570]); (42573, [42572]); (42575, [42574]);
   (42577, [42576]); (42579, [42578]); (42581, [42580]); (42583, [42582]);
   (42585, [42584]); (42587, [42586]); (42589, [42588]); (42591, [42590]);
   (42593, [42592]); (42595, [42594]); (42597, [42596]); (42599, [42598]);
   (42601, [42600]); (42603, [42602]); (42605, [42604]); (42625, [42624]);
   (42627, [42626]); (42629, [42628]); (42631, [42630]); (42633, [42632]);
   (42635, [42634]); (42637, [42636]); (42639, [42638]); (42641, [42640]);
   (42643, [42642]); (42645, [42644]); (42647, [42646]); (42649, [42648]);
   (42651, [42650]); (42787, [42786]); (42789, [42788]); (42791, [42790]);
   (42793, [42792]); (42795, [42794]); (42797, [42796]); (42799, [42798]);
   (42803, [42802]); (42805, [42804]); (42807, [42806]); (42809, [42808]);
   (42811, [42810]); (42813, [42812]); (42815, [42814]); (42817, [42816]);
   (42819, [42818]); (42821, [42820]); (42823, [42822]); (42825, [42824]);
   (42827, [42826]); (42829, [42828]); (42831, [42830]); (42833, [42832]);
   (42835, [42834]); (42837, [42836]); (42839, [42838]); (42841, [42840]);
   (42843, [42842]); (42845, [42844]); (42847, [42846]); (42849, [42848]);
   (42851, [42850]); (42853, [42852]); (42855, [42854]); (42857, [42856]);
   (42859, [42858]); (42861, [42860]); (42863, [42862]); (42874, [42873]);
   (42876, [42875]); (42879, [42878]); (42881, [42880]); (42883, [42882]);
   (42885, [42884]); (42887, [42886]); (42892, [42891]); (42897, [42896]);
   (42899, [42898]); (42900, [42948]); (42903, [42902]); (42905, [42904]);
   (42907, [42906]); (42909, [42908]); (42911, [42910]); (42913, [42912]);
   (42915, [42914]); (42917, [42916]); (42919, [42918]); (42921, [42920]);
   (42933, [42932]); (42935, [42934]); (42937, [42936]); (42939, [42938]);
   (42941, [42940]); (42943, [42942]); (42945, [42944]); (42947, [42946]);
   (42952, [42951]); (42954, [42953]); (42961, [42960]); (42967, [42966]);
   (42969, [42968]); (42998, [42997]); (43859, [42931]); (43888, [5024]);
   (43889, [5025]); (43890, [5026]); (43891, [5027]); (43892, [5028]);
   (43893, [5029]); (43894, [5030]); (43895, [5031]); (43896, [5032]);
   (43897, [5033]); (43898, [5034]); (43899, [5035]); (43900, [5036]);
   (43901, [5037]); (43902, [5038]); (43903, [5039]); (43904, [5040]);
   (43905, [5041]); (43906, [5042]); (43907, [5043]); (43908, [5044]);
   (43909, [5045]); (43910, [5046]); (43911, [5047]); (43912, [5048]);
   (43913, [5049]); (43914, [5050]); (43915, [5051]); (43916, [5052]);
   (43917, [5053]); (43918, [5054]); (43919, [5055]); (43920, [5056]);
   (43921, [5057]); (43922, [5058]); (43923, [5059]); (43924, [5060]);
   (43925, [5061]); (43926, [5062]); (43927, [5063]); (43928, [5064]);
   (43929, [5065]); (43930, [5066]); (43931, [5067]); (43932, [5068]);
   (43933, [5069]); (43934, [5070]); (43935, [5071]); (43936, [5072]);
   (43937, [5073]); (43938, [5074]); (43939, [5075]); (43940, [5076]);
   (43941, [5077]); (43942, [5078]); (43943, [5079]); (43944, [5080]);
   (43945, [5081]); (43946, [5082]); (43947, [5083]); (43948, [5084]);
   (43949, [5085]); (43950, [5086]); (43951, [5087]); (43952, [5088]);
   (43953, [5089]); (43954, [5090]); (43955, [5091]); (43956, [5092]);
   (43957, [5093]); (43958, [5094]); (43959, [5095]); (43960, [5096]);
   (43961, [5097]); (43962, [5098]); (43963, [5099]); (43964, [5100]);
   (43965, [5101]); (43966, [5102]); (43967, [5103]); (64256, [70; 70]);
   (64257, [70; 73]); (64258, [70; 76]); (64259, [70; 70; 73]);
   (64260, [70; 70; 76]); (64261, [83; 84]); (64262, [83; 84]);
   (64275, [1348; 1350]); (64276, [1348; 1333]); (64277, [1348; 1339]);
   (64278, [1358; 1350]); (64279, [1348; 1341]); (65345, [65313]);
   (65346, [65314]); (65347, [65315]); (65348, [65316]); (65349, [65317]);
   (65350, [65318]); (65351, [65319]); (65352, [65320]); (65353, [65321]);
   (65354, [65322]); (65355, [65323]); (65356, [65324]); (65357, [65325]);
   (65358, [65326]); (65359, [65327]); (65360, [65328]); (65361, [65329]);
   (65362, [65330]); (65363, [65331]); (65364, [65332]); (65365, [65333]);
   (65366, [65334]); (65367, [65335]); (65368, [65336]); (65369, [65337]);
   (65370, [65338]); (66600, [66560]); (66601, [66561]); (66602, [66562]);
   (66603, [66563]); (66604, [66564]); (66605, [66565]); (66606, [66566]);
   (66607, [66567]); (66608, [66568]); (66609, [66569]); (66610, [66570]);
   (66611, [66571]); (66612, [66572]); (66613, [66573]); (66614, [66574]);
   (66615, [66575]); (66616, [66576]); (66617, [66577]); (66618, [66578]);
   (66619, [66579]); (66620, [66580]); (66621, [66581]); (66622, [66582]);
   (66623, [66583]); (66624, [66584]); (66625, [66585]); (66626, [66586]);
   (66627, [66587]); (66628, [66588]); (66629, [66589]); (66630, [66590]);
   (66631, [66591]); (66632, [66592]); (66633, [66593]); (66634, [66594]);
   (66635, [66595]); (66636, [66596]); (66637, [66597]); (66638, [66598]);
   (66639, [66599]); (66776, [66736]); (66777, [66737]); (66778, [66738]);
   (66779, [66739]); (66780, [66740]); (66781, [66741]); (66782, [66742]);
   (66783, [66743]); (66784, [66744]); (66785, [66745]); (66786, [66746]);
   (66787, [66747]); (66788, [66748]); (66789, [66749]); (66790, [66750]);
   (66791, [66751]); (66792, [66752]); (66793, [66753]); (66794, [66754]);
   (66795, [66755]); (66796, [66756]); (66797, [66757]); (66798, [66758]);
   (66799, [66759]); (66800, [66760]); (66801, [66761]); (66802, [66762]);
   (66803, [66763]); (66804, [66764]); (66805, [66765]); (66806, [66766]);
   (66807, [66767]); (66808, [66768]); (66809, [66769]); (66810, [66770]);
   (66811, [66771]); (66967, [66928]); (66968, [66929]); (66969, [66930]);
   (66970, [66931]); (66971, [66932]); (66972, [66933]); (66973, [66934]);
   (66974, [66935]); (66975, [66936]); (66976, [66937]); (66977, [66938]);
   (66979, [66940]); (66980, [66941]); (66981, [66942]); (66982, [66943]);
   (66983, [66944]); (66984, [66945]); (66985, [66946]); (66986, [66947]);
   (66987, [66948]); (66988, [66949]); (66989, [66950]); (66990, [66951]);
   (66991, [66952]); (66992, [66953]); (66993, [66954]); (66995, [66956]);
   (66996, [66957]); (66997, [66958]); (66998, [66959]); (66999, [66960]);
   (67000, [66961]); (67001, [66962]); (67003, [66964]); (67004, [66965]);
   (68800, [68736]); (68801, [68737]); (68802, [68738]); (68803, [68739]);
   (68804, [68740]); (68805, [68741]); (68806, [68742]); (68807, [68743]);
   (68808, [68744]); (68809, [68745]); (68810, [68746]); (68811, [68747]);
   (68812, [68748]); (68813, [68749]); (68814, [68750]); (68815, [68751]);
   (68816, [68752]); (68817, [68753]); (68818, [68754]); (68819, [68755]);
   (68820, [68756]); (68821, [68757]); (68822, [68758]); (68823, [68759]);
   (68824, [68760]); (68825, [68761]); (68826, [68762]); (68827, [68763]);
   (68828, [68764]); (68829, [68765]); (68830, [68766]); (68831, [68767]);
   (68832, [68768]); (68833, [68769]); (68834, [68770]); (68835, [68771]);
   (68836, [68772]); (68837, [68773]); (68838, [68774]); (68839, [68775]);
   (68840, [68776]); (68841, [68777]); (68842, [68778]); (68843, [68779]);
   (68844, [68780]); (68845, [68781]); (68846, [68782]); (68847, [68783]);
   (68848, [68784]); (68849, [68785]); (68850, [68786]); (71872, [71840]);
   (71873, [71841]); (71874, [71842]); (71875, [71843]); (71876, [71844]);
   (71877, [71845]); (71878, [71846]); (71879, [71847]); (71880, [71848]);
   (71881, [71849]); (71882, [71850]); (71883, [71851]); (71884, [71852]);
   (71885, [71853]); (71886, [71854]); (71887, [71855]); (71888, [71856]);
   (71889, [71857]); (71890, [71858]); (71891, [71859]); (71892, [71860]);
   (71893, [71861]); (71894, [71862]); (71895, [71863]); (71896, [71864]);
   (71897, [71865]); (71898, [71866]); (71899, [71867]); (71900, [71868]);
   (71901, [71869]); (71902, [71870]); (71903, [71871]); (93792, [93760]);
   (93793, [93761]); (93794, [93762]); (93795, [93763]); (93796, [93764]);
   (93797, [93765]); (93798, [93766]); (93799, [93767]); (93800, [93768]);
   (93801, [93769]); (93802, [93770]); (93803, [93771]); (93804, [93772]);
   (93805, [93773]); (93806, [93774]); (93807, [93775]); (93808, [93776]);
   (93809, [93777]); (93810, [93778]); (93811, [93779]); (93812, [93780]);
   (93813, [93781]); (93814, [93782]); (93815, [93783]); (93816, [93784]);
   (93817, [93785]); (93818, [93786]); (93819, [93787]); (93820, [93788]);
   (93821, [93789]); (93822, [93790]); (93823, [93791]); (125218, [125184]);
   (125219, [125185]); (125220, [125186]); (125221, [125187]);
   (125222, [125188]); (125223, [125189]); (125224, [125190]);
   (125225, [125191]); (125226, [125192]); (125227, [125193]);
   (125228, [125194]); (125229, [125195]); (125230, [125196]);
   (125231, [125197]); (125232, [125198]); (125233, [125199]);
   (125234, [125200]); (125235, [125201]); (125236, [125202]);
   (125237, [125203]); (125238, [125204]); (125239, [125205]);
   (125240, [125206]); (125241, [125207]); (125242, [125208]);
   (125243, [125209]); (125244, [125210]); (125245, [125211]);
   (125246, [125212]); (125247, [125213]); (125248, [125214]);
   (125249, [125215]); (125250, [125216]); (125251, [125217])]%N.

Fixpoint unicode_lookup (n : N) (table : list (N * list N)) : option (list N) :=
  match table with
  | [] => None
  | (k, v) :: table' => if N.eqb k n then Some v else unicode_lookup n table'
  end.

Definition upper_char (point : list ascii) : list ascii :=
  match code_point point with
  | Some n =>
      match unicode_lookup n unicode_upper with
      | Some upper => concat (map utf8_encode upper)
      | None => point
      end
  | None => point
  end.

(** [str.upper]: every code point is mapped by itself. *)
Definition upper (s : string) : string :=
  str_of_points (map upper_char (str_points s)).

Definition py_strip (v : value) : result string :=
  match v with
  | VStr s => Ok (strip s)
  | _ => Raise AttributeError
  end.

(** [v[:3].upper()]: a str is sliced and upper-cased; a list can be sliced
    but has no [upper]; nothing else can be sliced. *)
Definition py_slice3_upper (v : value) : result string :=
  match v with
  | VStr s => Ok (upper (str_take 3 s))
  | VList _ => Raise AttributeError
  | _ => Raise TypeError
  end.

(** ** Data model

    The fifteen keys of a cleaned record, which are also the fifteen
    attributes of [CovidRecord] that [store_data_in_db] assigns.  The record
    is parametric in what the loosely typed attributes hold: the Normalizer
    produces Python values in all of them, the table schema declares
    [String], [Integer] and [Float] columns. *)

Record cleaned_record {S I F : Type} : Type := mk_cleaned_record {
  country : string;
  country_code : string;
  continent : S;
  population : I;
  total_cases : I;
  new_cases : I;
  total_deaths : I;
  new_deaths : I;
  total_recovered : I;
  active_cases : I;
  critical_cases : I;
  cases_per_million : F;
  deaths_per_million : F;
  total_tests : I;
  tests_per_million : F
}.
Arguments cleaned_record : clear implicits.
Arguments mk_cleaned_record {S I F}.

(** ** Normalizer *)

Abbreviation py_record := (cleaned_record value value value).

Definition int_zero : value := VInt 0.
Definition float_zero : value := VFloat (S754_zero false).

(** Lines 98-118: the part of the loop body after the skip test. *)
Definition build_record (record country_name : value) : result py_record :=
  cases ← py_get record "cases" (VDict ∅);
  deaths ← py_get record "deaths" (VDict ∅);
  tests ← py_get record "tests" (VDict ∅);
  v_country ← py_strip country_name;
  raw_country ← py_get record "country" (VStr "");
  v_country_code ← py_slice3_upper raw_country;
  v_continent ← py_get record "continent" (VStr "Unknown");
  v_population ← py_get record "population" VNone;
  c_total ← py_get cases "total" VNone;
  c_new ← py_get cases "new" VNone;
  d_total ← py_get deaths "total" VNone;
  d_new ← py_get deaths "new" VNone;
  c_recovered ← py_get cases "recovered" VNone;
  c_active ← py_get cases "active" VNone;
  c_critical ← py_get cases "critical" VNone;
  c_1m ← py_get cases "1M_pop" VNone;
  d_1m ← py_get deaths "1M_pop" VNone;
  t_total ← py_get tests "total" VNone;
  t_1m ← py_get tests "1M_pop" VNone;
  mret {| country := v_country;
          country_code := v_country_code;
          continent := v_continent;
          population := py_or v_population int_zero;
          total_cases := py_or c_total int_zero;
          new_cases := py_or c_new int_zero;
          total_deaths := py_or d_total int_zero;
          new_deaths := py_or d_new int_zero;
          total_recovered := py_or c_recovered int_zero;
          active_cases := py_or c_active int_zero;
          critical_cases := py_or c_critical int_zero;
          cases_per_million := py_or c_1m float_zero;
          deaths_per_million := py_or d_1m float_zero;
          total_tests := py_or t_total int_zero;
          tests_per_million := py_or t_1m float_zero |}.

(** [country_name in ['All', 'Unknown']]. *)
Definition is_placeholder (country_name : value) : bool :=
  eq_str country_name "All" || eq_str country_name "Unknown".

(** The [try] block of one iteration: [Ok None] is [continue], [Ok (Some r)]
    reaches [append], [Raise e] leaves through an exception. *)
Definition process_entry (record : value) : result (option py_record) :=
  country_name ← py_get record "country" (VStr "Unknown");
  if is_placeholder country_name then mret None
  else r ← build_record record country_name; mret (Some r).

(** One iteration with its [except Exception: continue]. *)
Definition loop_body (cleaned_records : list py_record) (record : value)
  : list py_record :=
  match process_entry record with
  | Ok (Some r) => cleaned_records ++ [r]
  | Ok None => cleaned_records
  | Raise _ => cleaned_records
  end.

Definition clean_and_transform_data (raw_data : value) : result (list py_record) :=
  if negb (truthy raw_data) then Ok []
  else
    has ← py_contains raw_data "response";
    if negb has then Ok []
    else
      response ← py_getitem raw_data "response";
      items ← py_slice_items response 500;
      Ok (fold_left loop_body items []).


(** ** Record Store

    A row of [covid_records]: the primary key, the fifteen attributes that a
    cleaned record carries, and the time stamp. *)

Record CovidRecord {S I F : Type} : Type := mk_CovidRecord {
  id : Z;
  attrs : cleaned_record S I F;
  date_recorded : Z
}.
Arguments CovidRecord : clear implicits.
Arguments mk_CovidRecord {S I F}.

(** The database together with the SQLAlchemy session that [db.session] and
    [CovidRecord.query] go through.
    - [table]: the committed rows, in rowid order;
    - [txn]: the rows as the open transaction sees them (flushed inserts and
      attribute assignments included);
    - [session_new]: objects handed to [db.session.add] and not flushed yet;
    - [clock_reads], [storage_ops]: how often [datetime.utcnow] was called
      and how many statements were sent to the engine. *)
Record database {S I F : Type} : Type := mk_database {
  table : list (CovidRecord S I F);
  txn : list (CovidRecord S I F);
  session_new : list (cleaned_record S I F);
  clock_reads : nat;
  storage_ops : nat
}.
Arguments database : clear implicits.
Arguments mk_database {S I F}.

(** A request starts with nothing pending in the session. *)
Definition session_clean {S I F} (w : database S I F) : Prop :=
  txn w = table w /\ session_new w = [].

Section Reconciler.
Context {S I F : Type}.

(** [utc n] is what the [n]-th call of [datetime.utcnow()] returns;
    [fails n] tells whether the [n]-th statement sent to the engine raises. *)
Variable utc : nat -> Z.
Variable fails : nat -> bool.

Local Abbreviation record := (cleaned_record S I F).
Local Abbreviation row := (CovidRecord S I F).
Local Abbreviation world := (database S I F).

(** Computations on the session: a result or an exception, and the state
    reached. *)
Definition db (A : Type) : Type := world -> result A * world.

#[global] Instance db_ret : MRet db := fun A a w => (Ok a, w).
#[global] Instance db_bind : MBind db := fun A B k m w =>
  match m w with
  | (Ok a, w') => k a w'
  | (Raise e, w') => (Raise e, w')
  end.

(** [try: body except Exception as e: handler]. *)
Definition try_except {A} (body : db A) (handler : exn -> db A) : db A :=
  fun w =>
    match body w with
    | (Ok a, w') => (Ok a, w')
    | (Raise e, w') => handler e w'
    end.

Definition utcnow : db Z := fun w =>
  (Ok (utc (clock_reads w)),
   mk_database (table w) (txn w) (session_new w) (Datatypes.S (clock_reads w))
               (storage_ops w)).

(** One statement sent to the engine. *)
Definition storage_op : db unit := fun w =>
  let w' := mk_database (table w) (txn w) (session_new w) (clock_reads w)
                        (Datatypes.S (storage_ops w)) in
  if fails (storage_ops w) then (Raise StorageError, w') else (Ok tt, w').

(** The rowid SQLite gives to an inserted row: one more than the largest in
    the table. *)
Definition next_id (rows : list row) : Z :=
  1 + fold_right Z.max 0 (map id rows).

Definition append_row (r : record) (now : Z) : db unit := fun w =>
  (Ok tt,
   mk_database (table w)
               (txn w ++ [mk_CovidRecord (next_id (txn w)) r now])
               (session_new w) (clock_reads w) (storage_ops w)).

(** INSERT of one pending object: [date_recorded] takes its column default
    [datetime.utcnow], then the statement is sent. *)
Definition insert_row (r : record) : db unit :=
  now ← utcnow;
  storage_op;;
  append_row r now.

Fixpoint insert_rows (rs : list record) : db unit :=
  match rs with
  | [] => mret tt
  | r :: rs' => insert_row r;; insert_rows rs'
  end.

Definition clear_session_new : db unit := fun w =>
  (Ok tt, mk_database (table w) (txn w) [] (clock_reads w) (storage_ops w)).

(** [session.flush()]: the pending objects are inserted in the order in
    which they were added. *)
Definition flush : db unit := fun w =>
  (insert_rows (session_new w);; clear_session_new) w.

(** The predicate [country = c] of [filter_by]. *)
Definition has_country (c : string) (x : row) : Prop := country (attrs x) = c.

#[global] Instance has_country_dec c x : Decision (has_country c x).
Proof. unfold has_country. apply _. Defined.

(** The first row of the transaction's view whose country is [c]; the
    result is the position of that row, which stands for the object. *)
Definition first_by_country (c : string) : db (option nat) := fun w =>
  (Ok (fst <$> list_find (has_country c) (txn w)), w).

(** [CovidRecord.query.filter_by(country=c).first()]: the session
    autoflushes, then the SELECT runs. *)
Definition query_first_by_country (c : string) : db (option nat) :=
  flush;;
  storage_op;;
  first_by_country c.

(** [for key, value in record.items(): setattr(existing, key, value)].
    The assignment is applied to the transaction's view at once; the UPDATE it
    causes is part of the next flush, which is always followed by a statement
    of its own ([storage_op]) that stands for both. *)
Definition setattr_items (existing : nat) (r : record) : db unit := fun w =>
  (Ok tt,
   mk_database (table w)
               (alter (fun x => mk_CovidRecord (id x) r (date_recorded x))
                      existing (txn w))
               (session_new w) (clock_reads w) (storage_ops w)).

(** [existing.date_recorded = t]. *)
Definition set_date_recorded (existing : nat) (t : Z) : db unit := fun w =>
  (Ok tt,
   mk_database (table w)
               (alter (fun x => mk_CovidRecord (id x) (attrs x) t)
                      existing (txn w))
               (session_new w) (clock_reads w) (storage_ops w)).

(** [new_record = CovidRecord( **record ); db.session.add(new_record)]. *)
Definition session_add (r : record) : db unit := fun w =>
  (Ok tt,
   mk_database (table w) (txn w) (session_new w ++ [r]) (clock_reads w)
               (storage_ops w)).

Definition make_durable : db unit := fun w =>
  (Ok tt, mk_database (txn w) (txn w) [] (clock_reads w) (storage_ops w)).

(** [db.session.commit()]: flush, then make the transaction durable. *)
Definition commit : db unit :=
  flush;;
  storage_op;;
  make_durable.

(** [db.session.rollback()]. *)
Definition rollback : db unit := fun w =>
  (Ok tt, mk_database (table w) (table w) [] (clock_reads w) (storage_ops w)).

(** The [for] loop of lines 132-148 with its local [count]. *)
Fixpoint store_loop (records : list record) (count : Z) : db Z :=
  match records with
  | [] => mret count
  | r :: rest =>
      existing ← query_first_by_country (country r);
      match existing with
      | Some i =>
          setattr_items i r;;
          now ← utcnow;
          set_date_recorded i now
      | None => session_add r
      end;;
      store_loop rest (count + 1)
  end.

(** The [try] block of lines 131-151. *)
Definition store_body (records : list record) : db Z :=
  count ← store_loop records 0;
  commit;;
  mret count.

Definition store_data_in_db (records : list record) : db Z :=
  try_except (store_body records)
             (fun _ => rollback;; mret 0).

(** *** The upsert as a function on the rows

    What one iteration amounts to once its pending insert is flushed; used
    to reason about the loop.  The state is the transaction's view of the
    rows and the number of clock readings. *)

(** Position of the first row whose country is [c]. *)
Definition find_key (c : string) (rows : list row) : option nat :=
  fst <$> list_find (has_country c) rows.

Definition insert_pending (r : record) (st : list row * nat) : list row * nat :=
  (fst st ++ [mk_CovidRecord (next_id (fst st)) r (utc (snd st))],
   Datatypes.S (snd st)).

(** The rows and the clock once everything pending is flushed. *)
Definition pending_view (w : world) : list row * nat :=
  fold_left (fun st r => insert_pending r st) (session_new w)
            (txn w, clock_reads w).

Definition upsert (r : record) (st : list row * nat) : list row * nat :=
  match find_key (country r) (fst st) with
  | Some i =>
      (alter (fun x => mk_CovidRecord (id x) r (utc (snd st))) i (fst st),
       Datatypes.S (snd st))
  | None => insert_pending r st
  end.

Definition upsert_all (records : list record) (st : list row * nat)
  : list row * nat :=
  fold_left (fun st r => upsert r st) records st.

(** How many records of a batch are inserted and how many are updated when
    they are upserted one after the other: a record is an update when a row
    of its country is there at its turn, an insert otherwise. *)
Fixpoint upsert_counts (records : list record) (st : list row * nat)
  : nat * nat :=
  match records with
  | [] => (0%nat, 0%nat)
  | r :: rest =>
      let '(inserted, updated) := upsert_counts rest (upsert r st) in
      match find_key (country r) (fst st) with
      | Some _ => (inserted, Datatypes.S updated)
      | None => (Datatypes.S inserted, updated)
      end
  end.

End Reconciler.


(** ** Query Service

    The read side works on the committed rows.  Its columns have the types
    the schema declares; every column but [id] and [country] is nullable.
    A store in which an [Integer] column holds a text or a real number, which
    SQLite permits, is outside this model. *)

Abbreviation sql_row := (CovidRecord (option string) (option Z) (option spec_float)).

(** What a view function returns: [jsonify(body)] or
    [jsonify({'error': ...}), 500]. *)
Inductive http (A : Type) : Type :=
  | Json200 (body : A)
  | Error500 (e : exn).
Arguments Json200 {A} body.
Arguments Error500 {A} e.

(** *** Integers of the engine

    SQLite holds an integer in 64 bits.  The driver refuses to bind a Python
    int outside that range to a statement parameter. *)

Definition sqlite_min : Z := - 2 ^ 63.
Definition sqlite_max : Z := 2 ^ 63 - 1.

Definition fits_sqlite (z : Z) : bool := (sqlite_min <=? z) && (z <=? sqlite_max).

Definition bind_int (z : Z) : result Z :=
  if fits_sqlite z then Ok z else Raise OverflowError.

(** *** Aggregate statistics *)

(** SQL [SUM] over an integer column, with the sum so far in [acc]: NULLs
    are skipped, the sum of no value is NULL, and the statement fails with
    "integer overflow" once the running sum, taken in row order, leaves 64
    bits. *)
Fixpoint sql_sum_from (acc : option Z) (xs : list (option Z))
  : result (option Z) :=
  match xs with
  | [] => Ok acc
  | None :: xs' => sql_sum_from acc xs'
  | Some z :: xs' =>
      let s := default 0 acc + z in
      if fits_sqlite s then sql_sum_from (Some s) xs' else Raise StorageError
  end.

Definition sql_sum (xs : list (option Z)) : result (option Z) :=
  sql_sum_from None xs.

(** [scalar() or 0]. *)
Definition scalar_or_zero (o : option Z) : Z :=
  match o with
  | Some z => if z =? 0 then 0 else z
  | None => 0
  end.

Module Stats.
Record t : Type := mk {
  total_records : Z;
  total_cases : Z;
  total_deaths : Z;
  total_recovered : Z;
  active_cases : Z
}.
End Stats.

(** The [try] block of lines 229-240. *)
Definition statistics_body {S F : Type} (rows : list (CovidRecord S (option Z) F))
  : result Stats.t :=
  let total_records := Z.of_nat (length rows) in
  total_cases ← sql_sum (map (fun x => total_cases (attrs x)) rows);
  let total_cases := scalar_or_zero total_cases in
  total_deaths ← sql_sum (map (fun x => total_deaths (attrs x)) rows);
  let total_deaths := scalar_or_zero total_deaths in
  total_recovered ← sql_sum (map (fun x => total_recovered (attrs x)) rows);
  let total_recovered := scalar_or_zero total_recovered in
  mret (Stats.mk total_records total_cases total_deaths total_recovered
                 (total_cases - total_deaths - total_recovered)).

Definition get_statistics {S F : Type} (rows : list (CovidRecord S (option Z) F))
  : http Stats.t :=
  match statistics_body rows with
  | Ok body => Json200 body
  | Raise e => Error500 e
  end.

(** *** Listing *)

(** The query parameters of [/api/records] as [request.args.get] sees them:
    [None] when the parameter is absent (for [page] and [per_page] also when
    it is not an integer, since [type=int] then yields the default). *)
Record request_args : Type := mk_request_args {
  arg_page : option Z;
  arg_per_page : option Z;
  arg_country : option string;
  arg_continent : option string;
  arg_sort_by : option string;
  arg_order : option string
}.

(** [request.args.get(key, default)]. *)
Definition args_get {A : Type} (arg : option A) (dflt : A) : A := default dflt arg.

Inductive column : Type :=
  | c_id | c_country | c_country_code | c_continent | c_population
  | c_total_cases | c_new_cases | c_total_deaths | c_new_deaths
  | c_total_recovered | c_active_cases | c_critical_cases
  | c_cases_per_million | c_deaths_per_million | c_total_tests
  | c_tests_per_million | c_date_recorded.

Definition column_names : list (string * column) :=
  [("id", c_id); ("country", c_country); ("country_code", c_country_code);
   ("continent", c_continent); ("population", c_population);
   ("total_cases", c_total_cases); ("new_cases", c_new_cases);
   ("total_deaths", c_total_deaths); ("new_deaths", c_new_deaths);
   ("total_recovered", c_total_recovered); ("active_cases", c_active_cases);
   ("critical_cases", c_critical_cases);
   ("cases_per_million", c_cases_per_million);
   ("deaths_per_million", c_deaths_per_million);
   ("total_tests", c_total_tests);
   ("tests_per_million", c_tests_per_million);
   ("date_recorded", c_date_recorded)].

(** The column of that name; there is none for any other name. *)
Definition getattr_column (name : string) : result column :=
  match list_find (fun p => fst p = name) column_names with
  | Some (_, (_, c)) => Ok c
  | None => Raise AttributeError
  end.

(** What [db.asc] and [db.desc] are given: a column, or a value that the
    statement takes as a constant. *)
Inductive sort_key : Type :=
  | ByColumn (c : column)
  | ByConstant.

(** The attributes of the class that are not columns.  They are not defined
    in [app.py] but come with [db.Model] and with Python's classes, so they
    are taken as given: [cls name] is [Raise e] when the attribute is missing
    ([AttributeError]) or its value is refused as a sort key, and [Ok tt]
    when [ORDER BY] takes its value as a constant, as it does for [None],
    the value of [__doc__]. *)
Definition class_attributes : Type := string -> result unit.

(** [getattr(CovidRecord, name)] as the operand of [db.asc] and [db.desc]. *)
Definition getattr (cls : class_attributes) (name : string) : result sort_key :=
  match getattr_column name with
  | Ok c => Ok (ByColumn c)
  | Raise _ => _ ← cls name; Ok ByConstant
  end.

(** Column order of the engine: NULL sorts before every value, text is
    compared byte-wise, numbers by value. *)
Definition opt_leb {A : Type} (leb : A -> A -> bool) (a b : option A) : bool :=
  match a, b with
  | None, _ => true
  | Some _, None => false
  | Some x, Some y => leb x y
  end.

Definition float_leb (x y : spec_float) : bool :=
  match SFcompare x y with
  | Some Gt => false
  | _ => true
  end.

Definition column_leb (c : column) (a b : sql_row) : bool :=
  let on {A} (leb : A -> A -> bool) (f : sql_row -> A) := leb (f a) (f b) in
  let attr {A} (f : cleaned_record _ _ _ -> A) (x : sql_row) := f (attrs x) in
  match c with
  | c_id => on Z.leb id
  | c_country => on String.leb (attr country)
  | c_country_code => on String.leb (attr country_code)
  | c_continent => on (opt_leb String.leb) (attr continent)
  | c_population => on (opt_leb Z.leb) (attr population)
  | c_total_cases => on (opt_leb Z.leb) (attr total_cases)
  | c_new_cases => on (opt_leb Z.leb) (attr new_cases)
  | c_total_deaths => on (opt_leb Z.leb) (attr total_deaths)
  | c_new_deaths => on (opt_leb Z.leb) (attr new_deaths)
  | c_total_recovered => on (opt_leb Z.leb) (attr total_recovered)
  | c_active_cases => on (opt_leb Z.leb) (attr active_cases)
  | c_critical_cases => on (opt_leb Z.leb) (attr critical_cases)
  | c_cases_per_million => on (opt_leb float_leb) (attr cases_per_million)
  | c_deaths_per_million => on (opt_leb float_leb) (attr deaths_per_million)
  | c_total_tests => on (opt_leb Z.leb) (attr total_tests)
  | c_tests_per_million => on (opt_leb float_leb) (attr tests_per_million)
  | c_date_recorded => on Z.leb date_recorded
  end.

Inductive direction : Type := Asc | Desc.

(** [a] may come before [b] under [ORDER BY c dir]. *)
Definition order_rel (dir : direction) (c : column) (a b : sql_row) : Prop :=
  match dir with
  | Asc => column_leb c a b
  | Desc => column_leb c b a
  end.

#[global] Instance order_rel_dec dir c a b : Decision (order_rel dir c a b).
Proof. destruct dir; simpl; apply _. Defined.

(** [x] put into rows that are in order: before the first row that it may
    come before. *)
Fixpoint insert_row_by (dir : direction) (c : column) (x : sql_row)
  (rows : list sql_row) : list sql_row :=
  match rows with
  | [] => [x]
  | y :: rows' =>
      if decide (order_rel dir c x y) then x :: rows
      else y :: insert_row_by dir c x rows'
  end.

(** [query.order_by(db.asc(col))] and [query.order_by(db.desc(col))]: the
    rows in the order of the column; rows with equal values stay in the order
    in which the table holds them. *)
Definition order_by (dir : direction) (c : column) (rows : list sql_row)
  : list sql_row :=
  foldr (insert_row_by dir c) [] rows.

(** Ordering by a constant leaves the rows as the table holds them. *)
Definition order_by_key (dir : direction) (key : sort_key) (rows : list sql_row)
  : list sql_row :=
  match key with
  | ByColumn c => order_by dir c rows
  | ByConstant => rows
  end.

(** SQL [LIKE] on text already folded to one case: [%] matches any run of
    characters, [_] any single character, that is, the bytes of one code
    point. *)
Fixpoint like_match (pattern : list ascii) : list ascii -> bool :=
  match pattern with
  | [] => fun text => match text with [] => true | _ => false end
  | p :: pattern' =>
      if Ascii.eqb p "%" then
        fix any (text : list ascii) : bool :=
          like_match pattern' text
          || match text with
             | [] => false
             | _ :: text' => any text'
             end
      else if Ascii.eqb p "_" then
        fun text => match text with
                    | [] => false
                    | t :: _ =>
                        let n := nat_of_ascii t in
                        if ((128 <=? n)%nat && (n <? 192)%nat)%bool then false
                        else like_match pattern' (drop (utf8_width t) text)
                    end
      else
        fun text => match text with
                    | [] => false
                    | t :: text' => Ascii.eqb p t && like_match pattern' text'
                    end
  end.

Definition lower_char (c : ascii) : ascii :=
  let n := nat_of_ascii c in
  if ((65 <=? n)%nat && (n <=? 90)%nat)%bool then ascii_of_nat (n + 32) else c.

(** [column.ilike(pattern)]: [lower(column) LIKE lower(pattern)]. *)
Definition ilike (text pattern : string) : bool :=
  like_match (map lower_char (list_ascii_of_string pattern))
             (map lower_char (list_ascii_of_string text)).

Definition country_matches (needle : string) (x : sql_row) : bool :=
  ilike (country (attrs x)) ("%" ++ needle ++ "%")%string.

Definition continent_matches (name : string) (x : sql_row) : bool :=
  match continent (attrs x) with
  | Some c => String.eqb c name
  | None => false
  end.

(** A statement under construction, given by what its execution yields: the
    rows, or the error that the engine raises.  Nothing is raised before the
    statement is executed. *)
Definition sql_query : Type := result (list sql_row).

(** SQLite refuses a LIKE pattern of more than 50000 bytes ("LIKE or GLOB
    pattern too complex") as soon as it has a row to match it with. *)
Definition sqlite_max_like_pattern : Z := 50000.

(** [query.filter(CovidRecord.country.ilike(f'%{country}%'))]. *)
Definition filter_country (needle : string) (query : sql_query) : sql_query :=
  rows ← query;
  match rows with
  | [] => Ok []
  | _ :: _ =>
      if sqlite_max_like_pattern
         <? Z.of_nat (String.length ("%" ++ needle ++ "%")%string)
      then Raise StorageError
      else Ok (List.filter (country_matches needle) rows)
  end.

(** [query.filter(CovidRecord.continent == continent)]. *)
Definition filter_continent (name : string) (query : sql_query) : sql_query :=
  rows ← query;
  Ok (List.filter (continent_matches name) rows).

(** Lines 201-204: the two optional filters. *)
Definition apply_filters (country_arg continent_arg : string)
  (query : sql_query) : sql_query :=
  let query :=
    if negb (String.eqb country_arg "")
    then filter_country country_arg query
    else query in
  if negb (String.eqb continent_arg "") && negb (String.eqb continent_arg "all")
  then filter_continent continent_arg query
  else query.

(** [query.order_by(...)]. *)
Definition query_order_by (dir : direction) (key : sort_key) (query : sql_query)
  : sql_query :=
  rows ← query;
  Ok (order_by_key dir key rows).

(** Lines 207-210: the sort direction. *)
Definition apply_sorting (order : string) (key : sort_key) (query : sql_query)
  : sql_query :=
  if String.eqb order "desc" then query_order_by Desc key query
  else query_order_by Asc key query.

(** [math.ceil(a / b)] for a positive [b]. *)
Definition ceil_div (a b : Z) : Z := - ((- a) / b).

Module Pagination.
Record t : Type := mk {
  items : list sql_row;
  total : Z;
  pages : Z
}.
End Pagination.

(** Flask-SQLAlchemy's [Query.paginate(page, per_page, max_per_page,
    error_out=False)]: a [per_page] above [max_per_page] is cut down to it,
    [page] below 1 becomes 1 and [per_page] below 1 becomes 20; the items
    are [LIMIT per_page OFFSET (page - 1) * per_page], both bound as
    statement parameters before the statement is executed, the total counts
    the whole query. *)
Definition paginate (query : sql_query) (page per_page : Z)
  (max_per_page : option Z) : result Pagination.t :=
  let per_page :=
    match max_per_page with
    | Some m => Z.min per_page m
    | None => per_page
    end in
  let page := if page <? 1 then 1 else page in
  let per_page := if per_page <? 1 then 20 else per_page in
  limit ← bind_int per_page;
  offset ← bind_int ((page - 1) * per_page);
  rows ← query;
  let items := take (Z.to_nat limit) (drop (Z.to_nat offset) rows) in
  let total := Z.of_nat (length rows) in
  mret (Pagination.mk items total
                      (if total =? 0 then 0 else ceil_div total per_page)).

Module Listing.
Record t : Type := mk {
  records : list sql_row;
  total : Z;
  page : Z;
  per_page : Z;
  pages : Z
}.
End Listing.

(** The [try] block of lines 189-221. *)
Definition records_body (cls : class_attributes) (args : request_args)
  (rows : list sql_row) : result Listing.t :=
  let page := args_get (arg_page args) 1 in
  let per_page := args_get (arg_per_page args) 10 in
  let country := args_get (arg_country args) "" in
  let continent := args_get (arg_continent args) "" in
  let sort_by := args_get (arg_sort_by args) "total_cases" in
  let order := args_get (arg_order args) "desc" in
  let query := Ok rows in
  let query := apply_filters country continent query in
  key ← getattr cls sort_by;
  let query := apply_sorting order key query in
  pagination ← paginate query page per_page None;
  mret (Listing.mk (Pagination.items pagination)
                   (Pagination.total pagination)
                   page per_page
                   (Pagination.pages pagination)).

Definition get_records (cls : class_attributes) (args : request_args)
  (rows : list sql_row) : http Listing.t :=
  match records_body cls args rows with
  | Ok body => Json200 body
  | Raise e => Error500 e
  end.

(** ** Specification-level notions

    The definitions below follow the wording of the specification; the
    theorems compare them with the embedded code. *)

(** The resolved country name of an entry: the raw value, or ["Unknown"] when
    the key is missing.  Only an object has one. *)
Definition resolved_country_name (record : value) : option value :=
  match record with
  | VDict d => Some (default (VStr "Unknown") (d !! "country"))
  | _ => None
  end.

(** The entry names a real country: its resolved name is neither ["All"] nor
    ["Unknown"]. *)
Definition names_country (record : value) : bool :=
  match resolved_country_name record with
  | Some name => negb (eq_str name "All") && negb (eq_str name "Unknown")
  | None => false
  end.

(** The record derived from an entry, when its processing does not raise. *)
Definition derived_record (record : value) : option py_record :=
  match resolved_country_name record with
  | Some name =>
      match build_record record name with
      | Ok r => Some r
      | Raise _ => None
      end
  | None => None
  end.

Definition normalizer_spec (entries : list value) : list py_record :=
  omap derived_record (List.filter names_country (take 500 entries)).

(** [p] occurs in [t] as a contiguous run of characters. *)
Definition occurs_in (p t : list ascii) : Prop :=
  exists before after, t = before ++ p ++ after.

(** The payload is an object with a top-level field ['response']. *)
Definition has_response_field (raw_data : value) : Prop :=
  exists d v, raw_data = VDict d /\ d !! "response" = Some v.

(** The payload is an object, a list or a str. *)
Definition is_container (raw_data : value) : bool :=
  match raw_data with
  | VDict _ | VList _ | VStr _ => true
  | _ => false
  end.

(** ['response'] occurs in a payload that is a list or a str: as an
    element of the list, as a run of characters of the str. *)
Definition response_occurs (raw_data : value) : Prop :=
  match raw_data with
  | VList l => In (VStr "response") l
  | VStr s => occurs_in (list_ascii_of_string "response") (list_ascii_of_string s)
  | _ => False
  end.

(** [s] is [raw] without its leading and trailing white space: the code
    points of [raw] are white space, then those of [s], then white space, and
    [s] neither begins nor ends with white space. *)
Definition trimmed_of (raw s : string) : Prop :=
  exists pre mid post : list (list ascii),
    str_points raw = pre ++ mid ++ post
    /\ list_ascii_of_string s = concat mid
    /\ Forall (fun point => is_space point = true) pre
    /\ Forall (fun point => is_space point = true) post
    /\ (forall point, head mid = Some point -> is_space point = false)
    /\ (forall point, last mid = Some point -> is_space point = false).

(** The raw sub-field behind a numeric attribute: a top-level key when
    [group] is [None], else the key inside the nested group; [None] when the
    key or the whole group is missing. *)
Definition sub_field (record : value) (group : option string) (key : string)
  : option value :=
  match record, group with
  | VDict d, None => d !! key
  | VDict d, Some g =>
      match d !! g with
      | Some (VDict gd) => gd !! key
      | _ => None
      end
  | _, _ => None
  end.

(** The twelve numeric attributes with their source and their default. *)
Definition numeric_attributes
  : list ((py_record -> value) * option string * string * value) :=
  [(population, None, "population", int_zero);
   (total_cases, Some "cases", "total", int_zero);
   (new_cases, Some "cases", "new", int_zero);
   (total_deaths, Some "deaths", "total", int_zero);
   (new_deaths, Some "deaths", "new", int_zero);
   (total_recovered, Some "cases", "recovered", int_zero);
   (active_cases, Some "cases", "active", int_zero);
   (critical_cases, Some "cases", "critical", int_zero);
   (cases_per_million, Some "cases", "1M_pop", float_zero);
   (deaths_per_million, Some "deaths", "1M_pop", float_zero);
   (total_tests, Some "tests", "total", int_zero);
   (tests_per_million, Some "tests", "1M_pop", float_zero)].

Definition numeric_fields (r : py_record) : list value :=
  map (fun a => fst (fst (fst a)) r) numeric_attributes.

(** A non-negative integer or float. *)
Definition nonneg_number (v : value) : Prop :=
  match v with
  | VInt z => 0 <= z
  | VFloat (S754_zero _) => True
  | VFloat (S754_finite false _ _) => True
  | VFloat (S754_infinity false) => True
  | _ => False
  end.

(** The natural key of a stored row. *)
Definition key {S I F : Type} (x : CovidRecord S I F) : string := country (attrs x).

(** A row without its time stamp. *)
Definition forget_date {S I F : Type} (x : CovidRecord S I F) : CovidRecord S I F :=
  mk_CovidRecord (id x) (attrs x) 0.

(** The upsert on rows without time stamps. *)
Definition upsert_undated {S I F : Type} (r : cleaned_record S I F)
  (rows : list (CovidRecord S I F)) : list (CovidRecord S I F) :=
  fst (upsert (fun _ => 0) r (rows, 0%nat)).

Definition upsert_all_undated {S I F : Type} (records : list (cleaned_record S I F))
  (rows : list (CovidRecord S I F)) : list (CovidRecord S I F) :=
  fold_left (fun rows r => upsert_undated r rows) records rows.

(** Every record of the batch has a row with its country. *)
Definition all_present {S I F : Type} (records : list (cleaned_record S I F))
  (rows : list (CovidRecord S I F)) : Prop :=
  Forall (fun r => is_Some (find_key (country r) rows)) records.

(** Invocations of the reconciler one after the other. *)
Fixpoint ingest_repeatedly {S I F : Type} (utc : nat -> Z) (fails : nat -> bool)
  (batches : list (list (cleaned_record S I F))) (w : database S I F)
  : database S I F :=
  match batches with
  | [] => w
  | records :: batches' =>
      ingest_repeatedly utc fails batches'
        (snd (store_data_in_db utc fails records w))
  end.

(** The whole-store sum of a nullable integer column. *)
Definition column_total {A : Type} (f : A -> option Z) (rows : list A) : Z :=
  fold_right Z.add 0 (omap f rows).

(** The running sums of a column, taken in row order, all fit in 64 bits. *)
Definition sums_fit {A : Type} (f : A -> option Z) (rows : list A) : bool :=
  forallb (fun k => fits_sqlite (column_total f (take k rows)))
          (seq 0 (Datatypes.S (length rows))).

(** The row passes both filters of the List operation. *)
Definition matches_filters (country_arg continent_arg : string) (x : sql_row)
  : bool :=
  (String.eqb country_arg "" || country_matches country_arg x)
  && (String.eqb continent_arg "" || String.eqb continent_arg "all"
      || continent_matches continent_arg x).

(** The filtered-and-sorted sequence of the List operation. *)
Definition listing_sequence (args : request_args) (col : column)
  (rows : list sql_row) : list sql_row :=
  order_by
    (match arg_order args with
     | None => Desc
     | Some o => if String.eqb o "desc" then Desc else Asc
     end)
    col
    (List.filter (matches_filters (args_get (arg_country args) "")
                                  (args_get (arg_continent args) ""))
                 rows).

(** The direction the specification gives for an [order] parameter. *)
Definition direction_of_order (order : option string) : direction :=
  match order with
  | None => Desc
  | Some o => if String.eqb o "desc" then Desc else Asc
  end.

(** The country filter can be evaluated: there is none, or its LIKE pattern,
    the search text between two [%], has at most 50000 bytes, or there is no
    row to match it with. *)
Definition like_fits (country_arg : string) (rows : list sql_row) : bool :=
  String.eqb country_arg ""
  || (Z.of_nat (String.length country_arg) + 2 <=? 50000)
  || match rows with [] => true | _ :: _ => false end.

(** The page and the page size that are served for the requested ones. *)
Definition served_page (page : Z) : Z := if page <? 1 then 1 else page.

Definition served_per_page (per_page : Z) : Z :=
  if per_page <? 1 then 20 else per_page.

(** The limit and the offset of the served page can be bound to the
    statement. *)
Definition page_fits (page per_page : Z) : bool :=
  fits_sqlite (served_per_page per_page)
  && fits_sqlite ((served_page page - 1) * served_per_page per_page).

(** The reply for a sequence of matching rows: the served page of it, its
    length, the requested page and page size, and the number of pages. *)
Definition listing_page (args : request_args) (sequence : list sql_row)
  : Listing.t :=
  let page := args_get (arg_page args) 1 in
  let per_page := args_get (arg_per_page args) 10 in
  let total := Z.of_nat (length sequence) in
  Listing.mk
    (take (Z.to_nat (served_per_page per_page))
          (drop (Z.to_nat ((served_page page - 1) * served_per_page per_page))
                sequence))
    total page per_page
    (if total =? 0 then 0 else ceil_div total (served_per_page per_page)).

(** The rows that pass the filters, in the order of the sort key. *)
Definition listing_by_key (args : request_args) (key : sort_key)
  (rows : list sql_row) : list sql_row :=
  order_by_key (direction_of_order (arg_order args)) key
    (List.filter (matches_filters (args_get (arg_country args) "")
                                  (args_get (arg_continent args) ""))
                 rows).


(** ** Sample data *)

(** A class without attributes other than its columns, and one that has
    [__doc__] as well. *)
Definition no_other_attribute : class_attributes := fun _ => Raise AttributeError.

Definition doc_attribute : class_attributes := fun name =>
  if String.eqb name "__doc__" then Ok tt else Raise AttributeError.

Definition dict (kvs : list (string * value)) : value := VDict (list_to_map kvs).

Definition entry_france : value :=
  dict [("country", VStr " France ");
        ("continent", VStr "Europe");
        ("population", VInt 65000000);
        ("cases", dict [("total", VInt 1200); ("new", VNone);
                        ("1M_pop", VStr "18")]);
        ("deaths", dict [("total", VInt 30)])].

Definition entry_negative : value :=
  dict [("country", VStr "Atlantis");
        ("cases", dict [("total", VInt (-5)); ("new", VStr "+3")])].

Definition entry_all : value := dict [("country", VStr "All")].

Definition sample_record (c : string) (n : Z) : cleaned_record unit Z unit :=
  mk_cleaned_record c (upper (str_take 3 c)) tt n n n n n n n n tt tt n tt.

(** A batch in which one country occurs twice. *)
Definition sample_batch : list (cleaned_record unit Z unit) :=
  [sample_record "Peru" 10; sample_record "Chad" 20; sample_record "Peru" 30].

Definition empty_database : database unit Z unit := mk_database [] [] [] 0 0.

Definition sample_clock (n : nat) : Z := 1000 + Z.of_nat n.

Definition no_fault (n : nat) : bool := false.

Definition fault_at (k n : nat) : bool := Nat.eqb n k.

Definition sample_row (i : Z) (c : string) (cases deaths recovered : Z) : sql_row :=
  mk_CovidRecord i
    (mk_cleaned_record c (upper (str_take 3 c)) (Some "Asia") None
       (Some cases) None (Some deaths) None (Some recovered) None None
       None None None None)
    0.

(** Twenty-five rows whose [total_cases] run from 1 to 25. *)
Definition sample_table_25 : list sql_row :=
  map (fun n => sample_row (Z.of_nat n) "X" (Z.of_nat n) 0 0) (seq 1 25).

(** A store that already holds one row. *)
Definition database_with_mali : database unit Z unit :=
  snd (store_data_in_db sample_clock no_fault [sample_record "Mali" 1]
         empty_database).

(** ** Ingestion Orchestrator *)

(** What [requests.get], [raise_for_status] and [response.json] amount to:
    an exception somewhere on the way, or the parsed body. *)
Inductive upstream : Type :=
  | UpstreamFailure
  | UpstreamJson (body : value).

(** Lines 73-79: any exception is printed and turned into [None]. *)
Definition fetch_covid_data (u : upstream) : value :=
  match u with
  | UpstreamJson body => body
  | UpstreamFailure => VNone
  end.

(** The three replies of [/api/fetch-data]: the success body, the 500 reply
    with a fixed message, and the 500 reply of the [except] branch. *)
Inductive fetch_reply : Type :=
  | Success200 (message : string) (records_count : Z)
  | Failure500 (error : string)
  | Exception500 (e : exn).

Definition stored_message (stored_count : Z) : string :=
  ("Successfully fetched and stored " ++ pretty stored_count ++ " records")%string.

Definition fetch_and_store (utc : nat -> Z) (fails : nat -> bool) (u : upstream)
  : @db value value value fetch_reply :=
  try_except
    (let raw_data := fetch_covid_data u in
     if negb (truthy raw_data)
     then mret (Failure500 "Failed to fetch data from API")
     else
       match clean_and_transform_data raw_data with
       | Raise e => fun w => (Raise e, w)
       | Ok cleaned_records =>
           stored_count ← store_data_in_db utc fails cleaned_records;
           mret (Success200 (stored_message stored_count) stored_count)
       end)
    (fun e => mret (Exception500 e)).

(** ** Further views of the Query Service *)

(** [SELECT DISTINCT]: each value once, at the place of its first
    occurrence. *)
Definition sql_distinct (l : list string) : list string :=
  reverse (remove_dups (reverse l)).

(** Lines 248-254: [SELECT DISTINCT continent ... WHERE continent !=
    'Unknown'], which also drops NULL, then the comprehension that drops the
    empty string. *)
Definition get_continents (rows : list sql_row) : http (list string) :=
  let continents :=
    sql_distinct
      (List.filter (fun c => negb (String.eqb c "Unknown"))
                   (omap (fun x : sql_row => continent (attrs x)) rows)) in
  Json200 (List.filter (fun c => negb (String.eqb c "")) continents).

Record top_args : Type := mk_top_args {
  arg_metric : option string;
  arg_limit : option Z
}.

(** [query.limit(n)]: the limit is bound as a statement parameter; SQLite
    takes a negative LIMIT as no limit. *)
Definition sql_limit (n : Z) (rows : list sql_row) : result (list sql_row) :=
  limit ← bind_int n;
  mret (if limit <? 0 then rows else take (Z.to_nat limit) rows).

(** The [try] block of lines 262-272. *)
Definition top_countries_body (cls : class_attributes) (args : top_args)
  (rows : list sql_row) : result (list sql_row) :=
  let metric := args_get (arg_metric args) "total_cases" in
  let limit := args_get (arg_limit args) 10 in
  key ← getattr cls metric;
  sql_limit limit (order_by_key Desc key rows).

Definition get_top_countries (cls : class_attributes) (args : top_args)
  (rows : list sql_row) : http (list sql_row) :=
  match top_countries_body cls args rows with
  | Ok records => Json200 records
  | Raise e => Error500 e
  end.

(** ** Notions used by the further properties *)

(** The records of a listing reply; an error reply has none. *)
Definition records_of (reply : http Listing.t) : list sql_row :=
  match reply with
  | Json200 resp => Listing.records resp
  | Error500 _ => []
  end.

(** The same request for another page. *)
Definition with_page (page : Z) (args : request_args) : request_args :=
  mk_request_args (Some page) (arg_per_page args) (arg_country args)
                  (arg_continent args) (arg_sort_by args) (arg_order args).


(** The columns whose values are integers. *)
Definition integer_column (c : column) : bool :=
  match c with
  | c_country | c_country_code | c_continent
  | c_cases_per_million | c_deaths_per_million | c_tests_per_million => false
  | _ => true
  end.

(** * Properties *)

(** ** Normalizer *)

Ltac result_inv H :=
  unfold mbind, result_bind, mret, result_ret in H;
  repeat match type of H with
         | match ?m with Ok _ => _ | Raise _ => _ end = _ =>
             let E := fresh "E" in
             destruct m eqn:E; [ | discriminate H ]
         end.

Lemma truthy_dict_lookup (d : gmap string value) (k : string) (v : value) :
  d !! k = Some v -> truthy (VDict d) = true.
Proof.
  intros Hk. simpl.
  destruct (size d) eqn:Hs; [ | reflexivity ].
  apply map_size_empty_iff in Hs. subst d.
  rewrite lookup_empty in Hk. discriminate.
Qed.

Lemma string_prefix_app (p s : string) :
  String.prefix p s = true
  <-> exists after, list_ascii_of_string s = list_ascii_of_string p ++ after.
Proof.
  revert s. induction p as [|a p IH]; intros s.
  - split; [ intros _; by exists (list_ascii_of_string s) | ].
    intros _. by destruct s.
  - destruct s as [|b s]; simpl.
    + split; [ discriminate | intros [after H]; discriminate H ].
    + destruct (ascii_dec a b) as [->|Hab].
      * rewrite IH. split; intros [after H]; exists after; congruence.
      * split; [ discriminate | intros [after H]; congruence ].
Qed.

Lemma string_index_occurs (p s : string) :
  is_Some (String.index 0 p s)
  <-> occurs_in (list_ascii_of_string p) (list_ascii_of_string s).
Proof.
  unfold occurs_in. induction s as [|b s IH]; cbn [String.index list_ascii_of_string].
  - destruct p as [|a p]; simpl.
    + split; [ intros _; by exists [], [] | eauto ].
    + split; [ intros [x H]; discriminate H | ].
      intros ([|c before] & after & H); discriminate H.
  - destruct (String.prefix p (String b s)) eqn:Hp.
    + split; [ intros _ | eauto ].
      apply string_prefix_app in Hp as [after Hp].
      exists [], after. exact Hp.
    + assert (Hnp : ~ exists after,
                 list_ascii_of_string (String b s) = list_ascii_of_string p ++ after).
      { rewrite <- string_prefix_app, Hp. discriminate. }
      assert (Hs : is_Some match String.index 0 p s with
                           | Some n => Some (Datatypes.S n)
                           | None => None
                           end
                   <-> is_Some (String.index 0 p s)).
      { destruct (String.index 0 p s); split; intros [x H]; eauto; discriminate H. }
      rewrite Hs, IH. split.
      * intros (before & after & H). exists (b :: before), after.
        simpl. by rewrite H.
      * intros ([|c before] & after & H).
        -- destruct Hnp. exists after. exact H.
        -- injection H as _ H. eauto.
Qed.

Lemma existsb_eq_str (l : list value) (key : string) :
  existsb (fun x => eq_str x key) l = true <-> In (VStr key) l.
Proof.
  rewrite existsb_exists. split.
  - intros (x & Hx & Hk). destruct x; try discriminate Hk.
    simpl in Hk. apply String.eqb_eq in Hk. by subst.
  - intros H. exists (VStr key). split; [ exact H | ].
    simpl. apply String.eqb_refl.
Qed.

(** The membership test of the guard sees what occurs in a list or a str. *)
Lemma py_contains_response (raw_data : value) :
  ~ has_response_field raw_data ->
  is_container raw_data = true ->
  exists has,
    py_contains raw_data "response" = Ok has
    /\ (has = true <-> response_occurs raw_data).
Proof.
  intros Hno Hc. destruct raw_data as [| | | |s|l|d]; try discriminate Hc.
  - eexists. split; [ reflexivity | ].
    rewrite bool_decide_eq_true. apply (string_index_occurs "response" s).
  - eexists. split; [ reflexivity | ]. apply existsb_eq_str.
  - exists false. split.
    + simpl. f_equal. apply bool_decide_eq_false. intros [v Hv].
      apply Hno. by exists d, v.
    + split; [ discriminate | intros [] ].
Qed.

(** C4 as stated fails: the number 5 has no field ['response'], and the
    guard raises on it instead of returning the empty sequence. *)
Lemma clean_and_transform_data_without_response_counterexample :
  ~ has_response_field (VInt 5)
  /\ clean_and_transform_data (VInt 5) = Raise TypeError
  /\ ~ (forall raw_data,
          truthy raw_data = false \/ ~ has_response_field raw_data ->
          clean_and_transform_data raw_data = Ok []).
Proof.
  assert (Hno : ~ has_response_field (VInt 5))
    by (intros (d & v & H & _); discriminate H).
  split; [ exact Hno | ]. split; [ reflexivity | ].
  intros Hall. specialize (Hall (VInt 5) (or_intror Hno)). discriminate Hall.
Qed.

(** C4, amended. A payload without a top-level field ['response'] is
    normalized to the empty sequence, without an error, when it is null or
    empty (falsy), when it is an object, and when it is a list or a str in
    which ['response'] does not occur.  Every other payload without the
    field, that is, a number or boolean that is not falsy and a list or str
    in which ['response'] occurs, makes the Normalizer raise [TypeError]. *)
Theorem clean_and_transform_data_without_response (raw_data : value) :
  ~ has_response_field raw_data ->
  (truthy raw_data = false
   \/ (is_container raw_data = true /\ ~ response_occurs raw_data) ->
   clean_and_transform_data raw_data = Ok [])
  /\ (truthy raw_data = true ->
      is_container raw_data = false \/ response_occurs raw_data ->
      clean_and_transform_data raw_data = Raise TypeError).
Proof.
  intros Hno. unfold clean_and_transform_data. split.
  - intros [Hf | [Hc Hocc]]; [ by rewrite Hf | ].
    destruct (truthy raw_data); [ | reflexivity ]. cbn [negb].
    destruct (py_contains_response raw_data Hno Hc) as (has & -> & Hhas).
    cbn [mbind result_bind].
    destruct has; [ | reflexivity ]. destruct Hocc. by apply Hhas.
  - intros -> Hcases. cbn [negb].
    destruct (is_container raw_data) eqn:Hc.
    + destruct Hcases as [Hcases | Hocc]; [ discriminate Hcases | ].
      destruct (py_contains_response raw_data Hno Hc) as (has & -> & Hhas).
      assert (has = true) as -> by (by apply Hhas).
      cbn [mbind result_bind negb].
      destruct raw_data; try discriminate Hc; try reflexivity.
      destruct Hocc.
    + destruct raw_data; try discriminate Hc; reflexivity.
Qed.

Lemma clean_and_transform_data_without_response_witness :
  ~ has_response_field (dict [("results", VInt 3); ("errors", VList [])])
  /\ clean_and_transform_data (dict [("results", VInt 3); ("errors", VList [])])
     = Ok []
  /\ clean_and_transform_data (VList [VStr "response"]) = Raise TypeError.
Proof.
  assert (H : ~ has_response_field
                (dict [("results", VInt 3); ("errors", VList [])])).
  { intros (d & v & E & Hv). injection E as <-. vm_compute in Hv.
    discriminate Hv. }
  assert (H' : ~ has_response_field (VList [VStr "response"]))
    by (intros (d & v & E & _); discriminate E).
  split; [ exact H | ]. split.
  - apply (clean_and_transform_data_without_response _ H).
    right. split; [ reflexivity | intros [] ].
  - apply (clean_and_transform_data_without_response _ H');
      [ reflexivity | right; left; reflexivity ].
Defined.

(** A field that is present but null cannot be sliced. *)
Example clean_and_transform_data_null_field :
  clean_and_transform_data (dict [("response", VNone)]) = Raise TypeError.
Proof. vm_compute. reflexivity. Qed.

(** One iteration appends the derived record of an entry that names a country
    and is processed without an exception, and nothing otherwise. *)
Lemma process_entry_spec (record : value) :
  match process_entry record with
  | Ok (Some r) => names_country record = true /\ derived_record record = Some r
  | Ok None => names_country record = false
  | Raise _ => names_country record = false \/ derived_record record = None
  end.
Proof.
  unfold process_entry, names_country, derived_record, is_placeholder.
  destruct record; simpl; try (left; reflexivity).
  set (name := default (VStr "Unknown") (d !! "country")).
  destruct (eq_str name "All"); simpl; [ reflexivity | ].
  destruct (eq_str name "Unknown"); simpl; [ reflexivity | ].
  unfold mbind, result_bind.
  destruct (build_record (VDict d) name); simpl; auto.
Qed.

Lemma loop_body_spec (acc : list py_record) (record : value) :
  loop_body acc record
  = acc ++ omap derived_record (List.filter names_country [record]).
Proof.
  unfold loop_body. pose proof (process_entry_spec record) as H.
  cbn [List.filter].
  destruct (process_entry record) as [[r|]|e].
  - destruct H as [Hn Hd]. rewrite Hn. cbn. rewrite Hd. reflexivity.
  - rewrite H. cbn. symmetry. apply app_nil_r.
  - destruct H as [Hn | Hd].
    + rewrite Hn. cbn. symmetry. apply app_nil_r.
    + destruct (names_country record); cbn; rewrite ?Hd;
        symmetry; apply app_nil_r.
Qed.

Lemma fold_loop_body_spec (items : list value) (acc : list py_record) :
  fold_left loop_body items acc
  = acc ++ omap derived_record (List.filter names_country items).
Proof.
  revert acc. induction items as [|e items IH]; intros acc.
  - simpl. symmetry. apply app_nil_r.
  - simpl fold_left. rewrite IH, loop_body_spec.
    rewrite <- app_assoc. f_equal.
    simpl. destruct (names_country e); simpl.
    + destruct (derived_record e); reflexivity.
    + reflexivity.
Qed.

Lemma omap_length_le {A B : Type} (f : A -> option B) (l : list A) :
  (length (omap f l) <= length l)%nat.
Proof.
  induction l as [|x l IH]; csimpl; [ lia | ].
  destruct (f x); csimpl; lia.
Qed.

Lemma omap_filter_sublist (items : list value) :
  exists kept,
    sublist kept items
    /\ Forall2 (fun e r => names_country e = true /\ derived_record e = Some r)
               kept (omap derived_record (List.filter names_country items)).
Proof.
  induction items as [|e items (kept & Hsub & Hall)].
  - exists []. split; constructor.
  - simpl. destruct (names_country e) eqn:Hn; simpl.
    + destruct (derived_record e) eqn:Hd.
      * exists (e :: kept). split; [ by constructor | ].
        constructor; auto.
      * exists kept. split; [ by constructor | exact Hall ].
    + exists kept. split; [ by constructor | exact Hall ].
Qed.

(** C5. The output is exactly the sequence of records derived from those of
    the first 500 entries whose resolved country name is neither ["All"] nor
    ["Unknown"] and whose processing does not raise, in input order; entries
    past the 500th, skipped entries and failing entries do not abort the
    batch. *)
Theorem clean_and_transform_data_selection
  (d : gmap string value) (entries : list value) :
  d !! "response" = Some (VList entries) ->
  clean_and_transform_data (VDict d) = Ok (normalizer_spec entries)
  /\ (length (normalizer_spec entries) <= 500)%nat
  /\ exists kept,
       sublist kept (take 500 entries)
       /\ Forall2 (fun e r => names_country e = true /\ derived_record e = Some r)
                  kept (normalizer_spec entries).
Proof.
  intros Hd. split; [ | split ].
  - unfold clean_and_transform_data.
    rewrite (truthy_dict_lookup _ _ _ Hd).
    cbn [negb py_contains py_getitem mbind result_bind].
    rewrite Hd. cbn [py_slice_items].
    rewrite bool_decide_eq_true_2 by eauto.
    cbn [negb mbind result_bind py_slice_items].
    rewrite fold_loop_body_spec. reflexivity.
  - unfold normalizer_spec.
    etransitivity; [ apply omap_length_le | ].
    etransitivity; [ apply List.filter_length_le | ].
    rewrite length_take. lia.
  - apply omap_filter_sublist.
Qed.

Lemma clean_and_transform_data_selection_witness :
  let entries := [entry_france; VInt 3; entry_all; entry_negative] in
  let d : gmap string value := list_to_map [("response", VList entries)] in
  d !! "response" = Some (VList entries)
  /\ clean_and_transform_data (VDict d) = Ok (normalizer_spec entries).
Proof.
  intros entries d.
  assert (H : d !! "response" = Some (VList entries)) by (vm_compute; reflexivity).
  split; [ exact H | ].
  exact (proj1 (clean_and_transform_data_selection d entries H)).
Defined.

(** What a processed entry looks like, and the record built from it. *)
Lemma process_entry_inv (record : value) (r : py_record) :
  process_entry record = Ok (Some r) ->
  exists (d : gmap string value) (raw : string) (cases deaths tests : gmap string value),
    record = VDict d
    /\ d !! "country" = Some (VStr raw)
    /\ default (VDict ∅) (d !! "cases") = VDict cases
    /\ default (VDict ∅) (d !! "deaths") = VDict deaths
    /\ default (VDict ∅) (d !! "tests") = VDict tests
    /\ r = {| country := strip raw;
              country_code := upper (str_take 3 raw);
              continent := default (VStr "Unknown") (d !! "continent");
              population := py_or (default VNone (d !! "population")) int_zero;
              total_cases := py_or (default VNone (cases !! "total")) int_zero;
              new_cases := py_or (default VNone (cases !! "new")) int_zero;
              total_deaths := py_or (default VNone (deaths !! "total")) int_zero;
              new_deaths := py_or (default VNone (deaths !! "new")) int_zero;
              total_recovered := py_or (default VNone (cases !! "recovered")) int_zero;
              active_cases := py_or (default VNone (cases !! "active")) int_zero;
              critical_cases := py_or (default VNone (cases !! "critical")) int_zero;
              cases_per_million := py_or (default VNone (cases !! "1M_pop")) float_zero;
              deaths_per_million := py_or (default VNone (deaths !! "1M_pop")) float_zero;
              total_tests := py_or (default VNone (tests !! "total")) int_zero;
              tests_per_million := py_or (default VNone (tests !! "1M_pop")) float_zero |}.
Proof.
  unfold process_entry. intros H.
  destruct record as [| | | | | |d]; try discriminate H.
  cbn [py_get mbind result_bind] in H.
  destruct (is_placeholder (default (VStr "Unknown") (d !! "country"))) eqn:Hp;
    [ discriminate H | ].
  unfold build_record in H. cbn [py_get] in H.
  destruct (d !! "country") as [v|] eqn:Hc; [ | discriminate Hp ].
  destruct (default (VDict ∅) (d !! "cases")) as [| | | | | |cases] eqn:Hcases;
    destruct v as [| | | |raw| |];
    try discriminate H.
  destruct (default (VDict ∅) (d !! "deaths")) as [| | | | | |deaths] eqn:Hdeaths;
    try discriminate H.
  destruct (default (VDict ∅) (d !! "tests")) as [| | | | | |tests] eqn:Htests;
    try discriminate H.
  exists d, raw, cases, deaths, tests.
  split; [ reflexivity | ].
  split; [ exact Hc | ].
  do 3 (split; [ assumption | ]).
  cbv [mbind result_bind mret result_ret py_get py_strip py_slice3_upper] in H.
  injection H as <-. reflexivity.
Qed.

(** C6 as stated fails: a negative total and a textual increment pass through
    the Normalizer unchanged. *)
Lemma numeric_fields_nonnegative_counterexample :
  process_entry entry_negative
  = Ok (Some {| country := "Atlantis"; country_code := "ATL";
                continent := VStr "Unknown"; population := VInt 0;
                total_cases := VInt (-5); new_cases := VStr "+3";
                total_deaths := VInt 0; new_deaths := VInt 0;
                total_recovered := VInt 0; active_cases := VInt 0;
                critical_cases := VInt 0; cases_per_million := float_zero;
                deaths_per_million := float_zero; total_tests := VInt 0;
                tests_per_million := float_zero |})
  /\ ~ (forall record r,
          process_entry record = Ok (Some r) ->
          Forall nonneg_number (numeric_fields r)).
Proof.
  assert (E : process_entry entry_negative
              = Ok (Some {| country := "Atlantis"; country_code := "ATL";
                continent := VStr "Unknown"; population := VInt 0;
                total_cases := VInt (-5); new_cases := VStr "+3";
                total_deaths := VInt 0; new_deaths := VInt 0;
                total_recovered := VInt 0; active_cases := VInt 0;
                critical_cases := VInt 0; cases_per_million := float_zero;
                deaths_per_million := float_zero; total_tests := VInt 0;
                tests_per_million := float_zero |}))
    by (vm_compute; reflexivity).
  split; [ exact E | ].
  intros Hall. specialize (Hall _ _ E).
  unfold numeric_fields in Hall. cbn in Hall.
  apply Forall_cons_1 in Hall as [_ Hall].
  apply Forall_cons_1 in Hall as [Hneg _].
  cbn in Hneg. lia.
Qed.

Lemma py_or_coalesces (o : option value) (zero : value) :
  zero <> VNone ->
  py_or (default VNone o) zero <> VNone
  /\ (o = None \/ o = Some VNone -> py_or (default VNone o) zero = zero)
  /\ (forall v, o = Some v -> truthy v = true -> py_or (default VNone o) zero = v)
  /\ (forall v, o = Some v -> truthy v = false -> py_or (default VNone o) zero = zero).
Proof.
  intros Hz. unfold py_or. repeat split.
  - destruct (truthy (default VNone o)) eqn:Ht; [ | exact Hz ].
    intros E. rewrite E in Ht. discriminate Ht.
  - intros [-> | ->]; reflexivity.
  - intros v -> Hv. simpl. rewrite Hv. reflexivity.
  - intros v -> Hv. simpl. rewrite Hv. reflexivity.
Qed.

Lemma default_dict_lookup (d : gmap string value) (g : string)
  (gd : gmap string value) (k : string) :
  default (VDict ∅) (d !! g) = VDict gd ->
  sub_field (VDict d) (Some g) k = gd !! k.
Proof.
  simpl. destruct (d !! g) as [v|]; simpl.
  - intros ->. reflexivity.
  - intros E. injection E as <-. rewrite lookup_empty. reflexivity.
Qed.

(** C6, amended. Every numeric attribute of a produced record is the raw
    sub-field itself when that is truthy, and the default (0 for integer
    attributes, 0.0 for float attributes) when the sub-field is missing, null
    or otherwise falsy; null is never propagated. *)
Theorem numeric_fields_coalesced (record : value) (r : py_record) :
  process_entry record = Ok (Some r) ->
  Forall (fun a : (py_record -> value) * option string * string * value =>
            let '(field, group, key, zero) := a in
            field r <> VNone
            /\ (sub_field record group key = None
                \/ sub_field record group key = Some VNone -> field r = zero)
            /\ (forall v, sub_field record group key = Some v ->
                          truthy v = true -> field r = v)
            /\ (forall v, sub_field record group key = Some v ->
                          truthy v = false -> field r = zero))
         numeric_attributes.
Proof.
  intros H.
  destruct (process_entry_inv _ _ H)
    as (d & raw & cases & deaths & tests & -> & _ & Hc & Hd & Ht & ->).
  unfold numeric_attributes.
  repeat (apply Forall_cons; split);
    [ .. | apply Forall_nil; exact I ];
    cbn [population total_cases new_cases total_deaths new_deaths
         total_recovered active_cases critical_cases cases_per_million
         deaths_per_million total_tests tests_per_million];
    rewrite ?(default_dict_lookup _ _ _ _ Hc), ?(default_dict_lookup _ _ _ _ Hd),
            ?(default_dict_lookup _ _ _ _ Ht);
    try (apply py_or_coalesces; discriminate).
Qed.

Lemma numeric_fields_coalesced_witness :
  exists r,
    process_entry entry_france = Ok (Some r)
    /\ population r = VInt 65000000
    /\ new_cases r = VInt 0
    /\ cases_per_million r = VStr "18"
    /\ tests_per_million r = float_zero
    /\ Forall (fun a : (py_record -> value) * option string * string * value =>
            let '(field, group, key, zero) := a in
            field r <> VNone
            /\ (sub_field entry_france group key = None
                \/ sub_field entry_france group key = Some VNone -> field r = zero)
            /\ (forall v, sub_field entry_france group key = Some v ->
                          truthy v = true -> field r = v)
            /\ (forall v, sub_field entry_france group key = Some v ->
                          truthy v = false -> field r = zero))
         numeric_attributes.
Proof.
  eexists. split; [ vm_compute; reflexivity | ].
  repeat (split; [ reflexivity | ]).
  apply (numeric_fields_coalesced entry_france).
  vm_compute. reflexivity.
Defined.

(** *** Code points, trimming and upper case *)

Lemma utf8_width_pos (c : ascii) : (1 <= utf8_width c)%nat.
Proof. unfold utf8_width. repeat case_match; lia. Qed.

Lemma code_points_fuel_nil (fuel : nat) : code_points_fuel fuel [] = [].
Proof. by destruct fuel. Qed.

Lemma code_points_fuel_enough (f1 f2 : nat) (l : list ascii) :
  (length l <= f1)%nat -> (length l <= f2)%nat ->
  code_points_fuel f1 l = code_points_fuel f2 l.
Proof.
  revert f2 l. induction f1 as [|f1 IH]; intros f2 l H1 H2.
  - destruct l; [ by rewrite !code_points_fuel_nil | simpl in H1; lia ].
  - destruct l as [|c l]; [ by rewrite !code_points_fuel_nil | ].
    destruct f2 as [|f2]; [ simpl in H2; lia | ].
    cbn [code_points_fuel]. f_equal.
    pose proof (utf8_width_pos c).
    apply IH; rewrite length_drop; simpl in *; lia.
Qed.

Lemma code_points_cons (c : ascii) (l : list ascii) :
  code_points (c :: l)
  = take (utf8_width c) (c :: l)
    :: code_points (drop (utf8_width c) (c :: l)).
Proof.
  unfold code_points. cbn [length code_points_fuel]. f_equal.
  pose proof (utf8_width_pos c).
  apply code_points_fuel_enough; rewrite ?length_drop; simpl; lia.
Qed.

(** The code points of a str, one after the other, are its bytes. *)
Lemma code_points_concat (l : list ascii) : concat (code_points l) = l.
Proof.
  remember (length l) as n eqn:Hn.
  revert l Hn. induction n as [n IH] using lt_wf_ind. intros l ->.
  destruct l as [|c l]; [ reflexivity | ].
  rewrite code_points_cons. cbn [concat].
  pose proof (utf8_width_pos c).
  rewrite (IH (length (drop (utf8_width c) (c :: l))));
    [ apply take_drop | rewrite length_drop; simpl; lia | reflexivity ].
Qed.

(** Cutting the first [n] code points into code points gives them back. *)
Lemma code_points_take (n : nat) (l : list ascii) :
  code_points (concat (take n (code_points l))) = take n (code_points l).
Proof.
  remember (length l) as k eqn:Hk.
  revert n l Hk. induction k as [k IH] using lt_wf_ind. intros n l ->.
  destruct l as [|c l];
    [ change (code_points []) with (@nil (list ascii)); by rewrite take_nil | ].
  rewrite code_points_cons. destruct n as [|n]; [ reflexivity | ].
  cbn [take concat].
  pose proof (utf8_width_pos c) as Hw.
  set (w := utf8_width c) in *.
  set (rest := drop w (c :: l)).
  assert (Hrest : code_points (concat (take n (code_points rest)))
                  = take n (code_points rest)).
  { apply (IH (length rest)); [ | reflexivity ].
    unfold rest. rewrite length_drop. simpl. lia. }
  set (X := concat (take n (code_points rest))) in *.
  assert (Hhead : take w (c :: l) = c :: take (w - 1) l).
  { destruct w; [ lia | ]. simpl. by rewrite Nat.sub_0_r. }
  rewrite Hhead. cbn [app]. rewrite code_points_cons. fold w.
  rewrite app_comm_cons, <- Hhead.
  destruct (decide (w <= length (c :: l))%nat) as [Hle|Hgt].
  - assert (Hlen : length (take w (c :: l)) = w) by (rewrite length_take; lia).
    rewrite (take_app_length' _ _ _ (eq_sym Hlen)).
    rewrite (drop_app_length' _ _ _ (eq_sym Hlen)).
    by rewrite Hrest.
  - assert (Hnil : rest = []) by (unfold rest; apply drop_ge; lia).
    assert (Hpoints : take n (code_points rest) = []).
    { rewrite Hnil. change (code_points []) with (@nil (list ascii)).
      apply take_nil. }
    assert (HX : X = []) by (unfold X; by rewrite Hpoints).
    rewrite HX, Hpoints, app_nil_r.
    rewrite (take_ge (c :: l)) by lia.
    rewrite (take_ge (c :: l)) by lia.
    rewrite (drop_ge (c :: l)) by lia.
    reflexivity.
Qed.

Lemma str_points_concat (s : string) :
  concat (str_points s) = list_ascii_of_string s.
Proof. apply code_points_concat. Qed.

Lemma str_points_take (n : nat) (s : string) :
  str_points (str_take n s) = take n (str_points s).
Proof.
  unfold str_take, str_points, str_of_points.
  rewrite list_ascii_of_string_of_list_ascii. apply code_points_take.
Qed.

Lemma upper_str_take (n : nat) (s : string) :
  list_ascii_of_string (upper (str_take n s))
  = concat (map upper_char (take n (str_points s))).
Proof.
  unfold upper. rewrite str_points_take. unfold str_of_points.
  apply list_ascii_of_string_of_list_ascii.
Qed.

Lemma drop_spaces_split (l : list (list ascii)) :
  exists pre,
    l = pre ++ drop_spaces l /\ Forall (fun point => is_space point = true) pre.
Proof.
  induction l as [|c l (pre & Hl & Hpre)]; simpl.
  - exists []. split; [ reflexivity | constructor ].
  - destruct (is_space c) eqn:Hc.
    + exists (c :: pre). split; [ simpl; congruence | by constructor ].
    + exists []. split; [ reflexivity | constructor ].
Qed.

Lemma drop_spaces_head (l : list (list ascii)) (c : list ascii) :
  head (drop_spaces l) = Some c -> is_space c = false.
Proof.
  induction l as [|x l IH]; simpl; [ discriminate | ].
  destruct (is_space x) eqn:Hx; [ exact IH | ].
  simpl. intros E. injection E as <-. exact Hx.
Qed.

Lemma strip_chars_spec (l : list (list ascii)) :
  exists pre post,
    l = pre ++ strip_chars l ++ post
    /\ Forall (fun point => is_space point = true) pre
    /\ Forall (fun point => is_space point = true) post
    /\ (forall c, head (strip_chars l) = Some c -> is_space c = false)
    /\ (forall c, last (strip_chars l) = Some c -> is_space c = false).
Proof.
  unfold strip_chars.
  destruct (drop_spaces_split l) as (pre & Hl & Hpre).
  destruct (drop_spaces_split (reverse (drop_spaces l))) as (post & Hm & Hpost).
  set (m := drop_spaces l) in *.
  set (k := drop_spaces (reverse m)) in *.
  assert (Hm' : m = reverse k ++ reverse post).
  { rewrite <- reverse_app, <- Hm. symmetry. apply reverse_involutive. }
  exists pre, (reverse post). repeat split.
  - rewrite <- Hm'. exact Hl.
  - exact Hpre.
  - by apply Forall_reverse.
  - intros c Hc. apply (drop_spaces_head l). fold m. rewrite Hm'.
    destruct (reverse k) as [|y ys]; [ discriminate Hc | exact Hc ].
  - intros c. rewrite last_reverse. apply drop_spaces_head.
Qed.

Lemma strip_trims (raw : string) : trimmed_of raw (strip raw).
Proof.
  unfold trimmed_of, strip, str_of_points.
  destruct (strip_chars_spec (str_points raw)) as (pre & post & H).
  exists pre, (strip_chars (str_points raw)), post.
  rewrite list_ascii_of_string_of_list_ascii. tauto.
Qed.

(** C7. The country code of a produced record is made of the first three
    characters of the raw, untrimmed country field, each put in upper case;
    it is empty when the field is empty.  The stored country is the raw name
    without leading and trailing white space.  Characters are the code
    points of the str, which make up the raw field. *)
Theorem country_code_and_name (record : value) (r : py_record) :
  process_entry record = Ok (Some r) ->
  exists (d : gmap string value) (raw : string),
    record = VDict d
    /\ d !! "country" = Some (VStr raw)
    /\ concat (str_points raw) = list_ascii_of_string raw
    /\ list_ascii_of_string (country_code r)
       = concat (map upper_char (take 3 (str_points raw)))
    /\ country_code r = upper (str_take 3 raw)
    /\ (raw = "" -> country_code r = "")
    /\ country r = strip raw
    /\ trimmed_of raw (country r).
Proof.
  intros H.
  destruct (process_entry_inv _ _ H)
    as (d & raw & cases & deaths & tests & -> & Hraw & _ & _ & _ & ->).
  exists d, raw. cbn [country country_code].
  split; [ reflexivity | ].
  split; [ exact Hraw | ].
  split; [ apply str_points_concat | ].
  split; [ apply upper_str_take | ].
  split; [ reflexivity | ].
  split; [ intros ->; reflexivity | ].
  split; [ reflexivity | apply strip_trims ].
Qed.

Lemma country_code_and_name_witness :
  exists r,
    process_entry entry_france = Ok (Some r)
    /\ country r = "France"
    /\ country_code r = " FR"
    /\ exists (d : gmap string value) (raw : string),
         entry_france = VDict d
         /\ d !! "country" = Some (VStr raw)
         /\ concat (str_points raw) = list_ascii_of_string raw
         /\ list_ascii_of_string (country_code r)
            = concat (map upper_char (take 3 (str_points raw)))
         /\ country_code r = upper (str_take 3 raw)
         /\ (raw = "" -> country_code r = "")
         /\ country r = strip raw
         /\ trimmed_of raw (country r).
Proof.
  eexists. split; [ vm_compute; reflexivity | ].
  split; [ vm_compute; reflexivity | ].
  split; [ vm_compute; reflexivity | ].
  apply (country_code_and_name entry_france).
  vm_compute. reflexivity.
Defined.

Example country_code_of_empty_name :
  exists r, process_entry (dict [("country", VStr "")]) = Ok (Some r)
            /\ country r = "" /\ country_code r = "".
Proof. eexists. split; [ vm_compute; reflexivity | split; reflexivity ]. Qed.

(** Names outside ASCII: a letter of two bytes is one character of the
    three, a letter may become two in upper case, and the no-break space is
    white space. *)
Example country_code_beyond_ascii :
  upper (str_take 3 "Réunion") = "RÉU"
  /\ upper (str_take 3 "ßab") = "SSAB"
  /\ upper (str_take 3 "Åland Islands") = "ÅLA"
  /\ upper (str_take 3 "日本国 (Japan)") = "日本国"
  /\ strip (String (ascii_of_nat 194) (String (ascii_of_nat 160) " Perú ")) = "Perú"
  /\ strip "  Côte d'Ivoire  " = "Côte d'Ivoire".
Proof. vm_compute. repeat split. Qed.

(** ** Reconciler *)

Section ReconcilerProofs.
Context {S I F : Type}.
Variable utc : nat -> Z.
Variable fails : nat -> bool.

Local Abbreviation record := (cleaned_record S I F).
Local Abbreviation row := (CovidRecord S I F).
Local Abbreviation world := (database S I F).
Local Abbreviation M := (@db S I F).

Lemma bind_ok {A B : Type} (m : M A) (k : A -> M B) (w w' : world) (b : B) :
  (m ≫= k) w = (Ok b, w') ->
  exists a w1, m w = (Ok a, w1) /\ k a w1 = (Ok b, w').
Proof.
  unfold mbind, db_bind. destruct (m w) as [[a|e] w1]; intros H.
  - eauto.
  - discriminate H.
Qed.

Lemma bind_raise {A B : Type} (m : M A) (k : A -> M B) (w w' : world) (e : exn) :
  (m ≫= k) w = (Raise e, w') ->
  m w = (Raise e, w')
  \/ exists a w1, m w = (Ok a, w1) /\ k a w1 = (Raise e, w').
Proof.
  unfold mbind, db_bind. destruct (m w) as [[a|e'] w1]; intros H.
  - right. eauto.
  - left. injection H as <- <-. reflexivity.
Qed.

(** Nothing but a successful commit touches the committed rows. *)
Definition keeps_table {A : Type} (m : M A) : Prop :=
  forall w res w', m w = (res, w') -> table w' = table w.

Lemma keeps_table_bind {A B : Type} (m : M A) (k : A -> M B) :
  keeps_table m -> (forall a, keeps_table (k a)) -> keeps_table (m ≫= k).
Proof.
  intros Hm Hk w res w'. unfold mbind, db_bind.
  destruct (m w) as [[a|e] w1] eqn:E; intros H.
  - rewrite (Hk _ _ _ _ H). eapply Hm, E.
  - injection H as <- <-. eapply Hm, E.
Qed.

Lemma keeps_table_ret {A : Type} (a : A) : keeps_table (mret a : M A).
Proof. intros w res w' H. injection H as <- <-. reflexivity. Qed.

Lemma keeps_table_storage_op : keeps_table (storage_op fails).
Proof.
  intros w res w'. unfold storage_op.
  destruct (fails (storage_ops w)); intros H; injection H as <- <-; reflexivity.
Qed.

Lemma keeps_table_utcnow : keeps_table (utcnow utc).
Proof. intros w res w' H. injection H as <- <-. reflexivity. Qed.

Lemma keeps_table_insert_rows (rs : list record) :
  keeps_table (insert_rows utc fails rs).
Proof.
  induction rs as [|r rs IH]; simpl.
  - apply keeps_table_ret.
  - apply keeps_table_bind; [ | intros _; exact IH ].
    unfold insert_row.
    apply keeps_table_bind; [ apply keeps_table_utcnow | intros now ].
    apply keeps_table_bind; [ apply keeps_table_storage_op | intros _ ].
    intros w res w' H. injection H as <- <-. reflexivity.
Qed.

Lemma keeps_table_flush : keeps_table (flush utc fails).
Proof.
  intros w res w'. unfold flush.
  apply keeps_table_bind; [ apply keeps_table_insert_rows | intros _ ].
  intros w1 res1 w1' H. injection H as <- <-. reflexivity.
Qed.

Lemma keeps_table_query (c : string) :
  keeps_table (query_first_by_country utc fails c).
Proof.
  unfold query_first_by_country.
  apply keeps_table_bind; [ apply keeps_table_flush | intros _ ].
  apply keeps_table_bind; [ apply keeps_table_storage_op | intros _ ].
  intros w res w' H. injection H as <- <-. reflexivity.
Qed.

Lemma keeps_table_store_loop (records : list record) (count : Z) :
  keeps_table (store_loop utc fails records count).
Proof.
  revert count. induction records as [|r rest IH]; intros count; simpl.
  - apply keeps_table_ret.
  - apply keeps_table_bind; [ apply keeps_table_query | intros existing ].
    apply keeps_table_bind; [ | intros _; apply IH ].
    destruct existing as [i|].
    + apply keeps_table_bind;
        [ intros w res w' H; injection H as <- <-; reflexivity | intros _ ].
      apply keeps_table_bind; [ apply keeps_table_utcnow | intros now ].
      intros w res w' H. injection H as <- <-. reflexivity.
    + intros w res w' H. injection H as <- <-. reflexivity.
Qed.

(** *** What a successful run computes *)

Tactic Notation "step_inv" hyp(H) "as" ident(a) ident(w1) ident(H1) :=
  apply bind_ok in H as (a & w1 & H1 & H).

Lemma storage_op_ok (w w' : world) (u : unit) :
  storage_op fails w = (Ok u, w') ->
  table w' = table w /\ txn w' = txn w /\ session_new w' = session_new w
  /\ clock_reads w' = clock_reads w.
Proof.
  unfold storage_op. destruct (fails (storage_ops w)); intros H;
    [ discriminate H | ].
  injection H as _ <-. auto.
Qed.

Lemma insert_rows_ok (rs : list record) (w w' : world) (u : unit) :
  insert_rows utc fails rs w = (Ok u, w') ->
  session_new w' = session_new w
  /\ (txn w', clock_reads w')
     = fold_left (fun st r => insert_pending utc r st) rs (txn w, clock_reads w).
Proof.
  revert w. induction rs as [|r rs IH]; intros w H; simpl in H.
  - injection H as _ <-. auto.
  - step_inv H as u1 w1 Hrow. apply IH in H as [Hnew Hview].
    unfold insert_row in Hrow.
    step_inv Hrow as now w2 Hnow. step_inv Hrow as u2 w3 Hop.
    apply storage_op_ok in Hop as (_ & Ht & Hn & Hc).
    injection Hnow as <- <-. injection Hrow as _ <-.
    simpl in *. split; [ congruence | ].
    rewrite Hview. unfold insert_pending at 2. simpl.
    rewrite Ht, Hc. reflexivity.
Qed.

Lemma flush_ok (w w' : world) (u : unit) :
  flush utc fails w = (Ok u, w') ->
  session_new w' = [] /\ (txn w', clock_reads w') = pending_view utc w.
Proof.
  unfold flush. intros H. step_inv H as u1 w1 Hrows.
  apply insert_rows_ok in Hrows as [_ Hview].
  injection H as _ <-. simpl. auto.
Qed.

Lemma query_ok (c : string) (w w' : world) (o : option nat) :
  query_first_by_country utc fails c w = (Ok o, w') ->
  session_new w' = []
  /\ (txn w', clock_reads w') = pending_view utc w
  /\ o = find_key c (txn w').
Proof.
  unfold query_first_by_country. intros H.
  step_inv H as u1 w1 Hflush. step_inv H as u2 w2 Hop.
  apply flush_ok in Hflush as [Hnew Hview].
  apply storage_op_ok in Hop as (_ & Ht & Hn & Hc).
  injection H as <- <-.
  repeat split; congruence.
Qed.

Lemma pending_view_clean (w : world) :
  session_new w = [] -> pending_view utc w = (txn w, clock_reads w).
Proof. unfold pending_view. intros ->. reflexivity. Qed.

Lemma store_loop_ok (records : list record) (count count' : Z) (w w' : world) :
  store_loop utc fails records count w = (Ok count', w') ->
  count' = count + Z.of_nat (length records)
  /\ pending_view utc w' = upsert_all utc records (pending_view utc w).
Proof.
  revert count w. induction records as [|r rest IH]; intros count w H.
  - injection H as <- <-. simpl. split; [ lia | reflexivity ].
  - simpl in H. step_inv H as existing w1 Hq. step_inv H as u1 w2 Hup.
    apply IH in H as [-> Hview].
    split; [ simpl length; lia | ].
    rewrite Hview. simpl. f_equal.
    apply query_ok in Hq as (Hnew & Hq & ->).
    unfold upsert. rewrite <- Hq. cbn [fst snd].
    destruct (find_key (country r) (txn w1)) as [i|].
    + step_inv Hup as u2 w3 Hset. step_inv Hup as now w4 Hnow.
      injection Hset as _ <-. injection Hnow as <- <-. injection Hup as _ <-.
      unfold pending_view. simpl. rewrite Hnew. simpl.
      rewrite list_alter_alter_eq. reflexivity.
    + injection Hup as _ <-.
      unfold pending_view. simpl. rewrite Hnew. reflexivity.
Qed.

Lemma commit_ok (w w' : world) (u : unit) :
  commit utc fails w = (Ok u, w') ->
  session_clean w'
  /\ (table w', clock_reads w') = pending_view utc w.
Proof.
  unfold commit. intros H.
  step_inv H as u1 w1 Hflush. step_inv H as u2 w2 Hop.
  apply flush_ok in Hflush as [Hnew Hview].
  apply storage_op_ok in Hop as (_ & Ht & Hn & Hc).
  injection H as _ <-. unfold session_clean. simpl.
  repeat split; congruence.
Qed.

Lemma keeps_table_commit_raise (w w' : world) (e : exn) :
  commit utc fails w = (Raise e, w') -> table w' = table w.
Proof.
  unfold commit. intros H.
  apply bind_raise in H as [H | (a & w1 & H1 & H)].
  { eapply keeps_table_flush, H. }
  rewrite <- (keeps_table_flush _ _ _ H1).
  apply bind_raise in H as [H | (a' & w2 & H2 & H)].
  { eapply keeps_table_storage_op, H. }
  discriminate H.
Qed.

Lemma store_body_ok (records : list record) (w w' : world) (n : Z) :
  store_body utc fails records w = (Ok n, w') ->
  n = Z.of_nat (length records)
  /\ session_clean w'
  /\ (table w', clock_reads w') = upsert_all utc records (pending_view utc w).
Proof.
  unfold store_body. intros H.
  step_inv H as count w1 Hloop. step_inv H as u1 w2 Hcommit.
  apply store_loop_ok in Hloop as [-> Hview].
  apply commit_ok in Hcommit as [Hclean Ht].
  injection H as <- <-.
  split; [ lia | ]. split; [ exact Hclean | congruence ].
Qed.

Lemma store_body_raise (records : list record) (w w' : world) (e : exn) :
  store_body utc fails records w = (Raise e, w') -> table w' = table w.
Proof.
  unfold store_body. intros H.
  apply bind_raise in H as [H | (a & w1 & H1 & H)].
  { eapply keeps_table_store_loop, H. }
  rewrite <- (keeps_table_store_loop _ _ _ _ _ H1).
  apply bind_raise in H as [H | (a' & w2 & H2 & H)].
  { eapply keeps_table_commit_raise, H. }
  discriminate H.
Qed.

(** The two ways an invocation ends. *)
Lemma store_data_in_db_cases (records : list record) (w : world) :
  exists n w',
    store_data_in_db utc fails records w = (Ok n, w')
    /\ session_clean w'
    /\ ((exists e w'', store_body utc fails records w = (Raise e, w'')
                      /\ n = 0 /\ table w' = table w)
        \/ (store_body utc fails records w = (Ok n, w')
            /\ n = Z.of_nat (length records)
            /\ (table w', clock_reads w')
               = upsert_all utc records (pending_view utc w))).
Proof.
  unfold store_data_in_db, try_except.
  destruct (store_body utc fails records w) as [[n|e] w1] eqn:Hbody.
  - exists n, w1. destruct (store_body_ok _ _ _ _ Hbody) as (Hn & Hc & Ht).
    split; [ reflexivity | ]. split; [ exact Hc | ]. right. auto.
  - eexists 0, _. split; [ reflexivity | ].
    split; [ split; reflexivity | ].
    left. exists e, w1. split; [ reflexivity | ]. split; [ reflexivity | ].
    simpl. eapply store_body_raise, Hbody.
Qed.

End ReconcilerProofs.

(** *** The upsert on rows *)

Section UpsertProofs.
Context {S I F : Type}.

Local Abbreviation record := (cleaned_record S I F).
Local Abbreviation row := (CovidRecord S I F).

Implicit Types (r q : record) (x : row) (l : list row) (c : string).

Lemma find_key_nil c : find_key c ([] : list row) = None.
Proof. reflexivity. Qed.

Lemma find_key_cons c x l :
  find_key c (x :: l)
  = if decide (key x = c) then Some 0%nat else Datatypes.S <$> find_key c l.
Proof.
  unfold find_key. cbn [list_find].
  unfold has_country at 1, key.
  destruct (decide (has_country c x)) as [Hx|Hx];
    destruct (decide (country (attrs x) = c)) as [Hk|Hk];
    try reflexivity; try contradiction.
  destruct (list_find (has_country c) l) as [[i y]|]; reflexivity.
Qed.

Lemma find_key_keys c l1 l2 :
  map key l1 = map key l2 -> find_key c l1 = find_key c l2.
Proof.
  revert l2. induction l1 as [|x l1 IH]; intros [|y l2] H; try discriminate H.
  - reflexivity.
  - injection H as Hk Hl. rewrite !find_key_cons, (IH _ Hl).
    destruct (decide (key x = c)), (decide (key y = c));
      try reflexivity; congruence.
Qed.

Lemma find_key_lookup c l i :
  find_key c l = Some i -> exists x, l !! i = Some x /\ key x = c.
Proof.
  revert i. induction l as [|y l IH]; intros i; [ discriminate | ].
  rewrite find_key_cons. destruct (decide (key y = c)) as [Hk|Hk].
  - intros E. injection E as <-. exists y. auto.
  - destruct (find_key c l) as [j|]; [ | discriminate ].
    intros E. injection E as <-. destruct (IH j eq_refl) as (x & Hx & Hkx).
    exists x. auto.
Qed.

Lemma find_key_lt c l i : find_key c l = Some i -> (i < length l)%nat.
Proof.
  intros H. destruct (find_key_lookup _ _ _ H) as (x & Hx & _).
  eapply lookup_lt_Some, Hx.
Qed.

Lemma find_key_None c l : find_key c l = None <-> ~ In c (map key l).
Proof.
  induction l as [|y l IH].
  - simpl. split; [ tauto | reflexivity ].
  - rewrite find_key_cons. simpl. destruct (decide (key y = c)) as [Hk|Hk].
    + split; [ discriminate | intros H; exfalso; apply H; auto ].
    + rewrite fmap_None, IH. split; intros H.
      * intros [E | Hin]; [ contradiction | auto ].
      * intros Hin. apply H. auto.
Qed.

Lemma find_key_is_Some c l : is_Some (find_key c l) <-> In c (map key l).
Proof.
  destruct (find_key c l) as [i|] eqn:E.
  - split; [ intros _ | eauto ].
    destruct (find_key_lookup _ _ _ E) as (x & Hx & <-).
    apply in_map, list_elem_of_In. eapply list_elem_of_lookup_2, Hx.
  - split; [ intros [? ?]; discriminate | ].
    intros Hin. by apply find_key_None in E.
Qed.

Lemma find_key_app_l c l l' i :
  find_key c l = Some i -> find_key c (l ++ l') = Some i.
Proof.
  revert i. induction l as [|y l IH]; intros i; [ discriminate | ].
  simpl app. rewrite !find_key_cons.
  destruct (decide (key y = c)); [ auto | ].
  destruct (find_key c l) as [j|]; [ | discriminate ].
  intros E. rewrite (IH j eq_refl). exact E.
Qed.

Lemma find_key_snoc c l x :
  find_key c l = None ->
  find_key c (l ++ [x]) = if decide (key x = c) then Some (length l) else None.
Proof.
  induction l as [|y l IH]; simpl app.
  - intros _. rewrite find_key_cons. simpl. destruct (decide (key x = c)); reflexivity.
  - rewrite !find_key_cons. destruct (decide (key y = c)); [ discriminate | ].
    destruct (find_key c l) as [j|]; [ discriminate | ].
    intros _. rewrite IH by reflexivity.
    destruct (decide (key x = c)); reflexivity.
Qed.

Lemma map_alter_same {B : Type} (g : row -> B) (f : row -> row) i l :
  (forall x, l !! i = Some x -> g (f x) = g x) ->
  map g (alter f i l) = map g l.
Proof.
  revert i. induction l as [|y l IH]; intros [|i] H; simpl; try reflexivity.
  - f_equal. apply H. reflexivity.
  - f_equal. apply IH. intros x Hx. apply H. exact Hx.
Qed.

Lemma next_id_ids l1 l2 : map id l1 = map id l2 -> next_id l1 = next_id l2.
Proof. unfold next_id. intros ->. reflexivity. Qed.

(** The natural keys after an upsert: unchanged by an update, extended at
    the end by an insert. *)
Lemma upsert_keys (utc : nat -> Z) r l (n : nat) :
  map key (fst (upsert utc r (l, n)))
  = match find_key (country r) l with
    | Some _ => map key l
    | None => map key l ++ [country r]
    end.
Proof.
  unfold upsert. cbn [fst snd].
  destruct (find_key (country r) l) as [i|] eqn:E.
  - cbn [fst]. apply map_alter_same. intros x Hx.
    destruct (find_key_lookup _ _ _ E) as (y & Hy & Hk).
    unfold key at 1. cbn [attrs]. congruence.
  - unfold insert_pending. cbn [fst snd]. rewrite map_app. reflexivity.
Qed.

Lemma upsert_ids_present (utc : nat -> Z) r l (n : nat) i :
  find_key (country r) l = Some i ->
  map id (fst (upsert utc r (l, n))) = map id l.
Proof.
  intros E. unfold upsert. cbn [fst snd]. rewrite E. cbn [fst].
  apply map_alter_same. reflexivity.
Qed.

Lemma upsert_preserves_unique (utc : nat -> Z) r l (n : nat) :
  NoDup (map key l) -> NoDup (map key (fst (upsert utc r (l, n)))).
Proof.
  intros Hnd. rewrite upsert_keys.
  destruct (find_key (country r) l) as [i|] eqn:E; [ exact Hnd | ].
  apply find_key_None in E.
  apply NoDup_app. split; [ exact Hnd | ].
  split; [ | apply NoDup_singleton ].
  intros c Hc Hc'. apply list_elem_of_singleton in Hc' as ->.
  apply E, list_elem_of_In, Hc.
Qed.

Lemma upsert_all_preserves_unique (utc : nat -> Z) (records : list record)
  (st : list row * nat) :
  NoDup (map key (fst st)) -> NoDup (map key (fst (upsert_all utc records st))).
Proof.
  revert st. induction records as [|r rest IH]; intros [l n] H; simpl.
  - exact H.
  - apply IH. destruct (upsert utc r (l, n)) as [l' n'] eqn:E.
    change l' with (fst (l', n')). rewrite <- E.
    apply upsert_preserves_unique, H.
Qed.

(** *** Upserts without time stamps *)

Local Abbreviation undated r := (fun x : row => mk_CovidRecord (id x) r 0).

Lemma undated_present r l i :
  find_key (country r) l = Some i -> upsert_undated r l = alter (undated r) i l.
Proof. intros E. unfold upsert_undated, upsert. cbn [fst snd]. by rewrite E. Qed.

Lemma undated_absent r l :
  find_key (country r) l = None ->
  upsert_undated r l = l ++ [mk_CovidRecord (next_id l) r 0].
Proof. intros E. unfold upsert_undated, upsert. cbn [fst snd]. by rewrite E. Qed.

Lemma undated_keys_present r l i :
  find_key (country r) l = Some i -> map key (upsert_undated r l) = map key l.
Proof. intros E. unfold upsert_undated. by rewrite upsert_keys, E. Qed.

Lemma undated_ids_present r l i :
  find_key (country r) l = Some i -> map id (upsert_undated r l) = map id l.
Proof. intros E. unfold upsert_undated. eapply upsert_ids_present, E. Qed.

Lemma undated_find_present r l i c :
  find_key (country r) l = Some i ->
  find_key c (upsert_undated r l) = find_key c l.
Proof. intros E. eapply find_key_keys, undated_keys_present, E. Qed.

Lemma undated_find_mono r l c :
  is_Some (find_key c l) -> is_Some (find_key c (upsert_undated r l)).
Proof.
  intros [j Hj]. destruct (find_key (country r) l) as [i|] eqn:E.
  - rewrite (undated_find_present _ _ _ _ E). eauto.
  - rewrite (undated_absent _ _ E), (find_key_app_l _ _ _ _ Hj). eauto.
Qed.

Lemma undated_find_self r l : is_Some (find_key (country r) (upsert_undated r l)).
Proof.
  destruct (find_key (country r) l) as [i|] eqn:E.
  - rewrite (undated_find_present _ _ _ _ E), E. eauto.
  - rewrite (undated_absent _ _ E), (find_key_snoc _ _ _ E).
    rewrite decide_True by reflexivity. eauto.
Qed.

Lemma undated_all_find_mono (records : list record) l c :
  is_Some (find_key c l) -> is_Some (find_key c (upsert_all_undated records l)).
Proof.
  revert l. induction records as [|r rest IH]; intros l H; simpl; [ exact H | ].
  apply IH, undated_find_mono, H.
Qed.

Lemma undated_all_present (records : list record) l :
  all_present records (upsert_all_undated records l).
Proof.
  revert l. induction records as [|r rest IH]; intros l; simpl.
  - constructor.
  - constructor; [ | apply IH ].
    apply undated_all_find_mono, undated_find_self.
Qed.

Lemma all_present_keys (records : list record) l1 l2 :
  map key l1 = map key l2 -> all_present records l1 -> all_present records l2.
Proof.
  intros Hk H. unfold all_present. eapply Forall_impl; [ exact H | ].
  intros r. cbn beta. by rewrite (find_key_keys _ _ _ Hk).
Qed.

Lemma undated_all_keys_present (records : list record) l :
  all_present records l ->
  map key (upsert_all_undated records l) = map key l
  /\ map id (upsert_all_undated records l) = map id l.
Proof.
  revert l. induction records as [|r rest IH]; intros l H; simpl; [ auto | ].
  apply Forall_cons_1 in H as [[i Hi] Hrest].
  pose proof (undated_keys_present _ _ _ Hi) as Hk.
  pose proof (undated_ids_present _ _ _ Hi) as Hid.
  destruct (IH (upsert_undated r l)) as [Hk' Hid'].
  { eapply all_present_keys; [ symmetry; exact Hk | exact Hrest ]. }
  split; congruence.
Qed.

Lemma undated_absorb r q l i :
  find_key (country r) l = Some i -> country q = country r ->
  upsert_undated q (upsert_undated r l) = upsert_undated q l.
Proof.
  intros Hi Hc.
  assert (Hx : find_key (country q) l = Some i) by (by rewrite Hc).
  rewrite (undated_present q (upsert_undated r l) i)
    by (by rewrite (undated_find_present _ _ _ _ Hi)).
  rewrite (undated_present _ _ _ Hi), (undated_present _ _ _ Hx).
  apply list_alter_alter_eq.
Qed.

Lemma undated_commute r q l i j :
  find_key (country r) l = Some i -> find_key (country q) l = Some j ->
  country q <> country r ->
  upsert_undated q (upsert_undated r l) = upsert_undated r (upsert_undated q l).
Proof.
  intros Hi Hj Hne.
  assert (i <> j) as Hij.
  { intros ->.
    destruct (find_key_lookup _ _ _ Hi) as (y & Hy & Hky).
    destruct (find_key_lookup _ _ _ Hj) as (z & Hz & Hkz).
    congruence. }
  rewrite (undated_present q (upsert_undated r l) j)
    by (by rewrite (undated_find_present _ _ _ _ Hi)).
  rewrite (undated_present r (upsert_undated q l) i)
    by (by rewrite (undated_find_present _ _ _ _ Hj)).
  rewrite (undated_present _ _ _ Hi), (undated_present _ _ _ Hj).
  apply list_alter_alter_ne. auto.
Qed.

Lemma undated_replay_present (records : list record) r l i :
  find_key (country r) l = Some i -> all_present records l ->
  upsert_undated r (upsert_all_undated records (upsert_undated r l))
  = upsert_undated r (upsert_all_undated records l).
Proof.
  revert l. induction records as [|x rest IH]; intros l Hi Hall; simpl.
  - eapply undated_absorb; [ exact Hi | reflexivity ].
  - apply Forall_cons_1 in Hall as [[j Hj] Hrest].
    destruct (decide (country x = country r)) as [Hc|Hc].
    + by rewrite (undated_absorb _ _ _ _ Hi Hc).
    + rewrite (undated_commute _ _ _ _ _ Hi Hj Hc).
      apply IH.
      * by rewrite (undated_find_present _ _ _ _ Hj).
      * eapply all_present_keys; [ | exact Hrest ].
        symmetry. eapply undated_keys_present, Hj.
Qed.

Lemma undated_all_snoc (records : list record) l x :
  all_present records l ->
  upsert_all_undated records (l ++ [x]) = upsert_all_undated records l ++ [x].
Proof.
  revert l. induction records as [|r rest IH]; intros l Hall; simpl.
  - reflexivity.
  - apply Forall_cons_1 in Hall as [[j Hj] Hrest].
    rewrite (undated_present r (l ++ [x]) j) by (by apply find_key_app_l).
    rewrite alter_app_l by (eapply find_key_lt, Hj).
    rewrite <- (undated_present _ _ _ Hj).
    apply IH.
    eapply all_present_keys; [ | exact Hrest ].
    symmetry. eapply undated_keys_present, Hj.
Qed.

Lemma undated_replay_absent (records : list record) r l :
  find_key (country r) l = None -> all_present records l ->
  upsert_undated r (upsert_all_undated records (upsert_undated r l))
  = upsert_undated r (upsert_all_undated records l).
Proof.
  intros Hnone Hall.
  destruct (undated_all_keys_present _ _ Hall) as [Hk Hid].
  assert (Hnone' : find_key (country r) (upsert_all_undated records l) = None)
    by (by rewrite (find_key_keys _ _ _ Hk)).
  rewrite (undated_absent _ _ Hnone), (undated_all_snoc _ _ _ Hall).
  rewrite (undated_absent _ _ Hnone').
  rewrite (undated_present r _ (length (upsert_all_undated records l))).
  - rewrite <- (Nat.add_0_r (length (upsert_all_undated records l))) at 1.
    rewrite alter_app_r. cbn. rewrite (next_id_ids _ _ Hid). reflexivity.
  - rewrite (find_key_snoc _ _ _ Hnone'). by rewrite decide_True.
Qed.

Lemma undated_replay (records : list record) r l :
  all_present records l ->
  upsert_undated r (upsert_all_undated records (upsert_undated r l))
  = upsert_undated r (upsert_all_undated records l).
Proof.
  destruct (find_key (country r) l) as [i|] eqn:E.
  - apply (undated_replay_present _ _ _ _ E).
  - apply (undated_replay_absent _ _ _ E).
Qed.

(** Replaying a batch on its own result changes nothing but time stamps. *)
Lemma upsert_all_undated_idempotent (records : list record) l :
  upsert_all_undated records (upsert_all_undated records l)
  = upsert_all_undated records l.
Proof.
  revert l. induction records as [|r rest IH] using rev_ind; intros l.
  - reflexivity.
  - unfold upsert_all_undated. rewrite !fold_left_app. cbn [fold_left].
    fold (upsert_all_undated rest l).
    fold (upsert_all_undated rest
            (upsert_undated r (upsert_all_undated rest l))).
    rewrite undated_replay by apply undated_all_present.
    by rewrite IH.
Qed.

Lemma forget_date_upsert (utc : nat -> Z) r l (n : nat) :
  map forget_date (fst (upsert utc r (l, n)))
  = upsert_undated r (map forget_date l).
Proof.
  assert (Hk : map key (map forget_date l) = map key l)
    by (rewrite map_map; reflexivity).
  assert (Hid : map id (map forget_date l) = map id l)
    by (rewrite map_map; reflexivity).
  unfold upsert_undated, upsert. cbn [fst snd].
  rewrite (find_key_keys _ _ _ Hk).
  destruct (find_key (country r) l) as [i|]; cbn [fst].
  - apply (list_fmap_alter forget_date).
    apply Forall_forall. reflexivity.
  - unfold insert_pending. cbn [fst snd].
    rewrite map_app, (next_id_ids _ _ Hid). reflexivity.
Qed.

Lemma forget_date_upsert_all (utc : nat -> Z) (records : list record)
  (st : list row * nat) :
  map forget_date (fst (upsert_all utc records st))
  = upsert_all_undated records (map forget_date (fst st)).
Proof.
  revert st. induction records as [|r rest IH]; intros [l n]; simpl.
  - reflexivity.
  - rewrite IH. f_equal.
    destruct (upsert utc r (l, n)) as [l' n'] eqn:E.
    change l' with (fst (l', n')). rewrite <- E. apply forget_date_upsert.
Qed.

Lemma upsert_all_twice (utc : nat -> Z) (records : list record)
  (st : list row * nat) (n : nat) :
  map forget_date
      (fst (upsert_all utc records (fst (upsert_all utc records st), n)))
  = map forget_date (fst (upsert_all utc records st)).
Proof.
  rewrite forget_date_upsert_all. cbn [fst].
  rewrite forget_date_upsert_all.
  apply upsert_all_undated_idempotent.
Qed.

End UpsertProofs.

(** *** Atomicity, uniqueness and idempotence *)

Section ReconcilerClaims.
Context {S I F : Type}.
Variable utc : nat -> Z.
Variable fails : nat -> bool.

Local Abbreviation record := (cleaned_record S I F).
Local Abbreviation row := (CovidRecord S I F).
Local Abbreviation world := (database S I F).



Lemma store_data_in_db_step (records : list record) (w : world) :
  session_clean w ->
  session_clean (snd (store_data_in_db utc fails records w))
  /\ (table (snd (store_data_in_db utc fails records w)) = table w
      \/ table (snd (store_data_in_db utc fails records w))
         = fst (upsert_all utc records (table w, clock_reads w))).
Proof.
  intros [Htxn Hnew].
  destruct (store_data_in_db_cases utc fails records w)
    as (n & w' & Hrun & Hclean & Hcases).
  rewrite Hrun. cbn [snd]. split; [ exact Hclean | ].
  destruct Hcases as [(e & w'' & _ & _ & Ht) | (_ & _ & Hview)];
    [ left; exact Ht | right ].
  rewrite (pending_view_clean utc w Hnew), Htxn in Hview.
  rewrite <- Hview. reflexivity.
Qed.

(** C3. Starting from rows with pairwise distinct countries, every sequence
    of invocations, whatever the batches contain and whichever of them fail,
    leaves rows with pairwise distinct countries. *)
Theorem store_data_in_db_unique_country
  (batches : list (list record)) (w : world) :
  session_clean w ->
  NoDup (map key (table w)) ->
  NoDup (map key (table (ingest_repeatedly utc fails batches w)))
  /\ session_clean (ingest_repeatedly utc fails batches w).
Proof.
  revert w. induction batches as [|records batches IH]; intros w Hclean Hnd.
  - simpl. auto.
  - simpl. destruct (store_data_in_db_step records w Hclean) as [Hclean' Ht].
    apply IH; [ exact Hclean' | ].
    destruct Ht as [-> | ->]; [ exact Hnd | ].
    apply (upsert_all_preserves_unique utc records (table w, clock_reads w)).
    exact Hnd.
Qed.

(** C1. When an invocation has stored a batch, invoking it again with the
    same batch leaves the same number of rows, with the same keys and the
    same attribute values; only time stamps may differ. *)
Theorem store_data_in_db_idempotent
  (records : list record) (w w1 w2 : world) (n1 n2 : Z) :
  session_clean w ->
  store_data_in_db utc fails records w = (Ok n1, w1) ->
  n1 = Z.of_nat (length records) ->
  store_data_in_db utc fails records w1 = (Ok n2, w2) ->
  length (table w2) = length (table w1)
  /\ map forget_date (table w2) = map forget_date (table w1).
Proof.
  intros Hclean Hrun1 Hn1 Hrun2.
  assert (Hforget : map forget_date (table w2) = map forget_date (table w1)).
  { pose proof (store_data_in_db_step records w Hclean) as [Hclean1 Ht1].
    rewrite Hrun1 in Hclean1, Ht1. cbn [snd] in Hclean1, Ht1.
    pose proof (store_data_in_db_step records w1 Hclean1) as [_ Ht2].
    rewrite Hrun2 in Ht2. cbn [snd] in Ht2.
    destruct Ht2 as [-> | ->]; [ reflexivity | ].
    destruct (store_data_in_db_cases utc fails records w)
      as (n & w' & Hrun & _ & Hcases).
    rewrite Hrun1 in Hrun. injection Hrun as <- <-.
    destruct Hcases as [(e & w'' & _ & Hn & _) | (_ & _ & Hview)].
    - assert (records = []) as -> by (destruct records; [ done | simpl in *; lia ]).
      reflexivity.
    - destruct Hclean as [Htxn Hnew].
      rewrite (pending_view_clean utc w Hnew), Htxn in Hview.
      replace (table w1)
        with (fst (upsert_all utc records (table w, clock_reads w)))
        by (by rewrite <- Hview).
      apply upsert_all_twice. }
  split; [ | exact Hforget ].
  apply (f_equal length) in Hforget. by rewrite !length_map in Hforget.
Qed.

End ReconcilerClaims.

(** Without storage errors the batch is committed and its length returned. *)
Section WithoutFaults.
Context {S I F : Type}.
Variable utc : nat -> Z.
Variable fails : nat -> bool.
Hypothesis no_storage_error : forall k, fails k = false.

Local Abbreviation succeeds m := (forall w, exists a w', m w = (Ok a, w')).

Lemma succeeds_bind {A B : Type} (m : @db S I F A) (k : A -> @db S I F B) :
  succeeds m -> (forall a, succeeds (k a)) -> succeeds (m ≫= k).
Proof.
  intros Hm Hk w. unfold mbind, db_bind.
  destruct (Hm w) as (a & w1 & ->). apply Hk.
Qed.

Lemma succeeds_storage_op : succeeds (@storage_op S I F fails).
Proof.
  intros w. unfold storage_op. rewrite no_storage_error. eauto.
Qed.

Lemma succeeds_insert_rows (rs : list (cleaned_record S I F)) :
  succeeds (insert_rows utc fails rs).
Proof.
  induction rs as [|r rs IH]; simpl.
  - intros w. by eexists _, _.
  - apply succeeds_bind; [ | intros _; exact IH ].
    unfold insert_row.
    apply succeeds_bind; [ intros w; by eexists _, _ | intros now ].
    apply succeeds_bind; [ apply succeeds_storage_op | intros _ ].
    intros w. by eexists _, _.
Qed.

Lemma succeeds_flush : succeeds (@flush S I F utc fails).
Proof.
  intros w. unfold flush.
  apply succeeds_bind; [ apply succeeds_insert_rows | ].
  intros; by eexists _, _.
Qed.

Lemma succeeds_store_loop (records : list (cleaned_record S I F)) (count : Z) :
  succeeds (store_loop utc fails records count).
Proof.
  revert count. induction records as [|r rest IH]; intros count; simpl.
  - intros w. by eexists _, _.
  - apply succeeds_bind.
    { unfold query_first_by_country.
      apply succeeds_bind; [ apply succeeds_flush | intros _ ].
      apply succeeds_bind; [ apply succeeds_storage_op | intros _ ].
      intros w. by eexists _, _. }
    intros existing. apply succeeds_bind; [ | intros _; apply IH ].
    destruct existing as [i|]; [ | intros w; by eexists _, _ ].
    apply succeeds_bind; [ intros w; by eexists _, _ | intros _ ].
    apply succeeds_bind; intros; by eexists _, _.
Qed.

Lemma succeeds_store_body (records : list (cleaned_record S I F)) :
  succeeds (store_body utc fails records).
Proof.
  unfold store_body.
  apply succeeds_bind; [ apply succeeds_store_loop | intros count ].
  apply succeeds_bind; [ | intros; by eexists _, _ ].
  unfold commit.
  apply succeeds_bind; [ apply succeeds_flush | intros _ ].
  apply succeeds_bind; [ apply succeeds_storage_op | intros _ ].
  intros w. by eexists _, _.
Qed.

Lemma store_data_in_db_without_faults
  (records : list (cleaned_record S I F)) (w : database S I F) :
  session_clean w ->
  exists w',
    store_data_in_db utc fails records w = (Ok (Z.of_nat (length records)), w')
    /\ table w' = fst (upsert_all utc records (table w, clock_reads w)).
Proof.
  intros [Htxn Hnew].
  destruct (store_data_in_db_cases utc fails records w)
    as (n & w' & Hrun & _ & [(e & w'' & Hbody & _) | (_ & -> & Hview)]).
  - destruct (succeeds_store_body records w) as (a & w1 & Hok).
    rewrite Hok in Hbody. discriminate Hbody.
  - exists w'. split; [ exact Hrun | ].
    rewrite (pending_view_clean utc w Hnew), Htxn in Hview.
    by rewrite <- Hview.
Qed.

End WithoutFaults.

Lemma store_data_in_db_unique_country_witness :
  NoDup (map key (table (ingest_repeatedly sample_clock (fault_at 9)
                           [sample_batch; sample_batch; [sample_record "Mali" 1]]
                           empty_database)))
  /\ session_clean (ingest_repeatedly sample_clock (fault_at 9)
                      [sample_batch; sample_batch; [sample_record "Mali" 1]]
                      empty_database).
Proof.
  apply store_data_in_db_unique_country.
  - split; reflexivity.
  - simpl. apply NoDup_nil_2.
Defined.

Lemma store_data_in_db_idempotent_witness :
  let run1 := store_data_in_db sample_clock no_fault sample_batch empty_database in
  let run2 := store_data_in_db sample_clock no_fault sample_batch (snd run1) in
  fst run1 = Ok 3
  /\ map key (table (snd run1)) = ["Peru"; "Chad"]
  /\ length (table (snd run2)) = length (table (snd run1))
  /\ map forget_date (table (snd run2)) = map forget_date (table (snd run1)).
Proof.
  intros run1 run2.
  split; [ vm_compute; reflexivity | ].
  split; [ vm_compute; reflexivity | ].
  apply (store_data_in_db_idempotent sample_clock no_fault sample_batch
           empty_database (snd run1) (snd run2) 3 3).
  - split; reflexivity.
  - vm_compute. reflexivity.
  - reflexivity.
  - vm_compute. reflexivity.
Defined.

(** A storage error in the middle of a batch: the row written before the
    batch is all that remains, and 0 is reported. *)
Example store_data_in_db_rolls_back :
  let w := snd (store_data_in_db sample_clock no_fault
                  [sample_record "Mali" 1] empty_database) in
  let run := store_data_in_db sample_clock (fault_at 5) sample_batch w in
  fst run = Ok 0 /\ table (snd run) = table w /\ map key (table w) = ["Mali"].
Proof. vm_compute. repeat split. Qed.

Example store_data_in_db_counts :
  fst (store_data_in_db sample_clock no_fault sample_batch empty_database) = Ok 3.
Proof. vm_compute. reflexivity. Qed.

(** The batch Peru, Chad, Peru on an empty store: two inserts and one
    update, three records reported, two rows stored, the row of Peru with the
    values of its last record. *)
Example store_data_in_db_inserted_updated :
  let run := store_data_in_db sample_clock no_fault sample_batch empty_database in
  upsert_counts sample_clock sample_batch (pending_view sample_clock empty_database)
  = (2%nat, 1%nat)
  /\ fst run = Ok 3
  /\ map (fun x => (key x, total_cases (attrs x))) (table (snd run))
     = [("Peru", 30); ("Chad", 20)].
Proof. vm_compute. repeat split. Qed.

(** ** Query Service *)

(** *** Aggregate statistics *)

Lemma scalar_or_zero_default (o : option Z) : scalar_or_zero o = default 0 o.
Proof.
  destruct o as [z|]; simpl; [ | reflexivity ].
  destruct (Z.eqb_spec z 0); congruence.
Qed.

Lemma column_total_cons {A : Type} (f : A -> option Z) (x : A) (rows : list A) :
  column_total f (x :: rows) = default 0 (f x) + column_total f rows.
Proof. unfold column_total. csimpl. destruct (f x); reflexivity. Qed.

Lemma forallb_eq {A : Type} (f g : A -> bool) (l : list A) :
  (forall x, f x = g x) -> forallb f l = forallb g l.
Proof. intros H. induction l as [|x l IH]; simpl; [ reflexivity | ]. by rewrite H, IH. Qed.

Lemma forallb_seq_S (f : nat -> bool) (n : nat) :
  forallb f (seq 0 (Datatypes.S n))
  = f 0%nat && forallb (fun k => f (Datatypes.S k)) (seq 0 n).
Proof.
  cbn [seq forallb]. f_equal. rewrite <- seq_shift.
  induction (seq 0 n) as [|k l IH]; simpl; congruence.
Qed.

Lemma running_sums_cons {A : Type} (f : A -> option Z) (a : Z) (x : A)
  (rows : list A) :
  forallb (fun k => fits_sqlite (a + column_total f (take k (x :: rows))))
          (seq 0 (Datatypes.S (length (x :: rows))))
  = fits_sqlite a
    && forallb (fun k => fits_sqlite (a + default 0 (f x)
                                      + column_total f (take k rows)))
               (seq 0 (Datatypes.S (length rows))).
Proof.
  cbn [length]. rewrite forallb_seq_S. cbn [take]. f_equal.
  - unfold column_total. simpl. by rewrite Z.add_0_r.
  - apply forallb_eq. intros k. by rewrite column_total_cons, Z.add_assoc.
Qed.

Lemma sql_sum_from_spec {A : Type} (f : A -> option Z) (rows : list A)
  (acc : option Z) :
  fits_sqlite (default 0 acc) = true ->
  match sql_sum_from acc (map f rows) with
  | Ok r =>
      forallb (fun k => fits_sqlite (default 0 acc + column_total f (take k rows)))
              (seq 0 (Datatypes.S (length rows))) = true
      /\ scalar_or_zero r = default 0 acc + column_total f rows
  | Raise e =>
      forallb (fun k => fits_sqlite (default 0 acc + column_total f (take k rows)))
              (seq 0 (Datatypes.S (length rows))) = false
      /\ e = StorageError
  end.
Proof.
  revert acc. induction rows as [|x rows IH]; intros acc Hacc.
  - cbn [map sql_sum_from length seq forallb take]. unfold column_total. simpl.
    rewrite Z.add_0_r, Hacc, scalar_or_zero_default. auto.
  - rewrite running_sums_cons, Hacc, column_total_cons.
    cbn [map sql_sum_from andb].
    destruct (f x) as [z|]; cbn [from_option Datatypes.id].
    + destruct (fits_sqlite (default 0 acc + z)) eqn:Hs.
      * specialize (IH (Some (default 0 acc + z)) Hs).
        cbn [from_option Datatypes.id] in IH.
        destruct (sql_sum_from (Some (default 0 acc + z)) (map f rows));
          destruct IH as [IH1 IH2]; (split; [ exact IH1 | ]);
          [ rewrite IH2; lia | exact IH2 ].
      * split; [ | reflexivity ].
        rewrite forallb_seq_S. cbn [take]. unfold column_total at 1. simpl.
        by rewrite Z.add_0_r, Hs.
    + specialize (IH acc Hacc).
      rewrite (forallb_eq _ (fun k => fits_sqlite
                 (default 0 acc + column_total f (take k rows))))
        by (intros k; by rewrite Z.add_0_r).
      destruct (sql_sum_from acc (map f rows));
        destruct IH as [IH1 IH2]; (split; [ exact IH1 | ]);
        [ rewrite IH2; lia | exact IH2 ].
Qed.

Lemma sql_sum_spec {A : Type} (f : A -> option Z) (rows : list A) :
  match sql_sum (map f rows) with
  | Ok r => sums_fit f rows = true /\ scalar_or_zero r = column_total f rows
  | Raise e => sums_fit f rows = false /\ e = StorageError
  end.
Proof. exact (sql_sum_from_spec f rows None eq_refl). Qed.

(** C8 as stated fails: the engine refuses to add up two rows of 2^62
    cases, and the view answers 500. *)
Lemma get_statistics_totals_counterexample :
  get_statistics [sample_row 1 "Peru" (2 ^ 62) 0 0; sample_row 2 "Chad" (2 ^ 62) 0 0]
  = Error500 StorageError
  /\ ~ (forall rows : list sql_row,
          exists st,
            get_statistics rows = Json200 st
            /\ Stats.total_cases st
               = column_total (fun x => total_cases (attrs x)) rows).
Proof.
  assert (E : get_statistics
                [sample_row 1 "Peru" (2 ^ 62) 0 0; sample_row 2 "Chad" (2 ^ 62) 0 0]
              = Error500 StorageError) by (vm_compute; reflexivity).
  split; [ exact E | ].
  intros Hall.
  destruct (Hall [sample_row 1 "Peru" (2 ^ 62) 0 0; sample_row 2 "Chad" (2 ^ 62) 0 0])
    as (st & Hst & _).
  rewrite E in Hst. discriminate Hst.
Qed.

(** C8, amended. When the running sums of [total_cases], [total_deaths] and
    [total_recovered], taken in row order, all fit in 64 bits, the Statistics
    operation returns the number of rows, the three sums over the whole store
    and their difference as [active_cases]; otherwise it answers 500. *)
Theorem get_statistics_totals {S F : Type}
  (rows : list (CovidRecord S (option Z) F)) :
  let cases := column_total (fun x => total_cases (attrs x)) rows in
  let deaths := column_total (fun x => total_deaths (attrs x)) rows in
  let recovered := column_total (fun x => total_recovered (attrs x)) rows in
  get_statistics rows
  = if sums_fit (fun x => total_cases (attrs x)) rows
       && sums_fit (fun x => total_deaths (attrs x)) rows
       && sums_fit (fun x => total_recovered (attrs x)) rows
    then Json200 (Stats.mk (Z.of_nat (length rows)) cases deaths recovered
                           (cases - deaths - recovered))
    else Error500 StorageError.
Proof.
  intros cases deaths recovered. subst cases deaths recovered.
  unfold get_statistics, statistics_body, mbind, result_bind, mret, result_ret.
  pose proof (sql_sum_spec (fun x => total_cases (attrs x)) rows) as Hc.
  pose proof (sql_sum_spec (fun x => total_deaths (attrs x)) rows) as Hd.
  pose proof (sql_sum_spec (fun x => total_recovered (attrs x)) rows) as Hr.
  destruct (sql_sum (map (fun x => total_cases (attrs x)) rows)) as [c|ec];
    destruct Hc as [-> Hc]; [ rewrite Hc | by subst ec ].
  destruct (sql_sum (map (fun x => total_deaths (attrs x)) rows)) as [d|ed];
    destruct Hd as [-> Hd]; [ rewrite Hd | by subst ed ].
  destruct (sql_sum (map (fun x => total_recovered (attrs x)) rows)) as [r|er];
    destruct Hr as [-> Hr]; [ rewrite Hr | by subst er ].
  reflexivity.
Qed.

Example get_statistics_active_40 :
  get_statistics [sample_row 1 "Peru" 60 10 0; sample_row 2 "Chad" 40 0 50]
  = Json200 (Stats.mk 2 100 10 50 40).
Proof. vm_compute. reflexivity. Qed.

Example get_statistics_active_negative :
  get_statistics [sample_row 1 "Peru" 5 10 20] = Json200 (Stats.mk 1 5 10 20 (-25)).
Proof. vm_compute. reflexivity. Qed.

(** The running sum, not the final one, decides: the same three values add
    up in one order and overflow in another. *)
Example get_statistics_running_sum :
  get_statistics [sample_row 1 "A" (2 ^ 62) 0 0; sample_row 2 "B" (- 2 ^ 62) 0 0;
                  sample_row 3 "C" (2 ^ 62) 0 0]
  = Json200 (Stats.mk 3 (2 ^ 62) 0 0 (2 ^ 62))
  /\ get_statistics [sample_row 1 "A" (2 ^ 62) 0 0; sample_row 3 "C" (2 ^ 62) 0 0;
                     sample_row 2 "B" (- 2 ^ 62) 0 0]
     = Error500 StorageError.
Proof. vm_compute. split; reflexivity. Qed.

(** *** Order of the rows *)

Lemma float_leb_total (x y : spec_float) :
  float_leb x y = true \/ float_leb y x = true.
Proof.
  unfold float_leb.
  destruct x as [sx|sx| |sx mx ex], y as [sy|sy| |sy my ey]; simpl; auto;
    try (destruct sx; auto; fail); try (destruct sy; auto; fail);
    try (destruct sx, sy; auto; fail).
  rewrite (Z.compare_antisym ex ey).
  assert (Hm : Pos.compare_cont Eq my mx = CompOpp (Pos.compare_cont Eq mx my))
    by apply Pos.compare_antisym.
  rewrite Hm.
  destruct sx, sy; auto;
    destruct (ex ?= ey); simpl; auto;
    destruct (Pos.compare_cont Eq mx my); simpl; auto.
Qed.

Lemma opt_leb_total {A : Type} (leb : A -> A -> bool) (a b : option A) :
  (forall x y, leb x y = true \/ leb y x = true) ->
  opt_leb leb a b = true \/ opt_leb leb b a = true.
Proof. intros H. destruct a, b; simpl; auto. Qed.

Lemma Z_leb_total (x y : Z) : (x <=? y) = true \/ (y <=? x) = true.
Proof. destruct (Z.leb_spec x y); [ auto | right; apply Z.leb_le; lia ]. Qed.

Lemma column_leb_total (c : column) (a b : sql_row) :
  column_leb c a b = true \/ column_leb c b a = true.
Proof.
  destruct c; cbn;
    first [ apply Z_leb_total
          | apply String.leb_total
          | apply opt_leb_total;
            first [ apply Z_leb_total | apply String.leb_total
                  | apply float_leb_total ] ].
Qed.

#[global] Instance order_rel_total (dir : direction) (c : column) :
  Total (order_rel dir c).
Proof.
  intros a b. unfold order_rel.
  destruct dir;
    [ destruct (column_leb_total c a b) as [H|H]
    | destruct (column_leb_total c b a) as [H|H] ];
    rewrite H; simpl; auto.
Qed.

Lemma insert_row_by_Permutation (dir : direction) (c : column) (x : sql_row)
  (rows : list sql_row) :
  Permutation (insert_row_by dir c x rows) (x :: rows).
Proof.
  induction rows as [|y rows IH]; simpl; [ reflexivity | ].
  destruct (decide (order_rel dir c x y)); [ reflexivity | ].
  rewrite IH. apply perm_swap.
Qed.

Lemma order_by_cons (dir : direction) (c : column) (x : sql_row)
  (rows : list sql_row) :
  order_by dir c (x :: rows) = insert_row_by dir c x (order_by dir c rows).
Proof. reflexivity. Qed.

Lemma order_by_Permutation (dir : direction) (c : column) (rows : list sql_row) :
  Permutation (order_by dir c rows) rows.
Proof.
  induction rows as [|x rows IH]; [ reflexivity | ].
  rewrite order_by_cons, insert_row_by_Permutation. by apply perm_skip.
Qed.

Lemma insert_row_by_HdRel (dir : direction) (c : column) (a x : sql_row)
  (rows : list sql_row) :
  order_rel dir c a x ->
  HdRel (order_rel dir c) a rows ->
  HdRel (order_rel dir c) a (insert_row_by dir c x rows).
Proof.
  intros Hax H. destruct rows as [|y rows]; simpl; [ by constructor | ].
  destruct (decide (order_rel dir c x y)); constructor;
    [ exact Hax | by inversion H ].
Qed.

Lemma insert_row_by_Sorted (dir : direction) (c : column) (x : sql_row)
  (rows : list sql_row) :
  Sorted (order_rel dir c) rows ->
  Sorted (order_rel dir c) (insert_row_by dir c x rows).
Proof.
  induction 1 as [|y rows Hs IH Hd]; simpl.
  - repeat constructor.
  - destruct (decide (order_rel dir c x y)) as [Hxy|Hxy].
    + constructor; [ by constructor | by constructor ].
    + constructor; [ exact IH | ].
      apply insert_row_by_HdRel; [ | exact Hd ].
      destruct (order_rel_total dir c x y) as [H|H]; [ contradiction | exact H ].
Qed.

Lemma order_by_Sorted (dir : direction) (c : column) (rows : list sql_row) :
  Sorted (order_rel dir c) (order_by dir c rows).
Proof.
  induction rows as [|x rows IH]; [ constructor | ].
  rewrite order_by_cons. by apply insert_row_by_Sorted.
Qed.

Lemma order_by_length (dir : direction) (col : column) (rows : list sql_row) :
  length (order_by dir col rows) = length rows.
Proof. apply Permutation_length, order_by_Permutation. Qed.

Lemma order_by_key_Permutation (dir : direction) (key : sort_key)
  (rows : list sql_row) :
  Permutation (order_by_key dir key rows) rows.
Proof. destruct key; [ apply order_by_Permutation | reflexivity ]. Qed.

(** Rows with equal values stay in table order, whatever the direction. *)
Example order_by_ties :
  let rows := [sample_row 1 "A" 7 0 0; sample_row 2 "B" 7 0 0;
               sample_row 3 "C" 9 0 0; sample_row 4 "D" 7 0 0] in
  map id (order_by Asc c_total_cases rows) = [1; 2; 4; 3]
  /\ map id (order_by Desc c_total_cases rows) = [3; 1; 2; 4].
Proof. vm_compute. split; reflexivity. Qed.

(** *** Listing *)

Lemma filter_all {A : Type} (l : list A) : List.filter (fun _ => true) l = l.
Proof. induction l as [|x l IH]; simpl; congruence. Qed.

Lemma filter_filter {A : Type} (f g : A -> bool) (l : list A) :
  List.filter g (List.filter f l) = List.filter (fun x => f x && g x) l.
Proof.
  induction l as [|x l IH]; simpl; [ reflexivity | ].
  destruct (f x); simpl; [ | exact IH ].
  destruct (g x); simpl; congruence.
Qed.

Lemma string_length_app (s1 s2 : string) :
  String.length (s1 ++ s2) = (String.length s1 + String.length s2)%nat.
Proof. induction s1 as [|c s1 IH]; simpl; [ reflexivity | by rewrite IH ]. Qed.

(** Without an error of the engine, the two optional filters keep exactly
    the rows that match. *)
Lemma filters_rows_matches (country_arg continent_arg : string)
  (rows : list sql_row) :
  (let rows :=
     if negb (String.eqb country_arg "")
     then List.filter (country_matches country_arg) rows else rows in
   if negb (String.eqb continent_arg "") && negb (String.eqb continent_arg "all")
   then List.filter (continent_matches continent_arg) rows else rows)
  = List.filter (matches_filters country_arg continent_arg) rows.
Proof.
  unfold matches_filters.
  destruct (String.eqb country_arg ""); simpl;
    destruct (String.eqb continent_arg ""); simpl;
    try destruct (String.eqb continent_arg "all"); simpl;
    rewrite ?filter_filter; try (symmetry; apply filter_all);
    apply List.filter_ext; intros x;
    rewrite ?andb_true_r; reflexivity.
Qed.

Lemma filter_country_spec (needle : string) (rows : list sql_row) :
  filter_country needle (Ok rows)
  = if (Z.of_nat (String.length needle) + 2 <=? 50000)
       || match rows with [] => true | _ :: _ => false end
    then Ok (List.filter (country_matches needle) rows)
    else Raise StorageError.
Proof.
  unfold filter_country, mbind, result_bind, sqlite_max_like_pattern.
  destruct rows as [|x rows]; [ by rewrite orb_true_r | ].
  rewrite orb_false_r, !string_length_app. cbn [String.length].
  destruct (Z.ltb_spec 50000
              (Z.of_nat (1 + (String.length needle + 1)))),
           (Z.leb_spec (Z.of_nat (String.length needle) + 2) 50000);
    try reflexivity; lia.
Qed.

Lemma apply_filters_matches (country_arg continent_arg : string)
  (rows : list sql_row) :
  apply_filters country_arg continent_arg (Ok rows)
  = if like_fits country_arg rows
    then Ok (List.filter (matches_filters country_arg continent_arg) rows)
    else Raise StorageError.
Proof.
  rewrite <- filters_rows_matches. unfold apply_filters, like_fits.
  destruct (String.eqb country_arg ""); cbn [negb orb].
  - destruct (negb (String.eqb continent_arg "")
              && negb (String.eqb continent_arg "all")); reflexivity.
  - rewrite filter_country_spec.
    destruct ((Z.of_nat (String.length country_arg) + 2 <=? 50000)
              || match rows with [] => true | _ :: _ => false end);
      destruct (negb (String.eqb continent_arg "")
                && negb (String.eqb continent_arg "all")); reflexivity.
Qed.

Lemma apply_sorting_direction (order : option string) (key : sort_key)
  (query : sql_query) :
  apply_sorting (args_get order "desc") key query
  = query_order_by (direction_of_order order) key query.
Proof.
  unfold apply_sorting, direction_of_order, args_get.
  destruct order as [o|]; simpl; [ | reflexivity ].
  destruct (String.eqb o "desc"); reflexivity.
Qed.

Lemma ceil_div_bounds (a b : Z) :
  0 < b -> (ceil_div a b - 1) * b < a <= ceil_div a b * b.
Proof.
  intros Hb. unfold ceil_div.
  pose proof (Z.div_mod (- a) b ltac:(lia)) as Hdm.
  pose proof (Z.mod_pos_bound (- a) b Hb) as Hm.
  nia.
Qed.

Lemma fits_sqlite_spec (z : Z) :
  fits_sqlite z = true <-> sqlite_min <= z <= sqlite_max.
Proof. unfold fits_sqlite. rewrite andb_true_iff, !Z.leb_le. reflexivity. Qed.

Lemma page_fits_spec (page per_page : Z) :
  page_fits page per_page = true
  <-> served_per_page per_page <= sqlite_max
      /\ (served_page page - 1) * served_per_page per_page <= sqlite_max.
Proof.
  unfold page_fits. rewrite andb_true_iff, !fits_sqlite_spec.
  unfold served_page, served_per_page, sqlite_min.
  destruct (Z.ltb_spec page 1), (Z.ltb_spec per_page 1); nia.
Qed.

Lemma paginate_spec (query : sql_query) (page per_page : Z) :
  paginate query page per_page None
  = if page_fits page per_page
    then
      rows ← query;
      Ok (Pagination.mk
            (take (Z.to_nat (served_per_page per_page))
                  (drop (Z.to_nat ((served_page page - 1)
                                   * served_per_page per_page))
                        rows))
            (Z.of_nat (length rows))
            (if Z.of_nat (length rows) =? 0 then 0
             else ceil_div (Z.of_nat (length rows))
                           (served_per_page per_page)))
    else Raise OverflowError.
Proof.
  unfold paginate, page_fits, bind_int, mbind, result_bind, mret, result_ret.
  fold (served_page page). fold (served_per_page per_page).
  destruct (fits_sqlite (served_per_page per_page)); [ | reflexivity ].
  destruct (fits_sqlite ((served_page page - 1) * served_per_page per_page));
    reflexivity.
Qed.

(** The reply of the view in terms of the sort key, the filters and the
    page. *)
Lemma get_records_spec (cls : class_attributes) (args : request_args)
  (rows : list sql_row) :
  get_records cls args rows
  = match getattr cls (args_get (arg_sort_by args) "total_cases") with
    | Raise e => Error500 e
    | Ok key =>
        if page_fits (args_get (arg_page args) 1) (args_get (arg_per_page args) 10)
        then
          if like_fits (args_get (arg_country args) "") rows
          then Json200 (listing_page args (listing_by_key args key rows))
          else Error500 StorageError
        else Error500 OverflowError
    end.
Proof.
  unfold get_records, records_body.
  destruct (getattr cls (args_get (arg_sort_by args) "total_cases")) as [key|e];
    [ | reflexivity ].
  cbn [mbind result_bind].
  rewrite apply_sorting_direction, apply_filters_matches, paginate_spec.
  unfold query_order_by, mbind, result_bind, mret, result_ret.
  destruct (page_fits (args_get (arg_page args) 1)
                      (args_get (arg_per_page args) 10)); [ | reflexivity ].
  destruct (like_fits (args_get (arg_country args) "") rows); reflexivity.
Qed.

Lemma getattr_column_key (cls : class_attributes) (name : string) (col : column) :
  getattr_column name = Ok col -> getattr cls name = Ok (ByColumn col).
Proof. unfold getattr. by intros ->. Qed.

Lemma get_records_column (cls : class_attributes) (args : request_args)
  (rows : list sql_row) (col : column) :
  getattr_column (args_get (arg_sort_by args) "total_cases") = Ok col ->
  get_records cls args rows
  = if page_fits (args_get (arg_page args) 1) (args_get (arg_per_page args) 10)
    then
      if like_fits (args_get (arg_country args) "") rows
      then Json200 (listing_page args (listing_sequence args col rows))
      else Error500 StorageError
    else Error500 OverflowError.
Proof.
  intros Hcol. rewrite get_records_spec, (getattr_column_key cls _ col Hcol).
  reflexivity.
Qed.

Lemma like_fits_short (country_arg : string) (rows : list sql_row) :
  Z.of_nat (String.length country_arg) + 2 <= 50000 ->
  like_fits country_arg rows = true.
Proof.
  intros H. unfold like_fits. apply Z.leb_le in H. rewrite H.
  by rewrite orb_true_r.
Qed.

Lemma listing_sequence_Permutation (args : request_args) (col : column)
  (rows : list sql_row) :
  Permutation (listing_sequence args col rows)
              (List.filter (matches_filters (args_get (arg_country args) "")
                                            (args_get (arg_continent args) ""))
                           rows).
Proof. apply order_by_Permutation. Qed.


Lemma pages_ceil_div (total per_page : Z) :
  (if total =? 0 then 0 else ceil_div total per_page) = ceil_div total per_page.
Proof. destruct (Z.eqb_spec total 0) as [->|]; reflexivity. Qed.




(** A search text of 49999 bytes makes a LIKE pattern of 50001, which the
    engine refuses as soon as there is a row. *)
Example get_records_pattern_too_long :
  let needle := string_of_list_ascii (repeat "a"%char (Z.to_nat 49999)) in
  let args := mk_request_args None None (Some needle) None None None in
  get_records no_other_attribute args sample_table_25 = Error500 StorageError
  /\ exists resp, get_records no_other_attribute args [] = Json200 resp.
Proof.
  intros needle args. split.
  - rewrite (get_records_column _ args _ c_total_cases eq_refl).
    vm_compute. reflexivity.
  - rewrite (get_records_column _ args _ c_total_cases eq_refl).
    vm_compute. eauto.
Qed.

(** Page 2 of 25 stored rows, ten per page, by descending [total_cases]: the
    rows ranked 11 to 20, and three pages. *)
Example get_records_page_2_of_25 :
  exists resp,
    get_records no_other_attribute
                (mk_request_args (Some 2) (Some 10) None None None None)
                sample_table_25 = Json200 resp
    /\ map id (Listing.records resp) = [15; 14; 13; 12; 11; 10; 9; 8; 7; 6]
    /\ Listing.total resp = 25
    /\ Listing.pages resp = 3.
Proof. eexists. split; [ vm_compute; reflexivity | ]. repeat split. Qed.

(** The same for any 25 rows: the records are those at places 11 to 20 of
    the rows put in descending order of [total_cases]. *)
Lemma get_records_page_2_of_any_25 (cls : class_attributes) (rows : list sql_row) :
  length rows = 25%nat ->
  exists resp sorted,
    get_records cls (mk_request_args (Some 2) (Some 10) None None None None) rows
    = Json200 resp
    /\ Permutation sorted rows
    /\ Sorted (order_rel Desc c_total_cases) sorted
    /\ Listing.records resp = take 10 (drop 10 sorted)
    /\ length (Listing.records resp) = 10%nat
    /\ Listing.total resp = 25
    /\ Listing.pages resp = 3.
Proof.
  intros Hlen.
  set (args := mk_request_args (Some 2) (Some 10) None None None None).
  assert (Hseq : listing_sequence args c_total_cases rows
                 = order_by Desc c_total_cases rows).
  { unfold listing_sequence.
    by rewrite (List.filter_ext _ (fun _ => true)), filter_all. }
  exists (listing_page args (order_by Desc c_total_cases rows)),
         (order_by Desc c_total_cases rows).
  split.
  { rewrite (get_records_column cls args rows c_total_cases eq_refl), Hseq.
    reflexivity. }
  split; [ apply order_by_Permutation | ].
  split; [ apply order_by_Sorted | ].
  unfold listing_page. cbn [Listing.records Listing.total Listing.pages].
  rewrite order_by_length, Hlen.
  split; [ reflexivity | ].
  split; [ | split; reflexivity ].
  change (length (take 10 (drop 10 (order_by Desc c_total_cases rows))) = 10%nat).
  rewrite length_take, length_drop, order_by_length, Hlen. reflexivity.
Qed.

(** *** Sort direction *)


Lemma Sorted_take {A : Type} (R : relation A) (n : nat) (l : list A) :
  Sorted R l -> Sorted R (take n l).
Proof.
  revert l. induction n as [|n IH]; intros l H; [ constructor | ].
  destruct l as [|x l]; [ constructor | ].
  simpl. apply Sorted_inv in H as [H Hd].
  constructor; [ apply IH, H | ].
  destruct Hd as [|y l' Hxy]; [ destruct n; constructor | ].
  destruct n; constructor. exact Hxy.
Qed.



(** The same three rows under ['desc'], ['DESC'] and a missing [order]. *)
Example get_records_order_samples :
  let rows := [sample_row 1 "Peru" 30 0 0; sample_row 2 "Chad" 50 0 0;
               sample_row 3 "Mali" 40 0 0] in
  let ids order :=
    match get_records no_other_attribute
                      (mk_request_args None None None None None order) rows with
    | Json200 resp => Some (map id (Listing.records resp))
    | Error500 _ => None
    end in
  ids (Some "desc") = Some [2; 3; 1]
  /\ ids None = Some [2; 3; 1]
  /\ ids (Some "DESC") = Some [1; 3; 2]
  /\ ids (Some "Desc") = Some [1; 3; 2]
  /\ ids (Some "asc") = Some [1; 3; 2]
  /\ ids (Some "sideways") = Some [1; 3; 2].
Proof. vm_compute. repeat split. Qed.

(** * Further properties *)

(** ** Normalizer *)

Lemma clean_dict_response (d : gmap string value) (entries : list value) :
  d !! "response" = Some (VList entries) ->
  clean_and_transform_data (VDict d) = Ok (normalizer_spec entries).
Proof.
  intros Hd. unfold clean_and_transform_data.
  rewrite (truthy_dict_lookup _ _ _ Hd).
  cbn [negb py_contains py_getitem mbind result_bind].
  rewrite Hd. cbn [py_slice_items].
  rewrite bool_decide_eq_true_2 by eauto.
  cbn [negb mbind result_bind py_slice_items].
  rewrite fold_loop_body_spec. reflexivity.
Qed.

(** X1. An entry whose [cases], [deaths] or [tests] group is present but is
    not an object (null, a number, a list, a string) is dropped as a whole:
    the iteration leaves the accumulated records as they were. *)
Theorem loop_body_group_not_object
  (acc : list py_record) (d : gmap string value) (g : string) (v : value) :
  In g ["cases"; "deaths"; "tests"] ->
  d !! g = Some v ->
  (forall gd, v <> VDict gd) ->
  loop_body acc (VDict d) = acc.
Proof.
  intros Hg Hv Hnot. unfold loop_body.
  destruct (process_entry (VDict d)) as [[r|]|e] eqn:E; try reflexivity.
  exfalso.
  destruct (process_entry_inv _ _ E)
    as (d' & raw & cases & deaths & tests & Hd & _ & Hc & Hde & Ht & _).
  injection Hd as <-.
  destruct Hg as [<- | [<- | [<- | []]]].
  - rewrite Hv in Hc. cbn in Hc. by apply (Hnot cases).
  - rewrite Hv in Hde. cbn in Hde. by apply (Hnot deaths).
  - rewrite Hv in Ht. cbn in Ht. by apply (Hnot tests).
Qed.

Lemma loop_body_group_not_object_witness :
  let d : gmap string value :=
    list_to_map [("country", VStr "Peru"); ("cases", VNone)] in
  In "cases" ["cases"; "deaths"; "tests"]
  /\ d !! "cases" = Some VNone
  /\ loop_body [] (VDict d) = [].
Proof.
  intros d.
  assert (Hin : In "cases" ["cases"; "deaths"; "tests"]) by (left; reflexivity).
  assert (Hd : d !! "cases" = Some VNone) by (vm_compute; reflexivity).
  split; [ exact Hin | ]. split; [ exact Hd | ].
  apply (loop_body_group_not_object [] d "cases" VNone Hin Hd).
  intros gd. discriminate.
Defined.

(** X2. The continent of a produced record is ["Unknown"] only when the key
    is missing; a value that is present is stored as it is, null included. *)
Theorem continent_passes_through
  (d : gmap string value) (r : py_record) :
  process_entry (VDict d) = Ok (Some r) ->
  (d !! "continent" = None -> continent r = VStr "Unknown")
  /\ (forall v, d !! "continent" = Some v -> continent r = v)
  /\ (d !! "continent" = Some VNone -> continent r = VNone).
Proof.
  intros H.
  destruct (process_entry_inv _ _ H)
    as (d' & raw & cases & deaths & tests & Hd & _ & _ & _ & _ & ->).
  injection Hd as <-. cbn [continent].
  split; [ intros ->; reflexivity | ].
  split; [ intros v ->; reflexivity | intros ->; reflexivity ].
Qed.

Lemma continent_passes_through_witness :
  let d : gmap string value :=
    list_to_map [("country", VStr "Peru"); ("continent", VNone)] in
  exists r, process_entry (VDict d) = Ok (Some r) /\ continent r = VNone.
Proof.
  intros d.
  assert (H : exists r, process_entry (VDict d) = Ok (Some r))
    by (eexists; vm_compute; reflexivity).
  destruct H as [r H]. exists r. split; [ exact H | ].
  apply (continent_passes_through d r H). vm_compute. reflexivity.
Defined.

Lemma normalizer_spec_app (l1 l2 : list value) :
  (length l1 + length l2 <= 500)%nat ->
  normalizer_spec (l1 ++ l2) = normalizer_spec l1 ++ normalizer_spec l2.
Proof.
  intros Hlen. unfold normalizer_spec.
  rewrite !take_ge by (rewrite ?length_app; lia).
  rewrite List.filter_app. apply omap_app.
Qed.

(** X3. Within the cap of 500 entries the Normalizer works entry by entry:
    the output for two lists one after the other is the output for the first
    followed by the output for the second. *)
Theorem clean_and_transform_data_app (l1 l2 : list value) :
  (length l1 + length l2 <= 500)%nat ->
  clean_and_transform_data (VDict {[ "response" := VList (l1 ++ l2) ]})
  = (o1 ← clean_and_transform_data (VDict {[ "response" := VList l1 ]});
     o2 ← clean_and_transform_data (VDict {[ "response" := VList l2 ]});
     Ok (o1 ++ o2)).
Proof.
  intros Hlen.
  rewrite !(clean_dict_response _ _ (lookup_singleton_eq _ _)).
  cbn [mbind result_bind]. by rewrite normalizer_spec_app.
Qed.

Lemma clean_and_transform_data_app_witness :
  (length [entry_france; entry_all] + length [entry_negative] <= 500)%nat
  /\ clean_and_transform_data
       (VDict {[ "response" := VList ([entry_france; entry_all] ++ [entry_negative]) ]})
     = (o1 ← clean_and_transform_data
               (VDict {[ "response" := VList [entry_france; entry_all] ]});
        o2 ← clean_and_transform_data
               (VDict {[ "response" := VList [entry_negative] ]});
        Ok (o1 ++ o2)).
Proof.
  assert (H : (length [entry_france; entry_all] + length [entry_negative] <= 500)%nat)
    by (simpl; lia).
  split; [ exact H | ].
  apply (clean_and_transform_data_app _ _ H).
Defined.

(** X4. Entries after the 500th never influence the result. *)
Theorem clean_and_transform_data_ignores_tail (l1 l2 : list value) :
  (500 <= length l1)%nat ->
  clean_and_transform_data (VDict {[ "response" := VList (l1 ++ l2) ]})
  = clean_and_transform_data (VDict {[ "response" := VList (take 500 l1) ]}).
Proof.
  intros Hlen.
  rewrite !(clean_dict_response _ _ (lookup_singleton_eq _ _)).
  unfold normalizer_spec.
  rewrite take_app_le by exact Hlen. by rewrite take_take, Nat.min_id.
Qed.

Lemma clean_and_transform_data_ignores_tail_witness :
  (500 <= length (replicate 500 entry_all))%nat
  /\ clean_and_transform_data
       (VDict {[ "response" := VList (replicate 500 entry_all ++ [entry_france]) ]})
     = clean_and_transform_data
         (VDict {[ "response" := VList (take 500 (replicate 500 entry_all)) ]}).
Proof.
  assert (H : (500 <= length (replicate 500 entry_all))%nat)
    by (rewrite length_replicate; lia).
  split; [ exact H | ].
  apply (clean_and_transform_data_ignores_tail _ _ H).
Defined.

Lemma fold_loop_body_strings (points : list (list ascii)) (acc : list py_record) :
  fold_left loop_body
            (map (fun point => VStr (string_of_list_ascii point)) points) acc
  = acc.
Proof.
  revert acc. induction points as [|c cs IH]; intros acc; [ reflexivity | ].
  cbn [map fold_left]. apply IH.
Qed.

(** X5. When the field ['response'] is present but is not a list, the
    Normalizer fails with an uncaught [TypeError], except for a string, whose
    characters are all skipped so that the result is empty. *)
Theorem clean_and_transform_data_response_not_list
  (d : gmap string value) (v : value) :
  d !! "response" = Some v ->
  (forall l, v <> VList l) ->
  clean_and_transform_data (VDict d)
  = match v with
    | VStr _ => Ok []
    | _ => Raise TypeError
    end.
Proof.
  intros Hd Hnot. unfold clean_and_transform_data.
  rewrite (truthy_dict_lookup _ _ _ Hd).
  cbn [negb py_contains py_getitem mbind result_bind].
  rewrite Hd, bool_decide_eq_true_2 by eauto.
  cbn [negb mbind result_bind].
  destruct v; try reflexivity.
  - cbn [py_slice_items mbind result_bind].
    by rewrite fold_loop_body_strings.
  - by destruct (Hnot l).
Qed.

Lemma clean_and_transform_data_response_not_list_witness :
  let d : gmap string value := list_to_map [("response", VStr "down")] in
  d !! "response" = Some (VStr "down")
  /\ clean_and_transform_data (VDict d) = Ok [].
Proof.
  intros d.
  assert (Hd : d !! "response" = Some (VStr "down")) by (vm_compute; reflexivity).
  split; [ exact Hd | ].
  apply (clean_and_transform_data_response_not_list d (VStr "down") Hd).
  intros l. discriminate.
Defined.

(** ** Reconciler *)

Section ReconcilerFurther.
Context {S I F : Type}.
Variable utc : nat -> Z.
Variable fails : nat -> bool.

Local Abbreviation record := (cleaned_record S I F).
Local Abbreviation row := (CovidRecord S I F).
Local Abbreviation world := (database S I F).
Local Abbreviation id_key := (fun x : row => (id x, key x)).

Implicit Types (r q : record) (x : row) (l : list row) (c : string)
  (st : list row * nat).

Lemma upsert_all_cons r (rest : list record) st :
  upsert_all utc (r :: rest) st = upsert_all utc rest (upsert utc r st).
Proof. reflexivity. Qed.

Lemma upsert_all_app (pre post : list record) st :
  upsert_all utc (pre ++ post) st = upsert_all utc post (upsert_all utc pre st).
Proof. unfold upsert_all. apply fold_left_app. Qed.

Lemma upsert_clock r st : snd (upsert utc r st) = Datatypes.S (snd st).
Proof. unfold upsert. destruct (find_key (country r) (fst st)); reflexivity. Qed.

Lemma upsert_all_clock (records : list record) st :
  snd (upsert_all utc records st) = (snd st + length records)%nat.
Proof.
  revert st. induction records as [|r rest IH]; intros st.
  - simpl. lia.
  - rewrite upsert_all_cons, IH, upsert_clock. simpl. lia.
Qed.

Lemma upsert_id_key_prefix r st :
  map id_key (fst st) `prefix_of` map id_key (fst (upsert utc r st)).
Proof.
  unfold upsert. destruct (find_key (country r) (fst st)) as [i|] eqn:E.
  - cbn [fst]. rewrite map_alter_same; [ reflexivity | ].
    intros x Hx. destruct (find_key_lookup _ _ _ E) as (y & Hy & Hk).
    unfold key. cbn. f_equal. unfold key in Hk. congruence.
  - unfold insert_pending. cbn [fst]. rewrite map_app. by eexists.
Qed.

Lemma upsert_all_id_key_prefix (records : list record) st :
  map id_key (fst st) `prefix_of` map id_key (fst (upsert_all utc records st)).
Proof.
  revert st. induction records as [|r rest IH]; intros st; [ reflexivity | ].
  rewrite upsert_all_cons.
  etransitivity; [ apply upsert_id_key_prefix | apply IH ].
Qed.

Lemma upsert_other_row r st i x :
  fst st !! i = Some x -> key x <> country r ->
  fst (upsert utc r st) !! i = Some x.
Proof.
  intros Hx Hne. unfold upsert.
  destruct (find_key (country r) (fst st)) as [j|] eqn:E; cbn [fst].
  - rewrite list_lookup_alter_ne; [ exact Hx | ].
    intros ->. destruct (find_key_lookup _ _ _ E) as (y & Hy & Hk). congruence.
  - unfold insert_pending. cbn [fst]. by apply lookup_app_l_Some.
Qed.

Lemma upsert_all_other_row (records : list record) st i x :
  fst st !! i = Some x -> ~ In (key x) (map country records) ->
  fst (upsert_all utc records st) !! i = Some x.
Proof.
  revert st. induction records as [|r rest IH]; intros st Hx Hnot; [ exact Hx | ].
  rewrite upsert_all_cons. apply IH.
  - apply upsert_other_row; [ exact Hx | ]. intros E. apply Hnot. left. auto.
  - intros Hin. apply Hnot. right. exact Hin.
Qed.

Lemma upsert_countries r st c :
  In c (map key (fst (upsert utc r st)))
  <-> In c (map key (fst st)) \/ c = country r.
Proof.
  destruct st as [l n]. rewrite upsert_keys. cbn [fst].
  destruct (find_key (country r) l) as [i|] eqn:E.
  - split; [ auto | ]. intros [H | ->]; [ exact H | ].
    apply find_key_is_Some. eauto.
  - rewrite in_app_iff. simpl. intuition.
Qed.

Lemma upsert_all_countries (records : list record) st c :
  In c (map key (fst (upsert_all utc records st)))
  <-> In c (map key (fst st)) \/ In c (map country records).
Proof.
  revert st. induction records as [|r rest IH]; intros st.
  - simpl. tauto.
  - rewrite upsert_all_cons, IH, upsert_countries. simpl. intuition.
Qed.

(** The row written for a record, right after its upsert. *)
Lemma upsert_writes r st :
  exists i x,
    find_key (country r) (fst (upsert utc r st)) = Some i
    /\ fst (upsert utc r st) !! i = Some x
    /\ attrs x = r
    /\ date_recorded x = utc (snd st).
Proof.
  unfold upsert. destruct (find_key (country r) (fst st)) as [i|] eqn:E; cbn [fst].
  - destruct (find_key_lookup _ _ _ E) as (y & Hy & Hk).
    exists i, (mk_CovidRecord (id y) r (utc (snd st))).
    split; [ | split; [ | split; reflexivity ] ].
    + rewrite <- E. apply find_key_keys, map_alter_same.
      intros x Hx. unfold key. cbn. unfold key in Hk. congruence.
    + by rewrite list_lookup_alter_eq, Hy.
  - exists (length (fst st)), (mk_CovidRecord (next_id (fst st)) r (utc (snd st))).
    unfold insert_pending. cbn [fst].
    split; [ | split; [ | split; reflexivity ] ].
    + rewrite (find_key_snoc _ _ _ E). by rewrite decide_True.
    + by rewrite lookup_app_r, Nat.sub_diag.
Qed.

(** An upsert for another country leaves the first row of [c] where it is. *)
Lemma upsert_keeps_first q st c i x :
  country q <> c ->
  find_key c (fst st) = Some i -> fst st !! i = Some x ->
  find_key c (fst (upsert utc q st)) = Some i
  /\ fst (upsert utc q st) !! i = Some x.
Proof.
  intros Hne Hi Hx.
  assert (Hkx : key x = c).
  { destruct (find_key_lookup _ _ _ Hi) as (y & Hy & Hk). congruence. }
  split; [ | apply upsert_other_row; [ exact Hx | congruence ] ].
  unfold upsert. destruct (find_key (country q) (fst st)) as [j|] eqn:E; cbn [fst].
  - rewrite <- Hi. apply find_key_keys, map_alter_same.
    intros y Hy. destruct (find_key_lookup _ _ _ E) as (z & Hz & Hk).
    unfold key. cbn. unfold key in Hk. congruence.
  - unfold insert_pending. cbn [fst]. by apply find_key_app_l.
Qed.

Lemma upsert_all_keeps_first (records : list record) st c i x :
  ~ In c (map country records) ->
  find_key c (fst st) = Some i -> fst st !! i = Some x ->
  find_key c (fst (upsert_all utc records st)) = Some i
  /\ fst (upsert_all utc records st) !! i = Some x.
Proof.
  revert st. induction records as [|q rest IH]; intros st Hnot Hi Hx; [ auto | ].
  rewrite upsert_all_cons.
  destruct (upsert_keeps_first q st c i x) as [Hi' Hx']; auto.
  { intros E. apply Hnot. left. exact E. }
  apply IH; auto. intros Hin. apply Hnot. right. exact Hin.
Qed.

(** What an invocation that reports a positive count has done. *)
Lemma store_data_in_db_stored (records : list record) (w w' : world) (n : Z) :
  session_clean w ->
  store_data_in_db utc fails records w = (Ok n, w') ->
  n <> 0 ->
  n = Z.of_nat (length records)
  /\ (table w', clock_reads w')
     = upsert_all utc records (table w, clock_reads w).
Proof.
  intros [Htxn Hnew] Hrun Hn.
  destruct (store_data_in_db_cases utc fails records w)
    as (n0 & w0 & Hrun0 & _ & Hcases).
  rewrite Hrun in Hrun0. injection Hrun0 as <- <-.
  destruct Hcases as [(e & w'' & _ & Hz & _) | (_ & Hlen & Hview)];
    [ contradiction | ].
  split; [ exact Hlen | ].
  by rewrite (pending_view_clean utc w Hnew), Htxn in Hview.
Qed.

(** X6. An invocation never deletes or renumbers: the rows stored before
    keep their position, their id and their country, whether the invocation
    commits or rolls back; rows are only added at the end. *)
Theorem store_data_in_db_keeps_rows (records : list record) (w : world) :
  session_clean w ->
  map id_key (table w)
    `prefix_of` map id_key (table (snd (store_data_in_db utc fails records w))).
Proof.
  intros Hclean.
  destruct (store_data_in_db_step utc fails records w Hclean) as [_ [-> | ->]].
  - reflexivity.
  - apply (upsert_all_id_key_prefix records (table w, clock_reads w)).
Qed.

(** X7. A row whose country does not occur in the batch is left exactly as
    it was, time stamp included. *)
Theorem store_data_in_db_other_rows
  (records : list record) (w : world) (i : nat) (x : row) :
  session_clean w ->
  table w !! i = Some x ->
  ~ In (key x) (map country records) ->
  table (snd (store_data_in_db utc fails records w)) !! i = Some x.
Proof.
  intros Hclean Hx Hnot.
  destruct (store_data_in_db_step utc fails records w Hclean) as [_ [-> | ->]].
  - exact Hx.
  - by apply (upsert_all_other_row records (table w, clock_reads w)).
Qed.

(** X8. After an invocation that reports a positive count, the stored
    countries are those stored before together with those of the batch. *)
Theorem store_data_in_db_countries
  (records : list record) (w w' : world) (n : Z) (c : string) :
  session_clean w ->
  store_data_in_db utc fails records w = (Ok n, w') ->
  n <> 0 ->
  In c (map key (table w'))
  <-> In c (map key (table w)) \/ In c (map country records).
Proof.
  intros Hclean Hrun Hn.
  destruct (store_data_in_db_stored records w w' n Hclean Hrun Hn) as [_ Hview].
  replace (table w') with (fst (upsert_all utc records (table w, clock_reads w)))
    by (by rewrite <- Hview).
  apply upsert_all_countries.
Qed.

(** X9. Last writer wins, and the time stamp is that record's own clock
    reading: after an invocation that reports a positive count, the first row
    of a country carries the attributes of the last record of the batch with
    that country, stamped with the reading taken for that record. *)
Theorem store_data_in_db_last_wins
  (pre post : list record) (r : record) (w w' : world) (n : Z) :
  session_clean w ->
  store_data_in_db utc fails (pre ++ r :: post) w = (Ok n, w') ->
  n <> 0 ->
  ~ In (country r) (map country post) ->
  exists i x,
    find_key (country r) (table w') = Some i
    /\ table w' !! i = Some x
    /\ attrs x = r
    /\ date_recorded x = utc (clock_reads w + length pre).
Proof.
  intros Hclean Hrun Hn Hlast.
  destruct (store_data_in_db_stored _ w w' n Hclean Hrun Hn) as [_ Hview].
  replace (table w')
    with (fst (upsert_all utc (pre ++ r :: post) (table w, clock_reads w)))
    by (by rewrite <- Hview).
  rewrite upsert_all_app, upsert_all_cons.
  destruct (upsert_writes r (upsert_all utc pre (table w, clock_reads w)))
    as (i & x & Hi & Hx & Ha & Hd).
  rewrite upsert_all_clock in Hd. cbn [snd] in Hd.
  exists i, x.
  destruct (upsert_all_keeps_first post _ _ i x Hlast Hi Hx) as [Hi' Hx'].
  auto.
Qed.

(** X10. An empty batch returns 0 and leaves the rows as they are, whether
    its commit succeeds or is rolled back. *)
Theorem store_data_in_db_empty_batch (w : world) :
  session_clean w ->
  fst (store_data_in_db utc fails [] w) = Ok 0
  /\ table (snd (store_data_in_db utc fails [] w)) = table w.
Proof.
  intros Hclean.
  destruct (store_data_in_db_step utc fails [] w Hclean) as [_ Ht].
  split; [ | by destruct Ht as [-> | ->] ].
  destruct (store_data_in_db_cases utc fails [] w)
    as (n & w' & Hrun & _ & [(e & w'' & _ & -> & _) | (_ & -> & _)]);
    by rewrite Hrun.
Qed.

(** X11. For a batch that is not empty, 0 is returned exactly when the [try]
    block raised and the batch was rolled back. *)
Theorem store_data_in_db_zero_iff_rolled_back (records : list record) (w : world) :
  records <> [] ->
  fst (store_data_in_db utc fails records w) = Ok 0
  <-> exists e w'', store_body utc fails records w = (Raise e, w'').
Proof.
  intros Hne.
  destruct (store_data_in_db_cases utc fails records w)
    as (n & w' & Hrun & _ & [(e & w'' & Hbody & -> & _) | (Hbody & Hlen & _)]);
    rewrite Hrun; cbn [fst].
  - split; eauto.
  - split.
    + intros E. injection E as ->.
      destruct records; [ contradiction | simpl in Hlen; lia ].
    + intros (e & w'' & E). rewrite Hbody in E. discriminate E.
Qed.

End ReconcilerFurther.

Lemma store_data_in_db_keeps_rows_witness :
  session_clean database_with_mali
  /\ map (fun x => (id x, key x)) (table database_with_mali)
       `prefix_of`
     map (fun x => (id x, key x))
         (table (snd (store_data_in_db sample_clock no_fault sample_batch
                        database_with_mali))).
Proof.
  assert (H : session_clean database_with_mali) by (split; reflexivity).
  split; [ exact H | ].
  apply (store_data_in_db_keeps_rows sample_clock no_fault sample_batch _ H).
Defined.

Lemma store_data_in_db_other_rows_witness :
  let x := mk_CovidRecord 1 (sample_record "Mali" 1) 1000 in
  session_clean database_with_mali
  /\ table database_with_mali !! 0%nat = Some x
  /\ table (snd (store_data_in_db sample_clock no_fault sample_batch
                    database_with_mali)) !! 0%nat = Some x.
Proof.
  intros x.
  assert (H : session_clean database_with_mali) by (split; reflexivity).
  assert (Hx : table database_with_mali !! 0%nat = Some x) by reflexivity.
  split; [ exact H | ]. split; [ exact Hx | ].
  apply (store_data_in_db_other_rows sample_clock no_fault sample_batch _ _ _ H Hx).
  simpl. intros [E | [E | [E | []]]]; discriminate E.
Defined.

Lemma store_data_in_db_countries_witness :
  let run := store_data_in_db sample_clock no_fault sample_batch
               database_with_mali in
  session_clean database_with_mali
  /\ fst run = Ok 3
  /\ (In "Chad" (map key (table (snd run)))
      <-> In "Chad" (map key (table database_with_mali))
          \/ In "Chad" (map country sample_batch)).
Proof.
  intros run.
  assert (H : session_clean database_with_mali) by (split; reflexivity).
  split; [ exact H | ]. split; [ vm_compute; reflexivity | ].
  apply (store_data_in_db_countries sample_clock no_fault sample_batch
           database_with_mali (snd run) 3 "Chad" H).
  - vm_compute. reflexivity.
  - lia.
Defined.

Lemma store_data_in_db_last_wins_witness :
  let run := store_data_in_db sample_clock no_fault sample_batch
               database_with_mali in
  session_clean database_with_mali
  /\ fst run = Ok 3
  /\ exists i x,
       find_key "Peru" (table (snd run)) = Some i
       /\ table (snd run) !! i = Some x
       /\ attrs x = sample_record "Peru" 30
       /\ date_recorded x
          = sample_clock (clock_reads database_with_mali + 2).
Proof.
  intros run.
  assert (H : session_clean database_with_mali) by (split; reflexivity).
  split; [ exact H | ]. split; [ vm_compute; reflexivity | ].
  apply (store_data_in_db_last_wins sample_clock no_fault
           [sample_record "Peru" 10; sample_record "Chad" 20] []
           (sample_record "Peru" 30) database_with_mali (snd run) 3 H).
  - vm_compute. reflexivity.
  - lia.
  - simpl. tauto.
Defined.

Lemma store_data_in_db_empty_batch_witness :
  session_clean database_with_mali
  /\ fst (store_data_in_db sample_clock (fault_at 3) [] database_with_mali) = Ok 0
  /\ table (snd (store_data_in_db sample_clock (fault_at 3) [] database_with_mali))
     = table database_with_mali.
Proof.
  assert (H : session_clean database_with_mali) by (split; reflexivity).
  split; [ exact H | ].
  apply (store_data_in_db_empty_batch sample_clock (fault_at 3) _ H).
Defined.

Lemma store_data_in_db_zero_iff_rolled_back_witness :
  sample_batch <> []
  /\ (fst (store_data_in_db sample_clock (fault_at 5) sample_batch
             database_with_mali) = Ok 0
      <-> exists e w'',
            store_body sample_clock (fault_at 5) sample_batch database_with_mali
            = (Raise e, w'')).
Proof.
  assert (H : sample_batch <> []) by discriminate.
  split; [ exact H | ].
  apply (store_data_in_db_zero_iff_rolled_back sample_clock (fault_at 5) _ _ H).
Defined.

(** ** Ingestion Orchestrator *)

Lemma fold_loop_body_length (items : list value) :
  (length (fold_left loop_body items []) <= length items)%nat.
Proof.
  rewrite fold_loop_body_spec. simpl.
  etransitivity; [ apply omap_length_le | apply List.filter_length_le ].
Qed.

(** No payload yields more than 500 records. *)
Lemma clean_and_transform_data_length (raw_data : value) (cleaned : list py_record) :
  clean_and_transform_data raw_data = Ok cleaned -> (length cleaned <= 500)%nat.
Proof.
  unfold clean_and_transform_data.
  destruct (truthy raw_data); cbn [negb];
    [ | intros H; injection H as <-; simpl; lia ].
  destruct (py_contains raw_data "response") as [[|]|e]; cbn [mbind result_bind negb];
    try discriminate; [ | intros H; injection H as <-; simpl; lia ].
  destruct (py_getitem raw_data "response") as [response|e];
    cbn [mbind result_bind]; [ | discriminate ].
  destruct response as [| | | |s|l|]; cbn [py_slice_items mbind result_bind];
    try discriminate.
  - assert (Hlen : (length (take 500 (str_points s)) <= 500)%nat)
      by (rewrite length_take; lia).
    set (t := take 500 (str_points s)) in *. clearbody t.
    intros H. injection H as <-.
    etransitivity; [ apply fold_loop_body_length | ].
    by rewrite length_map.
  - assert (Hlen : (length (take 500 l) <= 500)%nat) by (rewrite length_take; lia).
    set (t := take 500 l) in *. clearbody t.
    intros H. injection H as <-.
    etransitivity; [ apply fold_loop_body_length | exact Hlen ].
Qed.

Section OrchestratorFurther.
Variable utc : nat -> Z.
Variable fails : nat -> bool.

Local Abbreviation world := (database value value value).

(** X12. When the fetch fails, or the body is null or empty (an empty object
    or list included), the reply is the 500 failure and neither the database
    nor the session is touched. *)
Theorem fetch_and_store_without_payload (u : upstream) (w : world) :
  truthy (fetch_covid_data u) = false ->
  fetch_and_store utc fails u w
  = (Ok (Failure500 "Failed to fetch data from API"), w).
Proof.
  intros H. unfold fetch_and_store, try_except. rewrite H. reflexivity.
Qed.

(** X13. The view always answers.  A success reply carries a count between 0
    and 500 that is the number of normalized records or 0 with the rows
    unchanged; both 500 replies leave the database and the session as they
    were. *)
Theorem fetch_and_store_reply (u : upstream) (w : world) :
  exists reply w',
    fetch_and_store utc fails u w = (Ok reply, w')
    /\ match reply with
       | Success200 message n =>
           message = stored_message n
           /\ 0 <= n <= 500
           /\ session_clean w'
           /\ exists cleaned,
                clean_and_transform_data (fetch_covid_data u) = Ok cleaned
                /\ (n = Z.of_nat (length cleaned)
                    \/ (n = 0 /\ table w' = table w))
       | Failure500 _ => truthy (fetch_covid_data u) = false /\ w' = w
       | Exception500 e =>
           clean_and_transform_data (fetch_covid_data u) = Raise e /\ w' = w
       end.
Proof.
  unfold fetch_and_store, try_except.
  destruct (truthy (fetch_covid_data u)) eqn:Ht; cbn [negb].
  2: { eexists _, _. split; [ reflexivity | ]. split; reflexivity. }
  destruct (clean_and_transform_data (fetch_covid_data u)) as [cleaned|e] eqn:Hc.
  2: { eexists _, _. split; [ reflexivity | ]. split; reflexivity. }
  pose proof (clean_and_transform_data_length _ _ Hc) as Hlen.
  destruct (store_data_in_db_cases utc fails cleaned w)
    as (n & w' & Hrun & Hclean & Hcases).
  unfold mbind, db_bind. rewrite Hrun.
  eexists _, _. split; [ reflexivity | ].
  split; [ reflexivity | ].
  destruct Hcases as [(e & w'' & _ & -> & Htab) | (_ & -> & _)].
  - split; [ lia | ]. split; [ exact Hclean | ]. exists cleaned. auto.
  - split; [ lia | ]. split; [ exact Hclean | ]. exists cleaned. auto.
Qed.

(** X14. A storage error is not visible in the kind of reply: when the
    reconciliation of a batch is rolled back, the reply is still the success
    reply, with a count of 0, and the rows are those before the request. *)
Theorem fetch_and_store_hides_rollback
  (u : upstream) (w w'' : world) (cleaned : list py_record) (e : exn) :
  truthy (fetch_covid_data u) = true ->
  clean_and_transform_data (fetch_covid_data u) = Ok cleaned ->
  store_body utc fails cleaned w = (Raise e, w'') ->
  exists w',
    fetch_and_store utc fails u w = (Ok (Success200 (stored_message 0) 0), w')
    /\ table w' = table w.
Proof.
  intros Ht Hc Hbody. unfold fetch_and_store, try_except.
  rewrite Ht, Hc. cbn [negb].
  destruct (store_data_in_db_cases utc fails cleaned w)
    as (n & w' & Hrun & _ & [(e' & w3 & _ & -> & Htab) | (Hok & _)]).
  - unfold mbind, db_bind. rewrite Hrun. eauto.
  - rewrite Hbody in Hok. discriminate Hok.
Qed.

(** X15. A body that is a non-zero number or [true] is answered by the
    [except] branch, and nothing is written. *)
Theorem fetch_and_store_scalar_payload (u : upstream) (w : world) :
  truthy (fetch_covid_data u) = true ->
  py_contains (fetch_covid_data u) "response" = Raise TypeError ->
  fetch_and_store utc fails u w = (Ok (Exception500 TypeError), w).
Proof.
  intros Ht Hc. unfold fetch_and_store, try_except, clean_and_transform_data.
  rewrite Ht, Hc. reflexivity.
Qed.

(** X16. Whatever the upstream sends and whichever statement fails, a
    request keeps the stored countries pairwise distinct and leaves nothing
    pending in the session. *)
Theorem fetch_and_store_unique_country (u : upstream) (w : world) :
  session_clean w ->
  NoDup (map key (table w)) ->
  NoDup (map key (table (snd (fetch_and_store utc fails u w))))
  /\ session_clean (snd (fetch_and_store utc fails u w)).
Proof.
  intros Hclean Hnd. unfold fetch_and_store, try_except.
  destruct (truthy (fetch_covid_data u)); cbn [negb]; [ | auto ].
  destruct (clean_and_transform_data (fetch_covid_data u)) as [cleaned|e];
    [ | auto ].
  destruct (store_data_in_db_step utc fails cleaned w Hclean) as [Hclean' Ht].
  destruct (store_data_in_db_cases utc fails cleaned w)
    as (n & w' & Hrun & _ & _).
  unfold mbind, db_bind, mret, db_ret. rewrite Hrun in *. cbn [snd] in *.
  split; [ | exact Hclean' ].
  destruct Ht as [-> | ->]; [ exact Hnd | ].
  by apply (upsert_all_preserves_unique utc cleaned (table w, clock_reads w)).
Qed.

End OrchestratorFurther.

Lemma fetch_and_store_without_payload_witness :
  truthy (fetch_covid_data (UpstreamJson (dict []))) = false
  /\ fetch_and_store sample_clock no_fault (UpstreamJson (dict []))
       (mk_database [] [] [] 0 0)
     = (Ok (Failure500 "Failed to fetch data from API"), mk_database [] [] [] 0 0).
Proof.
  assert (H : truthy (fetch_covid_data (UpstreamJson (dict []))) = false)
    by reflexivity.
  split; [ exact H | ].
  apply (fetch_and_store_without_payload sample_clock no_fault _ _ H).
Defined.

Lemma fetch_and_store_hides_rollback_witness :
  let u := UpstreamJson (dict [("response", VList [entry_france; entry_negative])]) in
  let w : database value value value := mk_database [] [] [] 0 0 in
  truthy (fetch_covid_data u) = true
  /\ exists w',
       fetch_and_store sample_clock (fault_at 1) u w
       = (Ok (Success200 (stored_message 0) 0), w')
       /\ table w' = table w.
Proof.
  intros u w.
  assert (Ht : truthy (fetch_covid_data u) = true) by (vm_compute; reflexivity).
  split; [ exact Ht | ].
  destruct (clean_and_transform_data (fetch_covid_data u)) as [cleaned|e] eqn:Hc;
    [ | vm_compute in Hc; discriminate Hc ].
  destruct (store_body sample_clock (fault_at 1) cleaned w) as [[n|e] w''] eqn:Hb.
  - exfalso. vm_compute in Hc. injection Hc as <-.
    vm_compute in Hb. discriminate Hb.
  - apply (fetch_and_store_hides_rollback sample_clock (fault_at 1) u w w''
             cleaned e Ht Hc Hb).
Defined.

Lemma fetch_and_store_scalar_payload_witness :
  truthy (fetch_covid_data (UpstreamJson (VInt 7))) = true
  /\ fetch_and_store sample_clock no_fault (UpstreamJson (VInt 7))
       (mk_database [] [] [] 0 0)
     = (Ok (Exception500 TypeError), mk_database [] [] [] 0 0).
Proof.
  assert (H : truthy (fetch_covid_data (UpstreamJson (VInt 7))) = true)
    by reflexivity.
  split; [ exact H | ].
  apply (fetch_and_store_scalar_payload sample_clock no_fault _ _ H).
  reflexivity.
Defined.

Lemma fetch_and_store_unique_country_witness :
  let u := UpstreamJson (dict [("response", VList [entry_france; entry_france])]) in
  let w : database value value value := mk_database [] [] [] 0 0 in
  session_clean w
  /\ NoDup (map key (table (snd (fetch_and_store sample_clock no_fault u w))))
  /\ session_clean (snd (fetch_and_store sample_clock no_fault u w)).
Proof.
  intros u w.
  assert (H : session_clean w) by (split; reflexivity).
  split; [ exact H | ].
  apply (fetch_and_store_unique_country sample_clock no_fault u w H).
  simpl. apply NoDup_nil_2.
Defined.

(** ** Query Service: listing *)

Lemma getattr_column_In (name : string) :
  (exists col, getattr_column name = Ok col) <-> In name (map fst column_names).
Proof.
  unfold getattr_column.
  destruct (list_find (fun p : string * column => fst p = name) column_names)
    as [[i [n c]]|] eqn:E.
  - apply list_find_Some in E as (Hi & Hn & _). simpl in Hn. subst n.
    split; [ intros _ | eauto ].
    apply (in_map fst column_names (name, c)).
    apply list_elem_of_In. eapply list_elem_of_lookup_2, Hi.
  - apply list_find_None in E. split; [ intros [col H]; discriminate H | ].
    intros Hin. apply in_map_iff in Hin as ([n c] & Hn & Hin).
    rewrite Forall_forall in E. apply list_elem_of_In in Hin.
    destruct (E _ Hin Hn).
Qed.

Lemma getattr_not_column (cls : class_attributes) (name : string) :
  ~ In name (map fst column_names) ->
  getattr cls name = (_ ← cls name; Ok ByConstant).
Proof.
  intros Hn. unfold getattr.
  destruct (getattr_column name) as [col|e] eqn:E; [ | reflexivity ].
  destruct Hn. apply getattr_column_In. eauto.
Qed.

(** X17. How the listing fails.  With a sort field that names one of the
    seventeen columns, or an attribute that is taken as a constant, it
    succeeds exactly when the limit and the offset of the served page fit in
    64 bits and the country filter can be evaluated; it answers 500 with
    [OverflowError] when they do not fit, and with the error of the engine
    when they fit and the filter cannot be evaluated.  With any other sort
    field it fails with the exception that the attribute of that name
    causes, whatever the page and the rows. *)
Theorem get_records_sort_field
  (cls : class_attributes) (args : request_args) (rows : list sql_row) :
  let sort_by := args_get (arg_sort_by args) "total_cases" in
  let fits :=
    page_fits (args_get (arg_page args) 1) (args_get (arg_per_page args) 10) in
  let like := like_fits (args_get (arg_country args) "") rows in
  (In sort_by (map fst column_names) \/ cls sort_by = Ok tt ->
   ((exists resp, get_records cls args rows = Json200 resp)
    <-> fits = true /\ like = true)
   /\ (fits = false -> get_records cls args rows = Error500 OverflowError)
   /\ (fits = true -> like = false ->
       get_records cls args rows = Error500 StorageError))
  /\ (forall e,
        ~ In sort_by (map fst column_names) -> cls sort_by = Raise e ->
        get_records cls args rows = Error500 e).
Proof.
  intros sort_by fits like. subst sort_by fits like. split.
  - intros Hkey.
    assert (exists key,
               getattr cls (args_get (arg_sort_by args) "total_cases") = Ok key)
      as [key Hk].
    { destruct (getattr_column (args_get (arg_sort_by args) "total_cases"))
        as [col|e] eqn:E.
      - exists (ByColumn col). by apply getattr_column_key.
      - destruct Hkey as [Hin | Hcls].
        + apply getattr_column_In in Hin as [col Hcol]. congruence.
        + exists ByConstant. unfold getattr. by rewrite E, Hcls. }
    rewrite get_records_spec, Hk.
    destruct (page_fits (args_get (arg_page args) 1)
                        (args_get (arg_per_page args) 10));
      [ destruct (like_fits (args_get (arg_country args) "") rows) | ].
    + split; [ split; eauto | ]. split; discriminate.
    + split; [ split; [ intros [resp H]; discriminate H
                      | intros [_ H]; discriminate H ] | ].
      split; [ discriminate | reflexivity ].
    + split; [ split; [ intros [resp H]; discriminate H
                      | intros [H _]; discriminate H ] | ].
      split; [ reflexivity | discriminate ].
  - intros e Hn Hcls. rewrite get_records_spec, (getattr_not_column _ _ Hn), Hcls.
    reflexivity.
Qed.

(** A sort field outside the columns: [__doc__] holds [None], which the
    statement takes as a constant, so the rows come in table order; a name
    that is no attribute at all makes the view answer 500. *)
Example get_records_sort_by_doc :
  let rows := [sample_row 1 "Peru" 30 0 0; sample_row 2 "Chad" 50 0 0;
               sample_row 3 "Mali" 40 0 0] in
  let reply sort_by :=
    get_records doc_attribute
                (mk_request_args None None None None (Some sort_by) None) rows in
  map id (records_of (reply "__doc__")) = [1; 2; 3]
  /\ map id (records_of (reply "total_cases")) = [2; 3; 1]
  /\ reply "cases" = Error500 AttributeError.
Proof. vm_compute. repeat split. Qed.

Lemma In_take {A : Type} (n : nat) (l : list A) (x : A) :
  In x (take n l) -> In x l.
Proof.
  revert l. induction n as [|n IH]; intros [|y l]; simpl; try tauto.
  intros [-> | H]; auto.
Qed.

Lemma In_drop {A : Type} (n : nat) (l : list A) (x : A) :
  In x (drop n l) -> In x l.
Proof.
  revert l. induction n as [|n IH]; intros [|y l]; simpl; try tauto.
  intros H. right. by apply IH.
Qed.

Lemma listing_by_key_In (args : request_args) (key : sort_key)
  (rows : list sql_row) (x : sql_row) :
  In x (listing_by_key args key rows)
  <-> In x rows
      /\ matches_filters (args_get (arg_country args) "")
                         (args_get (arg_continent args) "") x = true.
Proof.
  unfold listing_by_key. rewrite <- List.filter_In.
  split; apply Permutation_in;
    [ | symmetry ]; apply order_by_key_Permutation.
Qed.

(** X18. Every record of a listing is a stored row that passes both filters,
    and a page never holds more records than a page size of at least 1
    allows. *)
Theorem get_records_rows_match
  (cls : class_attributes) (args : request_args) (rows : list sql_row)
  (resp : Listing.t) :
  get_records cls args rows = Json200 resp ->
  (forall x, In x (Listing.records resp) ->
             In x rows
             /\ matches_filters (args_get (arg_country args) "")
                                (args_get (arg_continent args) "") x = true)
  /\ (1 <= Listing.per_page resp ->
      Z.of_nat (length (Listing.records resp)) <= Listing.per_page resp).
Proof.
  intros H. rewrite get_records_spec in H.
  destruct (getattr cls (args_get (arg_sort_by args) "total_cases")) as [key|e];
    [ | discriminate H ].
  destruct (page_fits (args_get (arg_page args) 1)
                      (args_get (arg_per_page args) 10)); [ | discriminate H ].
  destruct (like_fits (args_get (arg_country args) "") rows);
    [ | discriminate H ].
  injection H as <-. unfold listing_page.
  cbn [Listing.records Listing.per_page]. split.
  - intros x Hx. apply In_take, In_drop in Hx.
    by apply (listing_by_key_In args key rows x).
  - intros Hpp. rewrite length_take. unfold served_per_page.
    destruct (Z.ltb_spec (args_get (arg_per_page args) 10) 1); lia.
Qed.

Lemma get_records_rows_match_witness :
  let args := mk_request_args (Some 2) (Some 10) None (Some "Asia") None None in
  exists resp,
    get_records no_other_attribute args sample_table_25 = Json200 resp
    /\ length (Listing.records resp) = 10%nat
    /\ (forall x, In x (Listing.records resp) ->
                  In x sample_table_25
                  /\ matches_filters (args_get (arg_country args) "")
                                     (args_get (arg_continent args) "") x = true)
    /\ (1 <= Listing.per_page resp ->
        Z.of_nat (length (Listing.records resp)) <= Listing.per_page resp).
Proof.
  intros args.
  assert (H : get_records no_other_attribute args sample_table_25
              = Json200 (listing_page args
                           (listing_sequence args c_total_cases sample_table_25)))
    by (rewrite (get_records_column _ args _ c_total_cases eq_refl); reflexivity).
  eexists. split; [ exact H | ].
  split; [ vm_compute; reflexivity | ].
  apply (get_records_rows_match no_other_attribute args sample_table_25 _ H).
Defined.

Lemma args_get_Some {A : Type} (a dflt : A) : args_get (Some a) dflt = a.
Proof. reflexivity. Qed.

Lemma chunks_concat {A : Type} (n m : nat) (l : list A) :
  (length l <= m * n)%nat ->
  flat_map (fun k => take n (drop (k * n) l)) (seq 0 m) = l.
Proof.
  revert l. induction m as [|m IH]; intros l Hlen.
  - destruct l; [ reflexivity | simpl in Hlen; lia ].
  - cbn [seq flat_map]. rewrite <- seq_shift, flat_map_concat_map, map_map.
    rewrite <- flat_map_concat_map.
    rewrite (flat_map_ext _ (fun k => take n (drop (k * n) (drop n l)))).
    + rewrite IH by (rewrite length_drop; lia).
      simpl. apply take_drop.
    + intros k. rewrite drop_drop. reflexivity.
Qed.

(** X19. The pages of a listing partition it: for a page size of at least
    1 and a total that the engine can count, the records of pages 1 up to
    the reported number of pages, one after the other, are the whole filtered
    and sorted sequence. *)
Theorem get_records_pages_partition
  (cls : class_attributes) (args : request_args) (rows : list sql_row)
  (resp : Listing.t) (col : column) :
  getattr_column (args_get (arg_sort_by args) "total_cases") = Ok col ->
  get_records cls args rows = Json200 resp ->
  1 <= Listing.per_page resp ->
  Listing.total resp <= sqlite_max ->
  flat_map (fun p => records_of (get_records cls (with_page (Z.of_nat p) args) rows))
           (seq 1 (Z.to_nat (Listing.pages resp)))
  = listing_sequence args col rows.
Proof.
  intros Hcol H Hpp Htotal.
  rewrite (get_records_column cls args rows col Hcol) in H.
  destruct (page_fits (args_get (arg_page args) 1)
                      (args_get (arg_per_page args) 10)) eqn:Hfits;
    [ | discriminate H ].
  destruct (like_fits (args_get (arg_country args) "") rows) eqn:Hlike;
    [ | discriminate H ].
  injection H as <-. unfold listing_page in *.
  cbn [Listing.per_page Listing.pages Listing.total] in *.
  set (pp := args_get (arg_per_page args) 10) in *.
  set (L := listing_sequence args col rows) in *.
  assert (Hspp : served_per_page pp = pp).
  { unfold served_per_page. destruct (Z.ltb_spec pp 1); lia. }
  rewrite Hspp, pages_ceil_div.
  apply page_fits_spec in Hfits as [Hlimit _]. rewrite Hspp in Hlimit.
  pose proof (ceil_div_bounds (Z.of_nat (length L)) pp ltac:(lia)) as Hb.
  rewrite <- seq_shift, flat_map_concat_map, map_map, <- flat_map_concat_map.
  rewrite (flat_map_ext _ (fun k => take (Z.to_nat pp)
                                         (drop (k * Z.to_nat pp) L))).
  - apply chunks_concat. nia.
  - intros k.
    rewrite (get_records_column cls (with_page (Z.of_nat (Datatypes.S k)) args)
               rows col Hcol).
    cbn [with_page arg_page arg_per_page arg_country].
    rewrite args_get_Some, Hlike. fold pp.
    assert (Hsp : served_page (Z.of_nat (Datatypes.S k)) = Z.of_nat (Datatypes.S k)).
    { unfold served_page. destruct (Z.ltb_spec (Z.of_nat (Datatypes.S k)) 1); lia. }
    destruct (page_fits (Z.of_nat (Datatypes.S k)) pp) eqn:Hk.
    + unfold listing_page. cbn [records_of Listing.records with_page arg_page
                                arg_per_page].
      rewrite !args_get_Some. fold pp. rewrite Hspp, Hsp.
      change (listing_sequence (with_page (Z.of_nat (Datatypes.S k)) args) col rows)
        with L.
      do 2 f_equal. nia.
    + cbn [records_of]. symmetry.
      assert (Hn : ~ (served_per_page pp <= sqlite_max
                      /\ (served_page (Z.of_nat (Datatypes.S k)) - 1)
                         * served_per_page pp <= sqlite_max)).
      { rewrite <- page_fits_spec, Hk. discriminate. }
      rewrite Hspp, Hsp in Hn.
      rewrite drop_ge; [ apply take_nil | nia ].
Qed.

Lemma get_records_pages_partition_witness :
  let args := mk_request_args None (Some 10) None None None None in
  exists resp,
    get_records no_other_attribute args sample_table_25 = Json200 resp
    /\ Listing.pages resp = 3
    /\ flat_map
         (fun p => records_of (get_records no_other_attribute
                                 (with_page (Z.of_nat p) args) sample_table_25))
         (seq 1 (Z.to_nat (Listing.pages resp)))
       = listing_sequence args c_total_cases sample_table_25.
Proof.
  intros args.
  assert (H : get_records no_other_attribute args sample_table_25
              = Json200 (listing_page args
                           (listing_sequence args c_total_cases sample_table_25)))
    by (rewrite (get_records_column _ args _ c_total_cases eq_refl); reflexivity).
  eexists. split; [ exact H | ].
  split; [ vm_compute; reflexivity | ].
  apply (get_records_pages_partition no_other_attribute args sample_table_25 _
           c_total_cases eq_refl H).
  - change (1 <= 10). lia.
  - vm_compute. discriminate.
Defined.

(** X20. A page after the last one is empty; it is not an error as long as
    its offset fits in 64 bits and the country filter can be evaluated. *)
Theorem get_records_page_beyond_last
  (cls : class_attributes) (args : request_args) (rows : list sql_row)
  (col : column) (page per_page : Z) :
  args_get (arg_page args) 1 = page ->
  args_get (arg_per_page args) 10 = per_page ->
  getattr_column (args_get (arg_sort_by args) "total_cases") = Ok col ->
  1 <= per_page ->
  per_page <= sqlite_max ->
  (page - 1) * per_page <= sqlite_max ->
  like_fits (args_get (arg_country args) "") rows = true ->
  ceil_div (Z.of_nat (length (List.filter
                                (matches_filters (args_get (arg_country args) "")
                                                 (args_get (arg_continent args) ""))
                                rows)))
           per_page < page ->
  exists resp,
    get_records cls args rows = Json200 resp
    /\ Listing.records resp = []
    /\ Listing.pages resp < Listing.page resp.
Proof.
  intros Hpage Hper Hcol Hpp Hlimit Hoffset Hlike Hlast.
  rewrite (get_records_column cls args rows col Hcol), Hpage, Hper, Hlike.
  rewrite <- (Permutation_length (listing_sequence_Permutation args col rows))
    in Hlast.
  set (L := listing_sequence args col rows) in *.
  pose proof (ceil_div_bounds (Z.of_nat (length L)) per_page ltac:(lia)) as Hb.
  assert (0 <= ceil_div (Z.of_nat (length L)) per_page) by nia.
  assert (Hsp : served_page page = page).
  { unfold served_page. destruct (Z.ltb_spec page 1); lia. }
  assert (Hspp : served_per_page per_page = per_page).
  { unfold served_per_page. destruct (Z.ltb_spec per_page 1); lia. }
  assert (Hfits : page_fits page per_page = true).
  { apply page_fits_spec. rewrite Hsp, Hspp. lia. }
  rewrite Hfits. eexists. split; [ reflexivity | ].
  unfold listing_page. cbn [Listing.records Listing.pages Listing.page].
  rewrite Hpage, Hper, Hsp, Hspp, pages_ceil_div.
  split; [ | exact Hlast ].
  rewrite drop_ge; [ apply take_nil | nia ].
Qed.

Lemma get_records_page_beyond_last_witness :
  let args := mk_request_args (Some 4) (Some 10) None None None None in
  exists resp,
    get_records no_other_attribute args sample_table_25 = Json200 resp
    /\ Listing.records resp = []
    /\ Listing.pages resp < Listing.page resp.
Proof.
  intros args.
  apply (get_records_page_beyond_last no_other_attribute args sample_table_25
           c_total_cases 4 10);
    try reflexivity; try lia; vm_compute; discriminate.
Defined.

(** The offset of a page far beyond the last one does not fit: the view
    answers 500 instead of an empty page. *)
Example get_records_page_out_of_range :
  get_records no_other_attribute
              (mk_request_args (Some (2 ^ 63)) (Some 10) None None None None)
              sample_table_25
  = Error500 OverflowError.
Proof. vm_compute. reflexivity. Qed.

(** X21. A page number below 1 is served as page 1. *)
Theorem get_records_page_below_one
  (cls : class_attributes) (args : request_args) (rows : list sql_row) :
  args_get (arg_page args) 1 < 1 ->
  records_of (get_records cls args rows)
  = records_of (get_records cls (with_page 1 args) rows).
Proof.
  intros Hpage. rewrite !get_records_spec.
  cbn [with_page arg_page arg_per_page arg_country arg_continent arg_sort_by
       arg_order].
  destruct (getattr cls (args_get (arg_sort_by args) "total_cases")) as [key|e];
    [ | reflexivity ].
  rewrite args_get_Some.
  assert (Hsp : served_page (args_get (arg_page args) 1) = served_page 1).
  { unfold served_page.
    destruct (Z.ltb_spec (args_get (arg_page args) 1) 1); [ reflexivity | lia ]. }
  unfold page_fits, listing_page.
  cbn [with_page arg_page arg_per_page arg_country]. rewrite args_get_Some, Hsp.
  destruct (fits_sqlite (served_per_page (args_get (arg_per_page args) 10))
            && fits_sqlite ((served_page 1 - 1)
                            * served_per_page (args_get (arg_per_page args) 10)));
    [ | reflexivity ].
  destruct (like_fits (args_get (arg_country args) "") rows); reflexivity.
Qed.

Lemma get_records_page_below_one_witness :
  let args := mk_request_args (Some (-3)) (Some 10) None None None None in
  args_get (arg_page args) 1 < 1
  /\ map id (records_of (get_records no_other_attribute args sample_table_25))
     = [25; 24; 23; 22; 21; 20; 19; 18; 17; 16]
  /\ records_of (get_records no_other_attribute args sample_table_25)
     = records_of (get_records no_other_attribute (with_page 1 args)
                     sample_table_25).
Proof.
  intros args.
  assert (H : args_get (arg_page args) 1 < 1) by (cbn; lia).
  split; [ exact H | ].
  split; [ vm_compute; reflexivity | ].
  apply (get_records_page_below_one no_other_attribute args sample_table_25 H).
Defined.

(** ** Query Service: the country filter *)










(** The wildcard characters of a search text are not taken literally. *)
Example country_matches_wildcard :
  country_matches "P_r" (sample_row 1 "Peru" 0 0 0) = true
  /\ country_matches "P%u" (sample_row 1 "Peru" 0 0 0) = true
  /\ country_matches "Pr" (sample_row 1 "Peru" 0 0 0) = false.
Proof. vm_compute. repeat split. Qed.

(** ** Query Service: continents *)

Lemma NoDup_list_filter {A : Type} (f : A -> bool) (l : list A) :
  NoDup l -> NoDup (List.filter f l).
Proof.
  induction 1 as [|x l Hx Hl IH]; simpl; [ constructor | ].
  destruct (f x); [ | exact IH ].
  constructor; [ | exact IH ].
  intros Hin. apply Hx. apply list_elem_of_In in Hin.
  apply List.filter_In in Hin as [Hin _]. by apply list_elem_of_In.
Qed.

Lemma NoDup_sql_distinct (l : list string) : NoDup (sql_distinct l).
Proof. unfold sql_distinct. rewrite reverse_Permutation. apply NoDup_remove_dups. Qed.

Lemma elem_of_sql_distinct (l : list string) (c : string) :
  c ∈ sql_distinct l <-> c ∈ l.
Proof.
  unfold sql_distinct.
  by rewrite elem_of_reverse, elem_of_remove_dups, elem_of_reverse.
Qed.

(** X23. The Continents operation returns each continent once: a name is
    returned exactly when some stored row has it and it is neither
    ["Unknown"] nor empty; rows without a continent contribute nothing. *)
Theorem get_continents_distinct (rows : list sql_row) :
  exists names,
    get_continents rows = Json200 names
    /\ NoDup names
    /\ forall c,
         In c names
         <-> c <> "Unknown" /\ c <> ""
             /\ exists x, In x rows /\ continent (attrs x) = Some c.
Proof.
  eexists. split; [ reflexivity | ]. split.
  - apply NoDup_list_filter, NoDup_sql_distinct.
  - intros c. rewrite List.filter_In, <- list_elem_of_In, elem_of_sql_distinct.
    rewrite list_elem_of_In, List.filter_In, <- list_elem_of_In.
    rewrite list_elem_of_omap.
    rewrite !negb_true_iff, !String.eqb_neq.
    split.
    + intros [[(x & Hx & Hc) Hu] He].
      split; [ exact Hu | ]. split; [ exact He | ].
      exists x. split; [ by apply list_elem_of_In | exact Hc ].
    + intros (Hu & He & x & Hx & Hc).
      split; [ | exact He ]. split; [ | exact Hu ].
      exists x. split; [ by apply list_elem_of_In | exact Hc ].
Qed.

(** The names come in the order in which the table first holds them. *)
Example get_continents_order :
  let row i c := mk_CovidRecord i
    (mk_cleaned_record "X" "X" c None None None None None None None None
       None None None None) 0 : sql_row in
  get_continents [row 1 (Some "Asia"); row 2 (Some "Unknown"); row 3 None;
                  row 4 (Some "Africa"); row 5 (Some ""); row 6 (Some "Asia");
                  row 7 (Some "Europe"); row 8 (Some "Africa")]
  = Json200 ["Asia"; "Africa"; "Europe"].
Proof. vm_compute. reflexivity. Qed.

(** ** Query Service: top countries *)

Lemma listing_by_key_unfiltered (args : request_args) (key : sort_key)
  (rows : list sql_row) :
  args_get (arg_country args) "" = "" ->
  args_get (arg_continent args) "" = "" ->
  listing_by_key args key rows
  = order_by_key (direction_of_order (arg_order args)) key rows.
Proof.
  intros Hc Hk. unfold listing_by_key. rewrite Hc, Hk.
  by rewrite (List.filter_ext _ (fun _ => true)), filter_all.
Qed.

(** X24. For a limit of at least 1, the Top-N operation returns the records
    of the first page of the listing sorted by the same field in descending
    order with the limit as page size, and fails when the listing fails. *)
Theorem get_top_countries_first_page
  (cls : class_attributes) (targs : top_args) (rows : list sql_row) :
  1 <= args_get (arg_limit targs) 10 ->
  match get_top_countries cls targs rows with
  | Json200 countries =>
      exists resp,
        get_records cls
                    (mk_request_args (Some 1) (Some (args_get (arg_limit targs) 10))
                       None None (arg_metric targs) (Some "desc")) rows
        = Json200 resp
        /\ Listing.records resp = countries
  | Error500 e =>
      get_records cls
                  (mk_request_args (Some 1) (Some (args_get (arg_limit targs) 10))
                     None None (arg_metric targs) (Some "desc")) rows
      = Error500 e
  end.
Proof.
  intros Hlimit. rewrite get_records_spec.
  unfold get_top_countries, top_countries_body, mbind, result_bind, mret,
    result_ret.
  cbn [arg_page arg_per_page arg_sort_by arg_country].
  rewrite !args_get_Some.
  change (like_fits (args_get None "") rows) with true.
  destruct (getattr cls (args_get (arg_metric targs) "total_cases"))
    as [key|e]; [ | reflexivity ].
  rewrite listing_by_key_unfiltered by reflexivity.
  change (direction_of_order _) with Desc.
  set (limit := args_get (arg_limit targs) 10) in *.
  unfold sql_limit, bind_int, page_fits, mbind, result_bind, mret, result_ret.
  assert (Hspp : served_per_page limit = limit).
  { unfold served_per_page. destruct (Z.ltb_spec limit 1); lia. }
  rewrite Hspp.
  change ((served_page 1 - 1) * limit) with (0 * limit). rewrite Z.mul_0_l.
  change (fits_sqlite 0) with true. rewrite andb_true_r.
  destruct (fits_sqlite limit); [ | reflexivity ].
  eexists. split; [ reflexivity | ].
  unfold listing_page. cbn [Listing.records arg_page arg_per_page].
  rewrite !args_get_Some. fold limit. rewrite Hspp.
  change ((served_page 1 - 1) * limit) with (0 * limit). rewrite Z.mul_0_l.
  destruct (Z.ltb_spec limit 0) as [?|_]; [ lia | ].
  reflexivity.
Qed.

Lemma get_top_countries_first_page_witness :
  let targs := mk_top_args None (Some 3) in
  1 <= args_get (arg_limit targs) 10
  /\ match get_top_countries no_other_attribute targs sample_table_25 with
     | Json200 countries =>
         map id countries = [25; 24; 23]
         /\ exists resp,
              get_records no_other_attribute
                          (mk_request_args (Some 1)
                             (Some (args_get (arg_limit targs) 10))
                             None None (arg_metric targs) (Some "desc"))
                          sample_table_25
              = Json200 resp
              /\ Listing.records resp = countries
     | Error500 e => False
     end.
Proof.
  intros targs.
  assert (H : 1 <= args_get (arg_limit targs) 10) by (cbn; lia).
  split; [ exact H | ].
  pose proof (get_top_countries_first_page no_other_attribute targs
                sample_table_25 H) as Hfirst.
  destruct (get_top_countries no_other_attribute targs sample_table_25)
    as [countries|e] eqn:E.
  - split; [ | exact Hfirst ].
    vm_compute in E. injection E as <-. reflexivity.
  - vm_compute in E. discriminate E.
Defined.

Lemma opt_leb_Z_trans (a b c : option Z) :
  opt_leb Z.leb a b = true -> opt_leb Z.leb b c = true ->
  opt_leb Z.leb a c = true.
Proof.
  destruct a, b, c; simpl; try congruence.
  rewrite !Z.leb_le. lia.
Qed.

Lemma column_leb_trans (col : column) (a b c : sql_row) :
  integer_column col = true ->
  column_leb col a b = true -> column_leb col b c = true ->
  column_leb col a c = true.
Proof.
  destruct col; try discriminate; intros _; cbn;
    first [ apply opt_leb_Z_trans | rewrite !Z.leb_le; lia ].
Qed.

(** X25. For a limit that is not negative and fits in 64 bits, the Top-N
    operation returns [min limit n] of the [n] stored rows, in descending
    order of the metric, and leaves out the others; for an integer metric no
    row left out has a larger value than a row returned (NULL counting as
    smallest). *)
Theorem get_top_countries_top
  (cls : class_attributes) (targs : top_args) (rows : list sql_row)
  (col : column) :
  getattr_column (args_get (arg_metric targs) "total_cases") = Ok col ->
  0 <= args_get (arg_limit targs) 10 <= sqlite_max ->
  exists countries rest,
    get_top_countries cls targs rows = Json200 countries
    /\ length countries
       = Nat.min (Z.to_nat (args_get (arg_limit targs) 10)) (length rows)
    /\ (length countries + length rest = length rows)%nat
    /\ Permutation (countries ++ rest) rows
    /\ Sorted (order_rel Desc col) countries
    /\ (integer_column col = true ->
        forall x y, In x countries -> In y rest -> column_leb col y x = true).
Proof.
  intros Hcol Hlimit.
  unfold get_top_countries, top_countries_body.
  rewrite (getattr_column_key cls _ col Hcol).
  unfold sql_limit, bind_int, mbind, result_bind, mret, result_ret.
  cbn [order_by_key].
  set (limit := args_get (arg_limit targs) 10) in *.
  assert (Hfits : fits_sqlite limit = true).
  { apply fits_sqlite_spec. unfold sqlite_min. lia. }
  rewrite Hfits.
  destruct (Z.ltb_spec limit 0) as [?|_]; [ lia | ].
  exists (take (Z.to_nat limit) (order_by Desc col rows)),
         (drop (Z.to_nat limit) (order_by Desc col rows)).
  split; [ reflexivity | ].
  split; [ by rewrite length_take, order_by_length | ].
  split; [ by rewrite <- length_app, take_drop, order_by_length | ].
  split; [ rewrite take_drop; apply order_by_Permutation | ].
  split; [ apply Sorted_take, order_by_Sorted | ].
  intros Hint x y Hx Hy.
  assert (Htrans : Transitive (order_rel Desc col)).
  { intros a b c Hab Hbc. unfold order_rel in *.
    apply Is_true_true. apply Is_true_true in Hab, Hbc.
    by apply (column_leb_trans col c b a Hint). }
  pose proof (order_by_Sorted Desc col rows) as Hsorted.
  apply (Sorted_StronglySorted (order_rel Desc col)) in Hsorted.
  rewrite <- (take_drop (Z.to_nat limit) (order_by Desc col rows)) in Hsorted.
  apply list_elem_of_In in Hx, Hy.
  pose proof (StronglySorted_app_1_elem_of _ _ _ x y Hsorted Hx Hy) as Hxy.
  unfold order_rel in Hxy. by apply Is_true_true in Hxy.
Qed.

Lemma get_top_countries_top_witness :
  let targs := mk_top_args (Some "total_cases") (Some 3) in
  getattr_column (args_get (arg_metric targs) "total_cases") = Ok c_total_cases
  /\ 0 <= args_get (arg_limit targs) 10 <= sqlite_max
  /\ map id (match get_top_countries no_other_attribute targs sample_table_25 with
             | Json200 countries => countries
             | Error500 _ => []
             end) = [25; 24; 23]
  /\ exists countries rest,
       get_top_countries no_other_attribute targs sample_table_25
       = Json200 countries
       /\ length countries
          = Nat.min (Z.to_nat (args_get (arg_limit targs) 10))
                    (length sample_table_25)
       /\ (length countries + length rest = length sample_table_25)%nat
       /\ Permutation (countries ++ rest) sample_table_25
       /\ Sorted (order_rel Desc c_total_cases) countries
       /\ (integer_column c_total_cases = true ->
           forall x y, In x countries -> In y rest ->
                       column_leb c_total_cases y x = true).
Proof.
  intros targs.
  assert (Hcol : getattr_column (args_get (arg_metric targs) "total_cases")
                 = Ok c_total_cases) by reflexivity.
  assert (Hlimit : 0 <= args_get (arg_limit targs) 10 <= sqlite_max)
    by (cbn; unfold sqlite_max; lia).
  split; [ exact Hcol | ]. split; [ exact Hlimit | ].
  split; [ vm_compute; reflexivity | ].
  apply (get_top_countries_top no_other_attribute targs sample_table_25
           c_total_cases Hcol Hlimit).
Defined.

(** A limit that does not fit in 64 bits cannot be bound: the view answers
    500. *)
Example get_top_countries_limit_out_of_range :
  get_top_countries no_other_attribute (mk_top_args None (Some (2 ^ 63)))
                    sample_table_25
  = Error500 OverflowError.
Proof. vm_compute. reflexivity. Qed.

(** ** Statistics after a repeated ingestion *)

Lemma reingestion_rows {S I F : Type} (utc : nat -> Z) (fails : nat -> bool)
  (records : list (cleaned_record S I F)) (w w1 w2 : database S I F) (n1 n2 : Z) :
  session_clean w ->
  store_data_in_db utc fails records w = (Ok n1, w1) ->
  n1 = Z.of_nat (length records) ->
  store_data_in_db utc fails records w1 = (Ok n2, w2) ->
  map forget_date (table w2) = map forget_date (table w1).
Proof.
  intros Hclean Hrun1 Hn1 Hrun2.
  pose proof (store_data_in_db_step utc fails records w Hclean) as [Hclean1 Ht1].
  rewrite Hrun1 in Hclean1, Ht1. cbn [snd] in Hclean1, Ht1.
  pose proof (store_data_in_db_step utc fails records w1 Hclean1) as [_ Ht2].
  rewrite Hrun2 in Ht2. cbn [snd] in Ht2.
  destruct Ht2 as [-> | ->]; [ reflexivity | ].
  destruct Ht1 as [Hsame | ->]; [ | apply upsert_all_twice ].
  destruct (store_data_in_db_cases utc fails records w)
    as (n & w' & Hrun & _ & Hcases).
  rewrite Hrun1 in Hrun. injection Hrun as <- <-.
  destruct Hcases as [(e & w'' & _ & Hn & _) | (_ & _ & Hview)].
  - assert (records = []) as -> by (destruct records; [ done | simpl in *; lia ]).
    reflexivity.
  - destruct Hclean as [Htxn Hnew].
    rewrite (pending_view_clean utc w Hnew), Htxn in Hview.
    replace (table w1)
      with (fst (upsert_all utc records (table w, clock_reads w)))
      by (by rewrite <- Hview).
    apply upsert_all_twice.
Qed.

Lemma get_statistics_forget_date {S F : Type}
  (l1 l2 : list (CovidRecord S (option Z) F)) :
  map forget_date l1 = map forget_date l2 ->
  get_statistics l1 = get_statistics l2.
Proof.
  intros H. unfold get_statistics, statistics_body.
  assert (Hcol : forall f : cleaned_record S (option Z) F -> option Z,
             map (fun x => f (attrs x)) l1 = map (fun x => f (attrs x)) l2).
  { intros f.
    assert (Hf : forall l : list (CovidRecord S (option Z) F),
               map (fun x => f (attrs x)) l
               = map (fun x => f (attrs x)) (map forget_date l))
      by (intros l; rewrite map_map; reflexivity).
    by rewrite (Hf l1), (Hf l2), H. }
  assert (Hlen : length l1 = length l2).
  { apply (f_equal length) in H. by rewrite !length_map in H. }
  by rewrite !Hcol, Hlen.
Qed.

(** X26. Ingesting a batch that has just been stored does not change the
    aggregate statistics. *)
Theorem get_statistics_after_reingestion {S F : Type}
  (utc : nat -> Z) (fails : nat -> bool)
  (records : list (cleaned_record S (option Z) F))
  (w w1 w2 : database S (option Z) F) (n1 n2 : Z) :
  session_clean w ->
  store_data_in_db utc fails records w = (Ok n1, w1) ->
  n1 = Z.of_nat (length records) ->
  store_data_in_db utc fails records w1 = (Ok n2, w2) ->
  get_statistics (table w2) = get_statistics (table w1).
Proof.
  intros Hclean Hrun1 Hn1 Hrun2.
  apply get_statistics_forget_date.
  by apply (reingestion_rows utc fails records w w1 w2 n1 n2).
Qed.

Lemma get_statistics_after_reingestion_witness :
  let records := [attrs (sample_row 0 "Peru" 60 10 0);
                  attrs (sample_row 0 "Chad" 40 0 50)] in
  let w : database (option string) (option Z) (option spec_float) :=
    mk_database [] [] [] 0 0 in
  let run1 := store_data_in_db sample_clock no_fault records w in
  let run2 := store_data_in_db sample_clock no_fault records (snd run1) in
  fst run1 = Ok 2
  /\ get_statistics (table (snd run1)) = Json200 (Stats.mk 2 100 10 50 40)
  /\ get_statistics (table (snd run2)) = get_statistics (table (snd run1)).
Proof.
  intros records w run1 run2.
  split; [ vm_compute; reflexivity | ].
  split; [ vm_compute; reflexivity | ].
  apply (get_statistics_after_reingestion sample_clock no_fault records w
           (snd run1) (snd run2) 2 2).
  - split; reflexivity.
  - vm_compute. reflexivity.
  - reflexivity.
  - vm_compute. reflexivity.
Defined.
